(** * Shop-the-look quick-view popup: a shallow embedding.

    The repository holds two renderings of one storefront widget:
    - [assets/product-grid-popup.js], an IIFE keeping its state in closure
      variables (module [Closure] below);
    - a second file declaring [class ProductGridPopup] (module [Class]).

    Both fetch a product, render option pickers, resolve the variant that
    matches the picks, format prices and post an items list to the cart.
    Pure parts are embedded as functions, the handlers as state-passing
    programs over an explicit DOM/closure state that record the network
    requests, timers, alerts and events they issue. *)

From stdpp Require Import gmap strings list fin_maps.
From Stdlib Require Import ZArith Ascii String DecimalString.

Local Open Scope string_scope.
Local Open Scope Z_scope.

(** ** JavaScript string primitives

    Strings are modelled on the ASCII range: [toLowerCase] folds [A-Z],
    [\s] and [trim] know the six ASCII white-space characters, [\d] and
    [\w] are the ASCII classes (as they are in JavaScript without the
    [u]/[i] flags).  On text whose characters are all below 128
    ([ascii_text] further down) these are the language's functions.
    Beyond it they are not: [trim] and [\s] also take U+00A0, U+FEFF,
    U+2028, U+2029 and the space separators, and [toLowerCase] folds
    letters outside [A-Z] (U+212A gives [k]).  A statement that reads a
    selection value or a template through them carries [ascii_text] as a
    hypothesis. *)
Module Js.

Definition is_digit (c : ascii) : bool :=
  let n := N_of_ascii c in (48 <=? n)%N && (n <=? 57)%N.

Definition is_upper (c : ascii) : bool :=
  let n := N_of_ascii c in (65 <=? n)%N && (n <=? 90)%N.

Definition is_lower (c : ascii) : bool :=
  let n := N_of_ascii c in (97 <=? n)%N && (n <=? 122)%N.

(** [\w] is [[A-Za-z0-9_]]. *)
Definition is_word (c : ascii) : bool :=
  is_digit c || is_upper c || is_lower c || (N_of_ascii c =? 95)%N.

(** [\s] on ASCII text: TAB, LF, VT, FF, CR and SPACE. *)
Definition is_space (c : ascii) : bool :=
  let n := N_of_ascii c in ((9 <=? n)%N && (n <=? 13)%N) || (n =? 32)%N.

Definition lower_char (c : ascii) : ascii :=
  if is_upper c then ascii_of_N (N_of_ascii c + 32) else c.

(** [s.toLowerCase()] on ASCII text *)
Fixpoint toLowerCase (s : string) : string :=
  match s with
  | EmptyString => EmptyString
  | String c r => String (lower_char c) (toLowerCase r)
  end.

Fixpoint trimStart (s : string) : string :=
  match s with
  | EmptyString => EmptyString
  | String c r => if is_space c then trimStart r else s
  end.

Fixpoint all_space (s : string) : bool :=
  match s with
  | EmptyString => true
  | String c r => is_space c && all_space r
  end.

Fixpoint trimEnd (s : string) : string :=
  match s with
  | EmptyString => EmptyString
  | String c r => if all_space s then EmptyString else String c (trimEnd r)
  end.

(** [s.trim()] on ASCII text *)
Definition trim (s : string) : string := trimEnd (trimStart s).

(** [s.includes(sub)] *)
Fixpoint includes (s sub : string) : bool :=
  String.prefix sub s ||
  match s with
  | EmptyString => false
  | String _ r => includes r sub
  end.

(** [s.split('.')] *)
Fixpoint split_dot (s : string) : list string :=
  match s with
  | EmptyString => [EmptyString]
  | String c r =>
      if Ascii.eqb c "."%char then EmptyString :: split_dot r
      else match split_dot r with
           | [] => [String c EmptyString]
           | p :: ps => String c p :: ps
           end
  end.

(** A string is truthy when it is not empty; [undefined] is falsy. *)
Definition truthy (o : option string) : bool :=
  match o with
  | Some (String _ _) => true
  | _ => false
  end.

(** [o || d] on an optional string argument. *)
Definition or_default (o : option string) (d : string) : string :=
  match o with
  | Some (String c r) => String c r
  | _ => d
  end.

(** Decimal numeral of a natural number, as [String(n)] prints it. *)
Definition decimal (n : N) : string := NilZero.string_of_uint (N.to_uint n).

(** Length of the longest prefix made of digits. *)
Fixpoint digit_run (s : string) : nat :=
  match s with
  | String c r => if is_digit c then S (digit_run r) else O
  | EmptyString => O
  end.

(** [s.replace(/(\d)(?=(\d{3})+(?!\d))/g, '$1' + thousands)].

    Every match is one digit; the look-ahead asks that the digits that
    follow it, up to the first non-digit, come in a positive number of
    complete triples.  Matches consume a single character, so every
    position is tested on its own. *)
Fixpoint group_thousands (thousands s : string) : string :=
  match s with
  | EmptyString => EmptyString
  | String c r =>
      let k := digit_run r in
      if is_digit c && negb (Nat.eqb k 0) && Nat.eqb (k mod 3) 0
      then String c (thousands ++ group_thousands thousands r)
      else String c (group_thousands thousands r)
  end.

(** [s] with zeros put before it up to [width] characters. *)
Definition pad_left (width : nat) (s : string) : string :=
  String.concat "" (repeat "0" (width - String.length s)%nat) ++ s.

(** [(num / 100).toFixed(precision)] for an integer [num].

    The quotient is rounded to [precision] decimals, halves away from
    zero, and the sign is printed apart, as Number.prototype.toFixed
    prescribes.  The widget calls it with precision 0 and 2 only; there
    the double nearest to [num / 100] rounds like the exact quotient
    (at precision 2 nothing is rounded, at precision 0 the ties
    [k + 0.5] are doubles), for every [num] of magnitude below 10^15.
    Beyond that magnitude the definition is exact arithmetic where the
    code rounds a double (from about 7 * 10^15 the two print different
    digits): a statement about every amount carries the bound
    [Z.abs num < 10 ^ 15] as a hypothesis. *)
Definition toFixed100 (num : Z) (precision : nat) : string :=
  let scale := 10 ^ Z.of_nat precision in
  let n := (Z.abs num * scale + 50) / 100 in
  let sign := if num <? 0 then "-" else "" in
  let whole := decimal (Z.to_N (n / scale)) in
  match precision with
  | O => sign ++ whole
  | _ => sign ++ whole ++ "." ++ pad_left precision (decimal (Z.to_N (n mod scale)))
  end.

(** *** The placeholder pattern [/\{\{\s*(\w+)\s*\}\}/] *)

Fixpoint span_word (s : string) : string * string :=
  match s with
  | String c r =>
      if is_word c then let '(w, t) := span_word r in (String c w, t)
      else (EmptyString, s)
  | EmptyString => (EmptyString, EmptyString)
  end.

(** Match anchored at the head of [s]: the captured word and what follows
    the closing braces.  White space, word characters and braces are
    disjoint classes, so the greedy run is the only way to match. *)
Definition placeholder_here (s : string) : option (string * string) :=
  match s with
  | String "{" (String "{" r) =>
      match span_word (trimStart r) with
      | (EmptyString, _) => None
      | (w, t) =>
          match trimStart t with
          | String "}" (String "}" rest) => Some (w, rest)
          | _ => None
          end
      end
  | _ => None
  end.

(** [s.match(re)] without the [g] flag: the leftmost match, as the text
    before it, capture group 1 and the text after it. *)
Fixpoint placeholder_match (s : string) : option (string * string * string) :=
  match placeholder_here s with
  | Some (w, rest) => Some (EmptyString, w, rest)
  | None =>
      match s with
      | EmptyString => None
      | String c r =>
          match placeholder_match r with
          | Some (pre, w, rest) => Some (String c pre, w, rest)
          | None => None
          end
      end
  end.

(** [s.replace(re, value)] for a [value] free of [$]: only the leftmost
    match is replaced, and a string without a match is returned as is. *)
Definition placeholder_replace (s value : string) : string :=
  match placeholder_match s with
  | Some (pre, _, rest) => pre ++ value ++ rest
  | None => s
  end.

End Js.

(** ** Data model shared by the two files *)

(** A variant of the product JSON.  Absent or [null] fields are [None];
    [variant_featured_image] holds the [src] of the image object. *)
Record Variant := {
  variant_id : Z;
  variant_price : Z;
  option1 : option string;
  option2 : option string;
  option3 : option string;
  variant_featured_image : option string
}.

#[global] Instance Variant_eq_dec : EqDecision Variant.
Proof. solve_decision. Defined.

(** The fields of the product JSON that the modelled functions read; [O]
    is the shape of an entry of [options]: the closure file reads each
    entry as the option name itself, the class reads its [name] field. *)
Record Product (O : Type) := {
  title : string;
  price : Z;
  featured_image : option string;
  options : list O;
  variants : list Variant
}.
Arguments title {O}. Arguments price {O}. Arguments featured_image {O}.
Arguments options {O}. Arguments variants {O}.

(** [v['option' + position]] *)
Definition variant_option (v : Variant) (position : nat) : option string :=
  match position with
  | 1%nat => option1 v
  | 2%nat => option2 v
  | 3%nat => option3 v
  | _ => None
  end.

(** The selection state is a plain object used as a map from option name
    to chosen value (option names are taken to be ordinary property names,
    not [__proto__]).  [Object.keys] and [Object.values] list its entries;
    the callbacks run over them have no effects, so [every] and [some] do
    not depend on the listing order. *)
Definition keys (o : gmap string string) : list string := (map_to_list o).*1.
Definition values (o : gmap string string) : list string := (map_to_list o).*2.

(** [window.theme.moneyFormat] and [window.Theme.moneyFormat]; [None] when
    the object or the property is missing. *)
Record Window := {
  theme_moneyFormat : option string;
  Theme_moneyFormat : option string;
  theme_CartDrawer : bool
}.

(** What the variant container holds after rendering, class names and
    data attributes left out. *)
Inductive Control :=
| Select (placeholder : string) (entries : list string) (value : string)
| Buttons (entries : list string) (active : nat).

Record PickerGroup := { group_label : string; group_control : Control }.

#[global] Instance Control_eq_dec : EqDecision Control.
Proof. solve_decision. Defined.
#[global] Instance PickerGroup_eq_dec : EqDecision PickerGroup.
Proof. solve_decision. Defined.

Record CartItem := { id : Z; quantity : Z }.

Record Cart := { item_count : Z }.

Record Button := { innerHTML : string; disabled : bool; backgroundColor : string }.

Record Img := { src : string; alt : string }.

(** Callbacks handed to [setTimeout]. *)
Inductive TimerCallback :=
| CloseAndRestore (origHTML : string)
| Restore (origHTML : string).

(** What a handler does to the world outside its own state. *)
Inductive Effect :=
| Fetch (url : string)
| Post (url : string) (items : list CartItem)
| Console (text : string)
| Alert (text : string)
| SetTimeout (callback : TimerCallback) (delay : Z)
| SetBadges (count : Z)
| CartDrawerUpdate
| Dispatch (event : string) (cart : Cart).

(** The answer to one [fetch]: the promise rejects, or it resolves to a
    response with its [ok] flag and the value [json()] yields ([None] when
    [json()] rejects). *)
Inductive Reply (B : Type) :=
| Rejected
| Replied (ok : bool) (body : option B).
Arguments Rejected {B}. Arguments Replied {B}.

(** The JSON of the bundled product as the handler inspects it: [null], or
    an object whose [variants] may be missing. *)
Inductive JacketJson :=
| JsonNull
| JsonProduct (jacket_variants : option (list Variant)).

Record Network := {
  jacket_reply : Reply JacketJson;
  cart_add_reply : Reply unit;
  cart_reply : Reply Cart
}.

Inductive Exn := TypeError | Error (message : string).

(** *** Programs over a state, with a log of effects and exceptions

    An [async] handler is run to its end against the replies the network
    gives; its effects are logged in program order and no other handler
    runs in between. *)
Section Prog.
Context {St : Type}.

Definition Prog (A : Type) : Type := St -> St * list Effect * (Exn + A).

Definition ret {A} (a : A) : Prog A := fun s => (s, [], inr a).
Definition throw {A} (e : Exn) : Prog A := fun s => (s, [], inl e).
Definition emit (e : Effect) : Prog unit := fun s => (s, [e], inr tt).
Definition get : Prog St := fun s => (s, [], inr s).
Definition modify (f : St -> St) : Prog unit := fun s => (f s, [], inr tt).

Definition bind {A B} (m : Prog A) (k : A -> Prog B) : Prog B :=
  fun s =>
    match m s with
    | (s1, t1, inr a) => let '(s2, t2, r) := k a s1 in (s2, (t1 ++ t2)%list, r)
    | (s1, t1, inl e) => (s1, t1, inl e)
    end.

(** [try { body } catch (err) { handler }] *)
Definition try_catch {A} (body : Prog A) (handler : Exn -> Prog A) : Prog A :=
  fun s =>
    match body s with
    | (s1, t1, inl e) => let '(s2, t2, r) := handler e s1 in (s2, (t1 ++ t2)%list, r)
    | completed => completed
    end.
End Prog.
Arguments Prog : clear implicits.

Notation "'let*' x := m 'in' k" := (bind m (fun x => k))
  (at level 10, x name, m at level 100, k at level 200).
Notation "m ;;; k" := (bind m (fun _ => k))
  (at level 100, k at level 200, right associativity).

Definition final_state {St A} (r : St * list Effect * (Exn + A)) : St := r.1.1.
Definition effects {St A} (r : St * list Effect * (Exn + A)) : list Effect := r.1.2.
Definition outcome {St A} (r : St * list Effect * (Exn + A)) : Exn + A := r.2.

(** [await fetch(url)] followed by the [ok] test and [json()] are read off
    the reply the network gives. *)
Definition await_fetch {St B} (e : Effect) (r : Reply B) : Prog St (bool * option B) :=
  emit e ;;;
  match r with
  | Rejected => throw (Error "fetch")
  | Replied ok body => ret (ok, body)
  end.

Definition await_json {St B} (body : option B) : Prog St B :=
  match body with
  | Some b => ret b
  | None => throw (Error "json")
  end.

(** [el.textContent = text]; the labels the widget writes hold no markup
    character, so the element's [innerHTML] reads back as the same text. *)
Definition set_textContent (text : string) (b : Button) : Button :=
  {| innerHTML := text; disabled := disabled b; backgroundColor := backgroundColor b |}.

Definition set_innerHTML (html : string) (b : Button) : Button :=
  {| innerHTML := html; disabled := disabled b; backgroundColor := backgroundColor b |}.

Definition set_disabled (d : bool) (b : Button) : Button :=
  {| innerHTML := innerHTML b; disabled := d; backgroundColor := backgroundColor b |}.

Definition set_backgroundColor (c : string) (b : Button) : Button :=
  {| innerHTML := innerHTML b; disabled := disabled b; backgroundColor := c |}.

(** ** The closure file, [assets/product-grid-popup.js] *)
Module Closure.

(** The closure variables and the DOM nodes they point to.  An element
    that [getElementById] did not find is [None]; the popup shell itself
    is there, or [init] would have attached no handler. *)
Record State := {
  aria_hidden : bool;
  body_overflow : string;
  elImg : option Img;
  elPrice : option string;
  elVariants : option (list PickerGroup);
  elVarId : option (option Z);
  elAtcBtn : option Button;
  currentProduct : option (Product string);
  selectedVariant : option Variant;
  selections : gmap string string
}.

Definition set_popup (hidden : bool) (overflow : string) (st : State) : State :=
  {| aria_hidden := hidden; body_overflow := overflow; elImg := elImg st;
     elPrice := elPrice st; elVariants := elVariants st; elVarId := elVarId st;
     elAtcBtn := elAtcBtn st; currentProduct := currentProduct st;
     selectedVariant := selectedVariant st; selections := selections st |}.

Definition set_elImg (x : option Img) (st : State) : State :=
  {| aria_hidden := aria_hidden st; body_overflow := body_overflow st; elImg := x;
     elPrice := elPrice st; elVariants := elVariants st; elVarId := elVarId st;
     elAtcBtn := elAtcBtn st; currentProduct := currentProduct st;
     selectedVariant := selectedVariant st; selections := selections st |}.

Definition set_elPrice (x : option string) (st : State) : State :=
  {| aria_hidden := aria_hidden st; body_overflow := body_overflow st; elImg := elImg st;
     elPrice := x; elVariants := elVariants st; elVarId := elVarId st;
     elAtcBtn := elAtcBtn st; currentProduct := currentProduct st;
     selectedVariant := selectedVariant st; selections := selections st |}.

Definition set_elVariants (x : option (list PickerGroup)) (st : State) : State :=
  {| aria_hidden := aria_hidden st; body_overflow := body_overflow st; elImg := elImg st;
     elPrice := elPrice st; elVariants := x; elVarId := elVarId st;
     elAtcBtn := elAtcBtn st; currentProduct := currentProduct st;
     selectedVariant := selectedVariant st; selections := selections st |}.

Definition set_elVarId (x : option (option Z)) (st : State) : State :=
  {| aria_hidden := aria_hidden st; body_overflow := body_overflow st; elImg := elImg st;
     elPrice := elPrice st; elVariants := elVariants st; elVarId := x;
     elAtcBtn := elAtcBtn st; currentProduct := currentProduct st;
     selectedVariant := selectedVariant st; selections := selections st |}.

Definition set_elAtcBtn (x : option Button) (st : State) : State :=
  {| aria_hidden := aria_hidden st; body_overflow := body_overflow st; elImg := elImg st;
     elPrice := elPrice st; elVariants := elVariants st; elVarId := elVarId st;
     elAtcBtn := x; currentProduct := currentProduct st;
     selectedVariant := selectedVariant st; selections := selections st |}.

Definition set_currentProduct (x : option (Product string)) (st : State) : State :=
  {| aria_hidden := aria_hidden st; body_overflow := body_overflow st; elImg := elImg st;
     elPrice := elPrice st; elVariants := elVariants st; elVarId := elVarId st;
     elAtcBtn := elAtcBtn st; currentProduct := x;
     selectedVariant := selectedVariant st; selections := selections st |}.

Definition set_selectedVariant (x : option Variant) (st : State) : State :=
  {| aria_hidden := aria_hidden st; body_overflow := body_overflow st; elImg := elImg st;
     elPrice := elPrice st; elVariants := elVariants st; elVarId := elVarId st;
     elAtcBtn := elAtcBtn st; currentProduct := currentProduct st;
     selectedVariant := x; selections := selections st |}.

Definition set_selections (x : gmap string string) (st : State) : State :=
  {| aria_hidden := aria_hidden st; body_overflow := body_overflow st; elImg := elImg st;
     elPrice := elPrice st; elVariants := elVariants st; elVarId := elVarId st;
     elAtcBtn := elAtcBtn st; currentProduct := currentProduct st;
     selectedVariant := selectedVariant st; selections := x |}.

(** *** [formatMoney] *)

(** The nested helper [delimit(num, precision, thousands, decimal)];
    an omitted argument is [None]. *)
Definition delimit (num : Z) (precision : option nat)
    (thousands decimal : option string) : string :=
  let precision := match precision with None => 2%nat | Some p => p end in
  let thousands := Js.or_default thousands "," in
  let decimal := Js.or_default decimal "." in
  let fixed := Js.toFixed100 num precision in
  let parts := Js.split_dot fixed in
  let left := Js.group_thousands thousands (default "" (parts !! 0%nat)) in
  if Js.truthy (parts !! 1%nat)
  then left ++ decimal ++ default "" (parts !! 1%nat)
  else left.

(** [(window.theme && window.theme.moneyFormat) ||
     (window.Theme && window.Theme.moneyFormat) || '${{amount}}'] *)
Definition moneyFormat (w : Window) : string :=
  Js.or_default (theme_moneyFormat w)
    (Js.or_default (Theme_moneyFormat w) "${{amount}}").

(** [formatMoney(cents)] for a number [cents] holding an integer: the
    [parseInt(cents, 10) || 0] at its head gives the integer back as long
    as [String(cents)] is written without an exponent, that is below 10^21
    in magnitude (from there [parseInt] reads the leading digit alone); the
    bound [Z.abs cents < 10 ^ 15] that [Js.toFixed100] asks for covers
    it. *)
Definition formatMoney (w : Window) (cents : Z) : string :=
  let fmt := moneyFormat w in
  let key :=
    match Js.placeholder_match fmt with
    | Some (_, k, _) => k
    | None => "amount"
    end in
  let value :=
    if String.eqb key "amount" then delimit cents (Some 2%nat) None None
    else if String.eqb key "amount_no_decimals" then delimit cents (Some 0%nat) None None
    else if String.eqb key "amount_with_comma_separator"
         then delimit cents (Some 2%nat) (Some ".") (Some ",")
    else if String.eqb key "amount_no_decimals_with_comma_separator"
         then delimit cents (Some 0%nat) (Some ".") (Some ",")
    else if String.eqb key "amount_no_decimals_with_space_separator"
         then delimit cents (Some 0%nat) (Some " ") None
    else delimit cents (Some 2%nat) None None in
  Js.placeholder_replace fmt value.

(** *** Variant rendering *)

Definition getUniqueOptionValues (product : Product string) (position : nat)
    : list string :=
  fold_left
    (fun seen v =>
       let val := variant_option v position in
       if Js.truthy val && bool_decide (list_find (fun x => Some x = val) seen = None)
       then (seen ++ [default "" val])%list else seen)
    (variants product) [].

Definition buildSelect (name : string) (values : list string) (st : State)
    : Control * State :=
  let placeholder := "Choose your " ++ Js.toLowerCase name in
  match values with
  | v0 :: _ =>
      (Select placeholder values v0, set_selections (<[name := v0]> (selections st)) st)
  | [] => (Select placeholder values "", st)
  end.

Definition buildButtons (name : string) (values : list string) (st : State)
    : Control * State :=
  match values with
  | v0 :: _ =>
      (Buttons values 0, set_selections (<[name := v0]> (selections st)) st)
  | [] => (Buttons values 0, st)
  end.

Definition appendGroup (g : PickerGroup) (st : State) : State :=
  set_elVariants ((fun gs => (gs ++ [g])%list) <$> elVariants st) st.

(** One turn of [product.options.forEach(function (optionName, idx) ...)]. *)
Definition renderOption (product : Product string) (st : State)
    (entry : nat * string) : State :=
  let '(idx, optionName) := entry in
  let position := S idx in
  let values := getUniqueOptionValues product position in
  if Nat.eqb (List.length values) 0 then st
  else
    let '(control, st1) :=
      if String.eqb (Js.toLowerCase optionName) "size"
      then buildSelect optionName values st
      else buildButtons optionName values st in
    appendGroup {| group_label := optionName; group_control := control |} st1.

Definition renderVariantSelectors (product : Product string) (st : State) : State :=
  match elVariants st with
  | None => st
  | Some _ =>
      let st0 := set_elVariants (Some []) st in
      if Nat.eqb (List.length (options product)) 0
         || (Nat.eqb (List.length (options product)) 1
             && bool_decide (options product !! 0%nat = Some "Title"))
      then st0
      else fold_left (renderOption product) (imap pair (options product)) st0
  end.

(** *** Variant resolution *)

(** [currentProduct.options.indexOf(optName)], [None] standing for [-1]. *)
Definition indexOf (names : list string) (optName : string) : option nat :=
  fst <$> list_find (fun n => n = optName) names.

(** The callback handed to [variants.find]. *)
Definition satisfies (product : Product string) (selections : gmap string string)
    (v : Variant) : bool :=
  forallb
    (fun optName =>
       match indexOf (options product) optName with
       | None => true
       | Some idx => bool_decide (variant_option v (S idx) = selections !! optName)
       end)
    (keys selections).

Definition find_match (product : Product string) (selections : gmap string string)
    : option Variant :=
  List.find (satisfies product selections) (variants product).

Definition resolveVariant (w : Window) (st : State) : State :=
  match currentProduct st with
  | None => st
  | Some product =>
      match find_match product (selections st) with
      | Some m =>
          let st1 := set_selectedVariant (Some m) st in
          let st2 := set_elVarId ((fun _ => Some (variant_id m)) <$> elVarId st1) st1 in
          let st3 :=
            set_elPrice ((fun _ => formatMoney w (variant_price m)) <$> elPrice st2) st2 in
          match variant_featured_image m with
          | Some image_src =>
              set_elImg
                ((fun i => {| src := image_src; alt := alt i |}) <$> elImg st3) st3
          | None => st3
          end
      | None => st
      end
  end.

(** The user activates entry [i] of the picker group [g]: the [change]
    listener of a dropdown, the [click] listener of a button. *)
Definition activate (i : nat) (val : string) (c : Control) : Control :=
  match c with
  | Select placeholder entries _ => Select placeholder entries val
  | Buttons entries _ => Buttons entries i
  end.

Definition entries_of (c : Control) : list string :=
  match c with
  | Select _ entries _ => entries
  | Buttons entries _ => entries
  end.

Definition pick (w : Window) (g i : nat) (st : State) : State :=
  match elVariants st with
  | Some groups =>
      match groups !! g with
      | Some group =>
          match entries_of (group_control group) !! i with
          | Some val =>
              let group' :=
                {| group_label := group_label group;
                   group_control := activate i val (group_control group) |} in
              let st1 := set_elVariants (Some (<[g := group']> groups)) st in
              let st2 :=
                set_selections (<[group_label group := val]> (selections st1)) st1 in
              resolveVariant w st2
          | None => st
          end
      | None => st
      end
  | None => st
  end.

(** *** Closing, cart refresh, add to cart *)

Definition closePopup (st : State) : State :=
  set_selections ∅
    (set_selectedVariant None
       (set_currentProduct None (set_popup true "" st))).

(** [refreshCart()] is started without [await]; its steps are logged at
    the point of the call.  It catches whatever it throws. *)
Definition refreshCart (net : Network) : Prog State unit :=
  try_catch
    (let* res := await_fetch (Fetch "/cart.js") (cart_reply net) in
     let* cart := await_json res.2 in
     emit (SetBadges (item_count cart)) ;;;
     emit (Dispatch "cart:update" cart))
    (fun _ => emit (Console "[STL] Could not refresh cart state:")).

Definition some_value_is (target : string) (selections : gmap string string) : bool :=
  existsb (fun v => String.eqb (Js.trim (Js.toLowerCase v)) target) (values selections).

(** The bundle rule's [try] block, returning the items array after it. *)
Definition addJacket (net : Network) (items : list CartItem)
    : Prog State (list CartItem) :=
  try_catch
    (let* jacketRes :=
       await_fetch (Fetch "/products/soft-winter-jacket.js") (jacket_reply net) in
     if jacketRes.1 then
       let* jacket := await_json jacketRes.2 in
       match jacket with
       | JsonProduct (Some (first :: _)) =>
           ret (items ++ [{| id := variant_id first; quantity := 1 |}])%list
       | _ => ret items
       end
     else ret items)
    (fun _ => emit (Console "[STL] Could not fetch Soft Winter Jacket:") ;;; ret items).

Definition update_button (f : Button -> Button) : Prog State unit :=
  modify (fun st => set_elAtcBtn (f <$> elAtcBtn st) st).

Definition handleAddToCart (net : Network) : Prog State unit :=
  let* st := get in
  match selectedVariant st with
  | None => ret tt
  | Some selected =>
      let items := [{| id := variant_id selected; quantity := 1 |}] in
      let hasBlack := some_value_is "black" (selections st) in
      let hasMedium := some_value_is "medium" (selections st) in
      let* items := (if hasBlack && hasMedium then addJacket net items else ret items) in
      match elAtcBtn st with
      | None => throw TypeError
      | Some btn =>
          let origHTML := innerHTML btn in
          update_button (set_disabled true) ;;;
          update_button (set_textContent "Adding…") ;;;
          try_catch
            (let* res := await_fetch (Post "/cart/add.js" items) (cart_add_reply net) in
             if negb res.1 then throw (Error "Cart API returned")
             else
               update_button (set_textContent "Added ✓") ;;;
               refreshCart net ;;;
               emit (SetTimeout (CloseAndRestore origHTML) 900))
            (fun _ =>
               emit (Console "[STL] Add-to-cart error:") ;;;
               update_button (set_textContent "Error – try again") ;;;
               emit (SetTimeout (Restore origHTML) 2000))
      end
  end.

(** Running a callback that [setTimeout] was given. *)
Definition fire (cb : TimerCallback) (st : State) : State :=
  match cb with
  | CloseAndRestore origHTML =>
      let st1 := closePopup st in
      set_elAtcBtn ((fun b => set_disabled false (set_innerHTML origHTML b)) <$> elAtcBtn st1) st1
  | Restore origHTML =>
      set_elAtcBtn ((fun b => set_disabled false (set_innerHTML origHTML b)) <$> elAtcBtn st) st
  end.

End Closure.

(** ** The class file, [class ProductGridPopup] *)
Module Class.

(** An entry of [product.options] as the class reads it. *)
Record ProductOption := { name : string }.

(** The instance fields and the DOM nodes the methods look up by id on
    every call; a node that is not in the page is [None]. *)
Record State := {
  active : bool;
  aria_hidden : bool;
  body_overflow : string;
  popupImage : option Img;
  popupPrice : option string;
  popupVariants : option (list PickerGroup);
  popupVariantId : option (option Z);
  addToCartBtn : option Button;
  currentProduct : option (Product ProductOption);
  selectedVariant : option Variant;
  variantSelections : gmap string string
}.

Definition set_popup (act hidden : bool) (overflow : string) (st : State) : State :=
  {| active := act; aria_hidden := hidden; body_overflow := overflow;
     popupImage := popupImage st; popupPrice := popupPrice st;
     popupVariants := popupVariants st; popupVariantId := popupVariantId st;
     addToCartBtn := addToCartBtn st; currentProduct := currentProduct st;
     selectedVariant := selectedVariant st; variantSelections := variantSelections st |}.

Definition set_popupImage (x : option Img) (st : State) : State :=
  {| active := active st; aria_hidden := aria_hidden st; body_overflow := body_overflow st;
     popupImage := x; popupPrice := popupPrice st;
     popupVariants := popupVariants st; popupVariantId := popupVariantId st;
     addToCartBtn := addToCartBtn st; currentProduct := currentProduct st;
     selectedVariant := selectedVariant st; variantSelections := variantSelections st |}.

Definition set_popupPrice (x : option string) (st : State) : State :=
  {| active := active st; aria_hidden := aria_hidden st; body_overflow := body_overflow st;
     popupImage := popupImage st; popupPrice := x;
     popupVariants := popupVariants st; popupVariantId := popupVariantId st;
     addToCartBtn := addToCartBtn st; currentProduct := currentProduct st;
     selectedVariant := selectedVariant st; variantSelections := variantSelections st |}.

Definition set_popupVariants (x : option (list PickerGroup)) (st : State) : State :=
  {| active := active st; aria_hidden := aria_hidden st; body_overflow := body_overflow st;
     popupImage := popupImage st; popupPrice := popupPrice st;
     popupVariants := x; popupVariantId := popupVariantId st;
     addToCartBtn := addToCartBtn st; currentProduct := currentProduct st;
     selectedVariant := selectedVariant st; variantSelections := variantSelections st |}.

Definition set_popupVariantId (x : option (option Z)) (st : State) : State :=
  {| active := active st; aria_hidden := aria_hidden st; body_overflow := body_overflow st;
     popupImage := popupImage st; popupPrice := popupPrice st;
     popupVariants := popupVariants st; popupVariantId := x;
     addToCartBtn := addToCartBtn st; currentProduct := currentProduct st;
     selectedVariant := selectedVariant st; variantSelections := variantSelections st |}.

Definition set_addToCartBtn (x : option Button) (st : State) : State :=
  {| active := active st; aria_hidden := aria_hidden st; body_overflow := body_overflow st;
     popupImage := popupImage st; popupPrice := popupPrice st;
     popupVariants := popupVariants st; popupVariantId := popupVariantId st;
     addToCartBtn := x; currentProduct := currentProduct st;
     selectedVariant := selectedVariant st; variantSelections := variantSelections st |}.

Definition set_currentProduct (x : option (Product ProductOption)) (st : State) : State :=
  {| active := active st; aria_hidden := aria_hidden st; body_overflow := body_overflow st;
     popupImage := popupImage st; popupPrice := popupPrice st;
     popupVariants := popupVariants st; popupVariantId := popupVariantId st;
     addToCartBtn := addToCartBtn st; currentProduct := x;
     selectedVariant := selectedVariant st; variantSelections := variantSelections st |}.

Definition set_selectedVariant (x : option Variant) (st : State) : State :=
  {| active := active st; aria_hidden := aria_hidden st; body_overflow := body_overflow st;
     popupImage := popupImage st; popupPrice := popupPrice st;
     popupVariants := popupVariants st; popupVariantId := popupVariantId st;
     addToCartBtn := addToCartBtn st; currentProduct := currentProduct st;
     selectedVariant := x; variantSelections := variantSelections st |}.

Definition set_variantSelections (x : gmap string string) (st : State) : State :=
  {| active := active st; aria_hidden := aria_hidden st; body_overflow := body_overflow st;
     popupImage := popupImage st; popupPrice := popupPrice st;
     popupVariants := popupVariants st; popupVariantId := popupVariantId st;
     addToCartBtn := addToCartBtn st; currentProduct := currentProduct st;
     selectedVariant := selectedVariant st; variantSelections := x |}.

(** *** [formatMoney] *)

(** The nested helper.  [precision || 2] turns both a missing precision
    and the precision [0] into [2].  The [isNaN(number) || number == null]
    exit is never taken for a number holding an integer. *)
Definition formatWithDelimiters (number : Z) (precision : option nat)
    (thousands decimal : option string) : string :=
  let precision := match precision with Some (S p) => S p | _ => 2%nat end in
  let thousands := Js.or_default thousands "," in
  let decimal := Js.or_default decimal "." in
  let number := Js.toFixed100 number precision in
  let parts := Js.split_dot number in
  let dollarsAmount := Js.group_thousands thousands (default "" (parts !! 0%nat)) in
  let centsAmount :=
    if Js.truthy (parts !! 1%nat) then decimal ++ default "" (parts !! 1%nat) else "" in
  dollarsAmount ++ centsAmount.

(** [window.theme?.moneyFormat || '${{amount}}'] *)
Definition formatString (w : Window) : string :=
  Js.or_default (theme_moneyFormat w) "${{amount}}".

(** [formatMoney(cents)] for a number [cents] holding an integer.
    [formatString.match(placeholderRegex)[1]] indexes [null] when the
    template holds no placeholder, which throws a [TypeError]. *)
Definition formatMoney (w : Window) (cents : Z) : Exn + string :=
  match Js.placeholder_match (formatString w) with
  | None => inl TypeError
  | Some (_, key, _) =>
      let value :=
        if String.eqb key "amount" then formatWithDelimiters cents (Some 2%nat) None None
        else if String.eqb key "amount_no_decimals"
             then formatWithDelimiters cents (Some 0%nat) None None
        else if String.eqb key "amount_with_comma_separator"
             then formatWithDelimiters cents (Some 2%nat) (Some ".") (Some ",")
        else if String.eqb key "amount_no_decimals_with_comma_separator"
             then formatWithDelimiters cents (Some 0%nat) (Some ".") (Some ",")
        else if String.eqb key "amount_no_decimals_with_space_separator"
             then formatWithDelimiters cents (Some 0%nat) (Some " ") None
        else formatWithDelimiters cents (Some 2%nat) None None in
      inr (Js.placeholder_replace (formatString w) value)
  end.

(** *** Variant rendering *)

Definition getOptionValues (product : Product ProductOption) (position : nat)
    : list string :=
  fold_left
    (fun values variant =>
       let value := variant_option variant position in
       if Js.truthy value && negb (existsb (fun x => bool_decide (Some x = value)) values)
       then (values ++ [default "" value])%list else values)
    (variants product) [].

Definition appendGroup (g : PickerGroup) (st : State) : State :=
  set_popupVariants ((fun gs => (gs ++ [g])%list) <$> popupVariants st) st.

(** One turn of [optionNames.forEach((optionName, index) => ...)]; in both
    branches the inner [forEach] marks the entry of index 0 and stores
    it in [variantSelections]. *)
Definition renderOption (product : Product ProductOption) (st : State)
    (entry : nat * string) : State :=
  let '(index, optionName) := entry in
  let optionPosition := S index in
  let optionValues := getOptionValues product optionPosition in
  if Nat.eqb (List.length optionValues) 0 then st
  else
    let st1 :=
      match optionValues with
      | value :: _ =>
          set_variantSelections (<[optionName := value]> (variantSelections st)) st
      | [] => st
      end in
    let control :=
      if Js.includes (Js.toLowerCase optionName) "size"
      then Select ("Choose your " ++ Js.toLowerCase optionName) optionValues
             (default "" (head optionValues))
      else Buttons optionValues 0 in
    appendGroup {| group_label := optionName; group_control := control |} st1.

Definition renderVariants (product : Product ProductOption) (st : State) : State :=
  match popupVariants st with
  | None => st
  | Some _ =>
      let st0 := set_popupVariants (Some []) st in
      if Nat.eqb (List.length (options product)) 0
         || (Nat.eqb (List.length (options product)) 1
             && bool_decide (name <$> (options product !! 0%nat) = Some "Title"))
      then st0
      else
        let optionNames := name <$> options product in
        fold_left (renderOption product) (imap pair optionNames) st0
  end.

(** *** Variant resolution *)

(** [options.findIndex(opt => opt.name === optionName)] *)
Definition findIndex (opts : list ProductOption) (optionName : string) : option nat :=
  fst <$> list_find (fun opt => name opt = optionName) opts.

Definition satisfies (product : Product ProductOption)
    (variantSelections : gmap string string) (v : Variant) : bool :=
  forallb
    (fun optionName =>
       match findIndex (options product) optionName with
       | None => true
       | Some optionIndex =>
           let variantValue := variant_option v (S optionIndex) in
           bool_decide (variantValue = variantSelections !! optionName)
       end)
    (keys variantSelections).

Definition find_match (product : Product ProductOption)
    (variantSelections : gmap string string) : option Variant :=
  List.find (satisfies product variantSelections) (variants product).

Definition updateSelectedVariant (w : Window) : Prog State unit :=
  let* st := get in
  match currentProduct st with
  | None => ret tt
  | Some product =>
      match find_match product (variantSelections st) with
      | Some variant =>
          modify (set_selectedVariant (Some variant)) ;;;
          modify (fun s =>
                    set_popupVariantId
                      ((fun _ => Some (variant_id variant)) <$> popupVariantId s) s) ;;;
          match popupPrice st with
          | Some _ =>
              match formatMoney w (variant_price variant) with
              | inr text => modify (set_popupPrice (Some text))
              | inl e => throw e
              end
          | None => ret tt
          end ;;;
          match variant_featured_image variant with
          | Some image_src =>
              modify (fun s =>
                        set_popupImage
                          ((fun i => {| src := image_src; alt := alt i |}) <$> popupImage s) s)
          | None => ret tt
          end
      | None => ret tt
      end
  end.

Definition activate (i : nat) (val : string) (c : Control) : Control :=
  match c with
  | Select placeholder entries _ => Select placeholder entries val
  | Buttons entries _ => Buttons entries i
  end.

Definition entries_of (c : Control) : list string :=
  match c with
  | Select _ entries _ => entries
  | Buttons entries _ => entries
  end.

(** [handleVariantSelection(optionName, value, element)], for the element
    that shows entry [i] of group [g]. *)
Definition handleVariantSelection (w : Window) (g i : nat) : Prog State unit :=
  let* st := get in
  match popupVariants st with
  | Some groups =>
      match groups !! g with
      | Some group =>
          match entries_of (group_control group) !! i with
          | Some value =>
              let group' :=
                {| group_label := group_label group;
                   group_control := activate i value (group_control group) |} in
              modify (fun s =>
                        set_variantSelections
                          (<[group_label group := value]> (variantSelections s)) s) ;;;
              modify (set_popupVariants (Some (<[g := group']> groups))) ;;;
              updateSelectedVariant w
          | None => ret tt
          end
      | None => ret tt
      end
  | None => ret tt
  end.

(** *** Closing, cart count, add to cart *)

Definition closePopup (st : State) : State :=
  set_variantSelections ∅
    (set_selectedVariant None
       (set_currentProduct None (set_popup false true "" st))).

(** [updateCartCount()], started without [await] and logged at the point
    of the call. *)
Definition updateCartCount (w : Window) (net : Network) : Prog State unit :=
  try_catch
    (let* response := await_fetch (Fetch "/cart.js") (cart_reply net) in
     let* cart := await_json response.2 in
     emit (SetBadges (item_count cart)) ;;;
     (if theme_CartDrawer w then emit CartDrawerUpdate else ret tt) ;;;
     emit (Dispatch "cart:updated" cart))
    (fun _ => emit (Console "Error updating cart count:")).

Definition some_entry_is (target : string) (variantSelections : gmap string string)
    : bool :=
  existsb (fun kv => String.eqb (Js.trim (Js.toLowerCase kv.2)) target)
    (map_to_list variantSelections).

(** The inner [try] of the bundle rule.  [jacketProduct.variants.length]
    throws on a product without [variants]; the [catch] takes it. *)
Definition addJacket (net : Network) (items : list CartItem)
    : Prog State (list CartItem) :=
  try_catch
    (let* jacketResponse :=
       await_fetch (Fetch "/products/soft-winter-jacket.js") (jacket_reply net) in
     if jacketResponse.1 then
       let* jacketProduct := await_json jacketResponse.2 in
       match jacketProduct with
       | JsonNull => ret items
       | JsonProduct None => throw TypeError
       | JsonProduct (Some []) => ret items
       | JsonProduct (Some (first :: _)) =>
           ret (items ++ [{| id := variant_id first; quantity := 1 |}])%list
       end
     else ret items)
    (fun _ => emit (Console "Could not add Soft Winter Jacket:") ;;; ret items).

Definition update_button (f : Button -> Button) : Prog State unit :=
  modify (fun st => set_addToCartBtn (f <$> addToCartBtn st) st).

Definition handleAddToCart (w : Window) (net : Network) : Prog State unit :=
  let* st := get in
  match selectedVariant st with
  | None => emit (Alert "Please select a variant")
  | Some selected =>
      match addToCartBtn st with
      | None => throw TypeError
      | Some btn =>
          let originalText := innerHTML btn in
          try_catch
            (update_button (set_disabled true) ;;;
             update_button (set_textContent "Adding...") ;;;
             let items := [{| id := variant_id selected; quantity := 1 |}] in
             let hasBlack := some_entry_is "black" (variantSelections st) in
             let hasMedium := some_entry_is "medium" (variantSelections st) in
             emit (Console "Variant selections:") ;;;
             emit (Console "Has Black:") ;;;
             let* items :=
               (if hasBlack && hasMedium then addJacket net items else ret items) in
             let* response :=
               await_fetch (Post "/cart/add.js" items) (cart_add_reply net) in
             if negb response.1 then throw (Error "Failed to add to cart")
             else
               let* result := await_json response.2 in
               updateCartCount w net ;;;
               update_button (set_textContent "Added!") ;;;
               update_button (set_backgroundColor "#4CAF50") ;;;
               emit (SetTimeout (CloseAndRestore originalText) 1000))
            (fun _ =>
               emit (Console "Error adding to cart:") ;;;
               emit (Alert "Failed to add product to cart. Please try again.") ;;;
               update_button (set_innerHTML originalText) ;;;
               update_button (set_disabled false))
      end
  end.

(** Running the callback that [setTimeout] was given (the class only
    schedules [CloseAndRestore]). *)
Definition fire (cb : TimerCallback) (st : State) : State :=
  match cb with
  | CloseAndRestore originalText =>
      let st1 := closePopup st in
      set_addToCartBtn
        ((fun b => set_disabled false (set_backgroundColor "" (set_innerHTML originalText b)))
           <$> addToCartBtn st1) st1
  | Restore originalText =>
      set_addToCartBtn
        ((fun b => set_disabled false (set_innerHTML originalText b)) <$> addToCartBtn st) st
  end.

End Class.


(** * Opening the popup

    The two files beyond the functions modelled above: loading a product
    into the popup, and the listeners that [init] and
    [setupEventListeners] attach.  The page elements that only these
    functions write (title and description) are kept beside the state of
    the modules above.  Turning the description's markup into text is the
    browser's work ([tmp.innerHTML = raw; tmp.textContent]); it is taken as
    the parameter [strip_html].  A body that [json()] can read is a product
    object, as the product endpoint returns. *)

(** The product JSON with its description ([None] when missing or
    [null]). *)
Record ProductJson (O : Type) := {
  product : Product O;
  description : option string
}.
Arguments product {O}.
Arguments description {O}.

(** Where a click landed, as the listeners tell: inside a hotspot (with
    the value of its [data-product-handle] attribute, [None] when the
    attribute is missing), on the close button, on the backdrop (the popup
    element itself), or anywhere else. *)
Inductive ClickTarget :=
| Hotspot (handle : option string)
| CloseButton
| Backdrop
| Elsewhere.

Module ClosurePage.

Record Page := {
  widget : Closure.State;
  elTitle : option string;
  elDesc : option string
}.

Definition on_widget (f : Closure.State → Closure.State) (pg : Page) : Page :=
  {| widget := f (widget pg); elTitle := elTitle pg; elDesc := elDesc pg |}.

Definition set_elTitle (text : string) (pg : Page) : Page :=
  {| widget := widget pg; elTitle := (fun _ => text) <$> elTitle pg; elDesc := elDesc pg |}.

Definition set_elDesc (text : string) (pg : Page) : Page :=
  {| widget := widget pg; elTitle := elTitle pg; elDesc := (fun _ => text) <$> elDesc pg |}.

(** [showPopup()] *)
Definition showPopup (st : Closure.State) : Closure.State :=
  Closure.set_popup false "hidden" st.

(** [setLoading(loading)] *)
Definition setLoading (loading : bool) (st : Closure.State) : Closure.State :=
  Closure.set_elAtcBtn (set_disabled loading <$> Closure.elAtcBtn st) st.

Section WithBrowser.
Variable strip_html : string → string.

(** [populatePopup(product)] *)
Definition populatePopup (w : Window) (json : ProductJson string) (pg : Page) : Page :=
  let p := product json in
  let pg1 :=
    on_widget
      (fun st =>
         match Closure.elImg st with
         | Some _ =>
             if Js.truthy (featured_image p)
             then Closure.set_elImg
                    (Some {| src := default "" (featured_image p); alt := title p |}) st
             else st
         | None => st
         end) pg in
  let pg2 := set_elTitle (title p) pg1 in
  let pg3 :=
    on_widget
      (fun st =>
         Closure.set_elPrice
           ((fun _ => Closure.formatMoney w (price p)) <$> Closure.elPrice st) st) pg2 in
  let pg4 := set_elDesc (strip_html (Js.or_default (description json) "")) pg3 in
  let pg5 := on_widget (Closure.renderVariantSelectors p) pg4 in
  let pg6 := on_widget (Closure.set_selectedVariant (head (variants p))) pg5 in
  on_widget
    (fun st =>
       match Closure.elVarId st, Closure.selectedVariant st with
       | Some _, Some selected => Closure.set_elVarId (Some (Some (variant_id selected))) st
       | _, _ => st
       end) pg6.

(** [openPopup(handle)]; the [finally] block runs after the [try] and
    after the [catch], which does not throw. *)
Definition openPopup (w : Window) (handle : string) (reply : Reply (ProductJson string))
    : Prog Page unit :=
  modify (on_widget (fun st =>
            Closure.set_selections ∅
              (Closure.set_selectedVariant None (Closure.set_currentProduct None st)))) ;;;
  modify (on_widget showPopup) ;;;
  modify (on_widget (setLoading true)) ;;;
  try_catch
    (let* res := await_fetch (Fetch ("/products/" ++ handle ++ ".js")) reply in
     if negb res.1 then throw (Error "HTTP")
     else
       let* json := await_json res.2 in
       modify (on_widget (Closure.set_currentProduct (Some (product json)))) ;;;
       modify (populatePopup w json))
    (fun _ =>
       emit (Console "[STL] Failed to load product:") ;;;
       modify (set_elTitle "Unable to load product")) ;;;
  modify (on_widget (setLoading false)).

(** A click anywhere in the document: [handleHotspotClick], the close
    button's listener and the backdrop's listener. *)
Definition onClick (w : Window) (target : ClickTarget) (reply : Reply (ProductJson string))
    : Prog Page unit :=
  match target with
  | Hotspot handle =>
      if Js.truthy handle then openPopup w (default "" handle) reply else ret tt
  | CloseButton => modify (on_widget Closure.closePopup)
  | Backdrop => modify (on_widget Closure.closePopup)
  | Elsewhere => ret tt
  end.

(** The [keydown] listener. *)
Definition onKeydown (key : string) (pg : Page) : Page :=
  if String.eqb key "Escape" && negb (Closure.aria_hidden (widget pg))
  then on_widget Closure.closePopup pg else pg.

(** *** The load between its suspension points

    [openPopup] above is the handler run to its end against the answer it
    gets.  In the browser it suspends at [await fetch(...)], and other
    listeners run before the answer settles it; there is no cancellation.
    The two pieces below are the handler before and after that point
    (nothing is written between [await fetch] and [await res.json()], so
    the two awaits make one point). *)

(** [openPopup(handle)] up to [await fetch(...)]: the reset, [showPopup],
    [setLoading(true)] and the request. *)
Definition openPopup_start (handle : string) : Prog Page unit :=
  modify (on_widget (fun st =>
            Closure.set_selections ∅
              (Closure.set_selectedVariant None (Closure.set_currentProduct None st)))) ;;;
  modify (on_widget showPopup) ;;;
  modify (on_widget (setLoading true)) ;;;
  emit (Fetch ("/products/" ++ handle ++ ".js")).

(** [openPopup] from the answer on: the rest of the [try], the [catch] and
    the [finally]. *)
Definition openPopup_settle (w : Window) (reply : Reply (ProductJson string))
    : Prog Page unit :=
  try_catch
    (let* res :=
       match reply with
       | Rejected => throw (Error "fetch")
       | Replied ok body => ret (ok, body)
       end in
     if negb res.1 then throw (Error "HTTP")
     else
       let* json := await_json res.2 in
       modify (on_widget (Closure.set_currentProduct (Some (product json)))) ;;;
       modify (populatePopup w json))
    (fun _ =>
       emit (Console "[STL] Failed to load product:") ;;;
       modify (set_elTitle "Unable to load product")) ;;;
  modify (on_widget (setLoading false)).

(** A click, up to the suspension of the load it may start. *)
Definition onClick_start (target : ClickTarget) : Prog Page unit :=
  match target with
  | Hotspot handle =>
      if Js.truthy handle then openPopup_start (default "" handle) else ret tt
  | CloseButton => modify (on_widget Closure.closePopup)
  | Backdrop => modify (on_widget Closure.closePopup)
  | Elsewhere => ret tt
  end.

(** Whether a click starts a load. *)
Definition opens (target : ClickTarget) : bool :=
  match target with
  | Hotspot handle => Js.truthy handle
  | _ => false
  end.

(** The page together with the number of loads whose answer is still
    out. *)
Record Session := {
  page : Page;
  in_flight : nat
}.

(** What can happen to the page: a click, the answer to a load that is
    out (with what the product endpoint gave; the answers settle in any
    order, at any later time), a key, a pick in a rendered group, a submit
    (with the answers of the network), a timer running out.  A submit is
    run to its end: [handleAddToCart] writes the submit control and nothing
    else of the state, before and after its awaits. *)
Inductive Event :=
| Click (target : ClickTarget)
| Answer (reply : Reply (ProductJson string))
| Keydown (key : string)
| Pick (g i : nat)
| Submit (net : Network)
| Timeout (callback : TimerCallback).

Definition step (w : Window) (s : Session) (e : Event) : Session :=
  match e with
  | Click target =>
      {| page := final_state (onClick_start target (page s));
         in_flight := if opens target then S (in_flight s) else in_flight s |}
  | Answer reply =>
      match in_flight s with
      | O => s
      | S n => {| page := final_state (openPopup_settle w reply (page s)); in_flight := n |}
      end
  | Keydown key => {| page := onKeydown key (page s); in_flight := in_flight s |}
  | Pick g i => {| page := on_widget (Closure.pick w g i) (page s); in_flight := in_flight s |}
  | Submit net =>
      {| page := on_widget (fun st => final_state (Closure.handleAddToCart net st)) (page s);
         in_flight := in_flight s |}
  | Timeout callback =>
      {| page := on_widget (Closure.fire callback) (page s); in_flight := in_flight s |}
  end.

Definition run (w : Window) (s : Session) (events : list Event) : Session :=
  fold_left (step w) events s.

End WithBrowser.
End ClosurePage.

Module ClassPage.

Record Page := {
  widget : Class.State;
  popupTitle : option string;
  popupDescription : option string
}.

Definition on_widget (f : Class.State → Class.State) (pg : Page) : Page :=
  {| widget := f (widget pg); popupTitle := popupTitle pg;
     popupDescription := popupDescription pg |}.

Definition set_popupTitle (text : string) (pg : Page) : Page :=
  {| widget := widget pg; popupTitle := (fun _ => text) <$> popupTitle pg;
     popupDescription := popupDescription pg |}.

Definition set_popupDescription (text : string) (pg : Page) : Page :=
  {| widget := widget pg; popupTitle := popupTitle pg;
     popupDescription := (fun _ => text) <$> popupDescription pg |}.

Definition set_active (st : Class.State) : Class.State :=
  Class.set_popup true (Class.aria_hidden st) (Class.body_overflow st) st.

(** [showLoadingState()] *)
Definition showLoadingState (pg : Page) : Page :=
  set_popupTitle "Loading..." (on_widget set_active pg).

(** [showErrorState()] *)
Definition showErrorState (pg : Page) : Page :=
  set_popupTitle "Error loading product" pg.

Definition fallback_description : string :=
  "This one-piece swimsuit is crafted from jersey featuring an all-over micro Monogram motif in relief.".

Section WithBrowser.
Variable strip_html : string → string.

(** [populatePopup(product)]; it throws where [formatMoney] does, and on
    [this.selectedVariant.id] when the product has no variant. *)
Definition populatePopup (w : Window) (json : ProductJson Class.ProductOption)
    : Prog Page unit :=
  let p := product json in
  modify (on_widget
            (fun st =>
               match Class.popupImage st with
               | Some _ =>
                   if Js.truthy (featured_image p)
                   then Class.set_popupImage
                          (Some {| src := default "" (featured_image p); alt := title p |}) st
                   else st
               | None => st
               end)) ;;;
  modify (set_popupTitle (title p)) ;;;
  (let* pg := get in
   match Class.popupPrice (widget pg) with
   | Some _ =>
       match Class.formatMoney w (price p) with
       | inr text => modify (on_widget (Class.set_popupPrice (Some text)))
       | inl e => throw e
       end
   | None => ret tt
   end) ;;;
  modify (set_popupDescription
            (if Js.truthy (description json)
                && Js.truthy (Some (Js.trim (default "" (description json))))
             then strip_html (default "" (description json))
             else fallback_description)) ;;;
  modify (on_widget (Class.renderVariants p)) ;;;
  modify (on_widget (Class.set_selectedVariant (head (variants p)))) ;;;
  let* pg := get in
  match Class.popupVariantId (widget pg) with
  | Some _ =>
      match Class.selectedVariant (widget pg) with
      | Some selected =>
          modify (on_widget (Class.set_popupVariantId (Some (Some (variant_id selected)))))
      | None => throw TypeError
      end
  | None => ret tt
  end.

(** [openPopup(productHandle)]; a missing handle attribute is printed as
    [null] by the template literal. *)
Definition openPopup (w : Window) (productHandle : option string)
    (reply : Reply (ProductJson Class.ProductOption)) : Prog Page unit :=
  try_catch
    (modify showLoadingState ;;;
     let* response :=
       await_fetch (Fetch ("/products/" ++ default "null" productHandle ++ ".js")) reply in
     if negb response.1 then throw (Error "Failed to fetch product data")
     else
       let* json := await_json response.2 in
       modify (on_widget (Class.set_currentProduct (Some (product json)))) ;;;
       populatePopup w json ;;;
       modify (on_widget (fun st => Class.set_popup true false "hidden" st)))
    (fun _ =>
       emit (Console "Error loading product:") ;;;
       modify showErrorState).

(** A click anywhere in the document: the quick-view listener opens the
    popup whatever the handle attribute holds. *)
Definition onClick (w : Window) (target : ClickTarget)
    (reply : Reply (ProductJson Class.ProductOption)) : Prog Page unit :=
  match target with
  | Hotspot productHandle => openPopup w productHandle reply
  | CloseButton => modify (on_widget Class.closePopup)
  | Backdrop => modify (on_widget Class.closePopup)
  | Elsewhere => ret tt
  end.

(** The [keydown] listener. *)
Definition onKeydown (key : string) (pg : Page) : Page :=
  if String.eqb key "Escape" && Class.active (widget pg)
  then on_widget Class.closePopup pg else pg.

(** What can happen to the page; every handler is run to its end with the
    answers it gets. *)
Inductive Event :=
| Click (target : ClickTarget) (reply : Reply (ProductJson Class.ProductOption))
| Keydown (key : string)
| Pick (g i : nat)
| Submit (net : Network)
| Timeout (callback : TimerCallback).

Definition step (w : Window) (pg : Page) (e : Event) : Page :=
  match e with
  | Click target reply => final_state (onClick w target reply pg)
  | Keydown key => onKeydown key pg
  | Pick g i => on_widget (fun st => final_state (Class.handleVariantSelection w g i st)) pg
  | Submit net => on_widget (fun st => final_state (Class.handleAddToCart w net st)) pg
  | Timeout callback => on_widget (Class.fire callback) pg
  end.

Definition run (w : Window) (pg : Page) (events : list Event) : Page :=
  fold_left (step w) events pg.

End WithBrowser.
End ClassPage.

(** * Specification-side notions *)

(** What the specification asks of a variant: every selected option name
    that the product declares carries the selected value at the 1-based
    position of its (first) declaration. *)
Definition meets (names : list string) (sel : gmap string string) (v : Variant) : Prop :=
  ∀ optName value i,
    sel !! optName = Some value →
    names !! i = Some optName →
    (∀ j, (j < i)%nat → names !! j ≠ Some optName) →
    variant_option v (S i) = Some value.

(** [r] is the first element of [vs], in list order, with property [P]. *)
Definition first_such (P : Variant → Prop) (vs : list Variant) (r : option Variant) : Prop :=
  match r with
  | Some v => ∃ pre post, vs = (pre ++ v :: post)%list ∧ P v ∧ Forall (fun u => ¬ P u) pre
  | None => Forall (fun u => ¬ P u) vs
  end.

(** The requests, timers and events in a log of effects. *)
Definition posted (t : list Effect) : list (string * list CartItem) :=
  omap (fun e => match e with Post url items => Some (url, items) | _ => None end) t.

Definition fetched (t : list Effect) : list string :=
  omap (fun e => match e with Fetch url => Some url | _ => None end) t.

Definition scheduled (t : list Effect) : list (TimerCallback * Z) :=
  omap (fun e => match e with SetTimeout cb d => Some (cb, d) | _ => None end) t.

Definition dispatched (t : list Effect) : list string :=
  omap (fun e => match e with Dispatch ev _ => Some ev | _ => None end) t.

(** Text within the range on which [Js.trim], [Js.toLowerCase] and the
    pattern classes are the language's: every character is below 128. *)
Definition is_ascii (c : ascii) : bool := (N_of_ascii c <? 128)%N.

Fixpoint ascii_text (s : string) : bool :=
  match s with
  | EmptyString => true
  | String c r => is_ascii c && ascii_text r
  end.

(** Every selected value is ASCII text. *)
Definition ascii_values (sel : gmap string string) : bool :=
  forallb ascii_text (values sel).

(** Some option, whatever its name, is set to [target] up to case and
    surrounding white space. *)
Definition selected_value (target : string) (sel : gmap string string) : Prop :=
  ∃ k x, sel !! k = Some x ∧ Js.trim (Js.toLowerCase x) = target.

Definition bundle_selected (sel : gmap string string) : Prop :=
  selected_value "black" sel ∧ selected_value "medium" sel.

(** The bundled product came back with at least one variant. *)
Definition jacket_first (r : Reply JacketJson) : option Variant :=
  match r with
  | Replied true (Some (JsonProduct (Some (first :: _)))) => Some first
  | _ => None
  end.

Definition line (v : Variant) : CartItem := {| id := variant_id v; quantity := 1 |}.

(** The POST to the cart endpoint threw or came back with a non-2xx
    status. *)
Definition post_failed (r : Reply unit) : Prop :=
  match r with
  | Rejected => True
  | Replied ok _ => ok = false
  end.

Definition restored (btn : Button) : Button :=
  {| innerHTML := innerHTML btn; disabled := false; backgroundColor := backgroundColor btn |}.

(** The items the cart request carries. *)
Definition expected_items (bundle : bool) (r : Reply JacketJson) (selected : Variant)
    : list CartItem :=
  line selected ::
    (if bundle then from_option (fun v => [line v]) [] (jacket_first r) else []).

(** The ways the fetch of the bundled product can fail to give a variant:
    the promise rejects, the status is not 2xx, the body is not JSON, or the
    product has no variant to take. *)
Inductive jacket_failure : Reply JacketJson → Prop :=
| jacket_network_error : jacket_failure Rejected
| jacket_bad_status body : jacket_failure (Replied false body)
| jacket_bad_body : jacket_failure (Replied true None)
| jacket_null : jacket_failure (Replied true (Some JsonNull))
| jacket_without_variants : jacket_failure (Replied true (Some (JsonProduct None)))
| jacket_no_variant : jacket_failure (Replied true (Some (JsonProduct (Some [])))).

(** The picker shown for an option with the values [vals]: a dropdown
    preset to the first value, or a row of buttons with the first one
    active. *)
Definition picker (dropdown : bool) (optionName : string) (vals : list string)
    : PickerGroup :=
  {| group_label := optionName;
     group_control :=
       if dropdown
       then Select ("Choose your " ++ Js.toLowerCase optionName) vals (default "" (head vals))
       else Buttons vals 0 |}.

(** The groups and the selections a rendering pass leaves behind, given
    which names get a dropdown and the values found at each position;
    an option without values gets no group and no selection. *)
Definition rendered_groups (dropdown : string → bool) (values_at : nat → list string)
    (entries : list (nat * string)) : list PickerGroup :=
  omap (fun e => match values_at (S e.1) with
                 | [] => None
                 | vals => Some (picker (dropdown e.2) e.2 vals)
                 end) entries.

Definition rendered_selections (values_at : nat → list string)
    (entries : list (nat * string)) (sel : gmap string string) : gmap string string :=
  fold_left (fun s e => match values_at (S e.1) with
                        | v0 :: _ => <[e.2 := v0]> s
                        | [] => s
                        end) entries sel.

(** No variant has a usable value at [position]. *)
Definition no_value_at (vs : list Variant) (position : nat) : Prop :=
  ∀ v, v ∈ vs → Js.truthy (variant_option v position) = false.

(** The two tests that pick a dropdown. *)
Definition closure_dropdown (optionName : string) : bool :=
  String.eqb (Js.toLowerCase optionName) "size".

Definition class_dropdown (optionName : string) : bool :=
  Js.includes (Js.toLowerCase optionName) "size".

(** The formatter of the specification takes the template as an argument;
    the code reads it from [window.theme]. *)
Definition template (fmt : string) : Window :=
  {| theme_moneyFormat := Some fmt; Theme_moneyFormat := None; theme_CartDrawer := false |}.

(** The modes that print no decimals. *)
Definition no_decimals_modes : list string :=
  ["amount_no_decimals"; "amount_no_decimals_with_comma_separator";
   "amount_no_decimals_with_space_separator"].

Definition recognised_modes : list string :=
  ["amount"; "amount_with_comma_separator"] ++ no_decimals_modes.

(** ** The mode table of the specification *)

(** Decimals, thousands separator and decimal mark of a mode; an unknown
    mode is read as [amount]. *)
Definition mode_table (mode : string) : nat * string * string :=
  if String.eqb mode "amount_no_decimals" then (0%nat, ",", ".")
  else if String.eqb mode "amount_with_comma_separator" then (2%nat, ".", ",")
  else if String.eqb mode "amount_no_decimals_with_comma_separator" then (0%nat, ".", ",")
  else if String.eqb mode "amount_no_decimals_with_space_separator" then (0%nat, " ", ".")
  else (2%nat, ",", ".").

Fixpoint all_digits (s : string) : bool :=
  match s with
  | EmptyString => true
  | String c r => Js.is_digit c && all_digits r
  end.

(** A numeral cut in groups of three digits counted from the right:
    [grouped sep s rest] holds when [rest] is [s] with [sep] put before
    every complete group of three that has a digit to its left. *)
Inductive grouped (sep : string) : string → string → Prop :=
| grouped_head s :
    all_digits s = true → (String.length s <= 3)%nat → grouped sep s s
| grouped_more s g a b c :
    grouped sep s g → s ≠ "" →
    Js.is_digit a = true → Js.is_digit b = true → Js.is_digit c = true →
    grouped sep (s ++ String a (String b (String c "")))
      (g ++ sep ++ String a (String b (String c ""))).

(** The amount as the table prescribes: sign, grouped whole part, and for
    a mode with decimals the mark and the two digits of the cents. *)
Definition whole_units (decimals : nat) (cents : Z) : N :=
  match decimals with
  | O => Z.to_N ((Z.abs cents + 50) / 100)
  | _ => Z.to_N (Z.abs cents / 100)
  end.

Definition cents_digits (cents : Z) : string :=
  Js.pad_left 2 (Js.decimal (Z.to_N (Z.abs cents mod 100))).

Definition rendered_amount (mode : string) (cents : Z) : string :=
  let '(decimals, thousands, mark) := mode_table mode in
  (if cents <? 0 then "-" else "")
  ++ Js.group_thousands thousands (Js.decimal (whole_units decimals cents))
  ++ match decimals with
     | O => ""
     | _ => mark ++ cents_digits cents
     end.

(** * Further notions *)

(** A usable value of the option at [position]: some variant carries it
    and it is not the empty string. *)
Definition value_at (vs : list Variant) (position : nat) (x : string) : Prop :=
  x ≠ "" ∧ ∃ v, v ∈ vs ∧ variant_option v position = Some x.

(** One turn of the loop that collects the values of an option. *)
Definition collect (position : nat) (seen : list string) (v : Variant) : list string :=
  let val := variant_option v position in
  if Js.truthy val && bool_decide (list_find (fun x => Some x = val) seen = None)
  then (seen ++ [default "" val])%list else seen.

(** What the cart refresh logs after a successful add: the fetch of the
    cart and, when the body can be read (whatever the status), the badge
    update, the drawer update where the theme has one, and the event under
    the name the file uses. *)
Definition refresh_log (event : string) (drawer : bool) (failure : string)
    (r : Reply Cart) : list Effect :=
  Fetch "/cart.js" ::
    match r with
    | Replied _ (Some cart) =>
        (SetBadges (item_count cart) ::
           (if drawer then [CartDrawerUpdate] else [])
           ++ [Dispatch event cart])%list
    | _ => [Console failure]
    end.


(** The characters of [\w+]. *)
Fixpoint all_word (s : string) : bool :=
  match s with
  | EmptyString => true
  | String c r => Js.is_word c && all_word r
  end.

(** A placeholder token: two opening braces, optional blanks, a non-empty
    word, optional blanks, two closing braces. *)
Definition token (ws1 key ws2 : string) : string :=
  "{{" ++ ws1 ++ key ++ ws2 ++ "}}".

Definition well_formed_token (ws1 key ws2 : string) : Prop :=
  Js.all_space ws1 = true ∧ Js.all_space ws2 = true ∧ all_word key = true ∧ key ≠ "".

(** [s] holds a placeholder token somewhere. *)
Definition has_token (s : string) : Prop :=
  ∃ pre ws1 key ws2 post,
    well_formed_token ws1 key ws2 ∧ s = pre ++ token ws1 key ws2 ++ post.

(** ** What holds of the closure file's state at all times *)

(** The selected variant is one of the current product's, and the hidden
    field, where the page has one, carries its id.  (That a hidden popup
    holds neither product nor variant is not part of it: an answer that
    settles after the popup was closed fills the hidden popup.) *)
Definition coherent (st : Closure.State) : Prop :=
  (∀ v, Closure.selectedVariant st = Some v →
        ∃ p, Closure.currentProduct st = Some p ∧ v ∈ variants p)
  ∧ (∀ v x, Closure.selectedVariant st = Some v → Closure.elVarId st = Some x →
            x = Some (variant_id v)).

(** The class: the selected variant is one of the current product's, and
    the hidden field, where the page has one, carries its id. *)
Definition class_coherent (st : Class.State) : Prop :=
  (∀ v, Class.selectedVariant st = Some v →
        ∃ q, Class.currentProduct st = Some q ∧ v ∈ variants q)
  ∧ (∀ v x, Class.selectedVariant st = Some v → Class.popupVariantId st = Some x →
            x = Some (variant_id v)).

(** The failures of a product fetch: rejection, a non-2xx status, a body
    that is not JSON. *)
Definition load_failed {B} (r : Reply B) : Prop :=
  match r with
  | Replied true (Some _) => False
  | _ => True
  end.

(** ** What the pickers show *)



(** * Sample data *)

Definition tee_red_small : Variant :=
  {| variant_id := 101; variant_price := 2500; option1 := Some "Red";
     option2 := Some "Small"; option3 := None; variant_featured_image := None |}.

Definition tee_black_medium : Variant :=
  {| variant_id := 102; variant_price := 2700; option1 := Some "BLACK ";
     option2 := Some " Medium"; option3 := None;
     variant_featured_image := Some "black.png" |}.

Definition jacket_variant : Variant :=
  {| variant_id := 900; variant_price := 9900; option1 := Some "Default Title";
     option2 := None; option3 := None; variant_featured_image := None |}.

Definition tee_closure : Product string :=
  {| title := "Tee"; price := 2500; featured_image := Some "tee.png";
     options := ["Color"; "Size"]; variants := [tee_red_small; tee_black_medium] |}.

Definition tee_class : Product Class.ProductOption :=
  {| title := "Tee"; price := 2500; featured_image := Some "tee.png";
     options := [{| Class.name := "Color" |}; {| Class.name := "Size" |}];
     variants := [tee_red_small; tee_black_medium] |}.

Definition shoe_variant : Variant :=
  {| variant_id := 301; variant_price := 8000; option1 := Some "42";
     option2 := None; option3 := None; variant_featured_image := None |}.

Definition shoe_closure : Product string :=
  {| title := "Shoe"; price := 8000; featured_image := None;
     options := ["Shoe Size"]; variants := [shoe_variant] |}.

Definition shoe_class : Product Class.ProductOption :=
  {| title := "Shoe"; price := 8000; featured_image := None;
     options := [{| Class.name := "Shoe Size" |}]; variants := [shoe_variant] |}.

Definition mug_variant : Variant :=
  {| variant_id := 501; variant_price := 1200; option1 := Some "Default Title";
     option2 := None; option3 := None; variant_featured_image := None |}.

Definition mug_closure : Product string :=
  {| title := "Mug"; price := 1200; featured_image := None;
     options := ["Title"]; variants := [mug_variant] |}.

Definition mug_class : Product Class.ProductOption :=
  {| title := "Mug"; price := 1200; featured_image := None;
     options := [{| Class.name := "Title" |}]; variants := [mug_variant] |}.

Definition submit_button : Button :=
  {| innerHTML := "Add to cart"; disabled := false; backgroundColor := "" |}.

Definition no_window : Window :=
  {| theme_moneyFormat := None; Theme_moneyFormat := None; theme_CartDrawer := false |}.

(** The popup just after a product was loaded, before its pickers are
    rendered. *)
Definition closure_loaded (p : Product string) : Closure.State :=
  {| Closure.aria_hidden := false; Closure.body_overflow := "hidden";
     Closure.elImg := Some {| src := "tee.png"; alt := title p |};
     Closure.elPrice := Some ""; Closure.elVariants := Some [];
     Closure.elVarId := Some None; Closure.elAtcBtn := Some submit_button;
     Closure.currentProduct := Some p; Closure.selectedVariant := head (variants p);
     Closure.selections := ∅ |}.

Definition class_loaded (q : Product Class.ProductOption) : Class.State :=
  {| Class.active := true; Class.aria_hidden := false; Class.body_overflow := "hidden";
     Class.popupImage := Some {| src := "tee.png"; alt := title q |};
     Class.popupPrice := Some ""; Class.popupVariants := Some [];
     Class.popupVariantId := Some None; Class.addToCartBtn := Some submit_button;
     Class.currentProduct := Some q; Class.selectedVariant := head (variants q);
     Class.variantSelections := ∅ |}.

(** The tee with its pickers rendered (Red and Small preselected), and
    after the user picked the second colour and the second size. *)
Definition closure_rendered : Closure.State :=
  Closure.renderVariantSelectors tee_closure (closure_loaded tee_closure).

Definition closure_black_medium : Closure.State :=
  Closure.pick no_window 1 1 (Closure.pick no_window 0 1 closure_rendered).

(** The user picked the second colour only: no variant is Black and
    Small. *)
Definition closure_black_small : Closure.State :=
  Closure.pick no_window 0 1 closure_rendered.

Definition class_rendered : Class.State :=
  Class.renderVariants tee_class (class_loaded tee_class).

Definition class_black_small : Class.State :=
  final_state (Class.handleVariantSelection no_window 0 1 class_rendered).

Definition class_black_medium : Class.State :=
  final_state (Class.handleVariantSelection no_window 1 1 class_black_small).

Definition network_up : Network :=
  {| jacket_reply := Replied true (Some (JsonProduct (Some [jacket_variant])));
     cart_add_reply := Replied true (Some tt);
     cart_reply := Replied true (Some {| item_count := 2 |}) |}.

Definition network_without_jacket : Network :=
  {| jacket_reply := Replied false None;
     cart_add_reply := Replied true (Some tt);
     cart_reply := Replied true (Some {| item_count := 1 |}) |}.


(** The POST is answered 2xx with a body that is not JSON. *)
Definition network_unreadable : Network :=
  {| jacket_reply := Replied true (Some (JsonProduct (Some [jacket_variant])));
     cart_add_reply := Replied true None;
     cart_reply := Replied true (Some {| item_count := 3 |}) |}.

(** ** Sample pages *)

Definition tee_json_closure : ProductJson string :=
  {| product := tee_closure; description := Some "<p>A tee.</p>" |}.

Definition tee_json_class : ProductJson Class.ProductOption :=
  {| product := tee_class; description := None |}.

(** A product whose JSON lists no variant. *)
Definition bare_closure : Product string :=
  {| title := "Bare"; price := 100; featured_image := None;
     options := ["Title"]; variants := [] |}.

Definition bare_class : Product Class.ProductOption :=
  {| title := "Bare"; price := 100; featured_image := None;
     options := [{| Class.name := "Title" |}]; variants := [] |}.

(** The pages before any click: every element is there, the popup is hidden
    and holds nothing. *)
Definition closure_page : ClosurePage.Page :=
  {| ClosurePage.widget := Closure.closePopup (closure_loaded tee_closure);
     ClosurePage.elTitle := Some ""; ClosurePage.elDesc := Some "" |}.

Definition class_page : ClassPage.Page :=
  {| ClassPage.widget := Class.closePopup (class_loaded tee_class);
     ClassPage.popupTitle := Some ""; ClassPage.popupDescription := Some "" |}.

(** The class's page with the tee open and Black and Medium picked. *)
Definition class_page_black_medium : ClassPage.Page :=
  {| ClassPage.widget := class_black_medium;
     ClassPage.popupTitle := Some "Tee"; ClassPage.popupDescription := Some "" |}.

(** The closure file's page with no load out. *)
Definition closure_session : ClosurePage.Session :=
  {| ClosurePage.page := closure_page; ClosurePage.in_flight := 0 |}.

(** A session: open the tee, pick Black, pick Medium, submit; click the
    mug, press Escape before its answer is in, let the closing timer
    run. *)
Definition tee_session : list ClosurePage.Event :=
  [ClosurePage.Click (Hotspot (Some "tee"));
   ClosurePage.Answer (Replied true (Some tee_json_closure));
   ClosurePage.Pick 0 1; ClosurePage.Pick 1 1;
   ClosurePage.Submit network_up;
   ClosurePage.Click (Hotspot (Some "mug"));
   ClosurePage.Keydown "Escape";
   ClosurePage.Answer (Replied true (Some {| product := mug_closure; description := None |}));
   ClosurePage.Timeout (CloseAndRestore "Add to cart")].

Definition tee_session_class : list ClassPage.Event :=
  [ClassPage.Click (Hotspot (Some "tee")) (Replied true (Some tee_json_class));
   ClassPage.Pick 0 1; ClassPage.Pick 1 1;
   ClassPage.Click (Hotspot (Some "mug")) Rejected;
   ClassPage.Submit network_up;
   ClassPage.Timeout (CloseAndRestore "Add to cart")].

(** * Tactics for goals over the sample data *)

Ltac not_in_list :=
  let H := fresh in
  intros H; repeat (apply elem_of_cons in H as [H|H]; [discriminate H|]);
  by apply elem_of_nil in H.

Ltac in_list_cases H :=
  repeat first
    [ apply elem_of_nil in H; destruct H
    | apply elem_of_cons in H; destruct H as [->|H] ].

(** * Properties *)

(** ** JavaScript primitives on samples *)

Example toLowerCase_trim_ex : Js.trim (Js.toLowerCase "  BlaCk ") = "black".
Proof. reflexivity. Qed.

Example toFixed_ex :
  Js.toFixed100 123456 2 = "1234.56" /\ Js.toFixed100 100 0 = "1" /\
  Js.toFixed100 150 0 = "2" /\ Js.toFixed100 (-5) 2 = "-0.05" /\
  Js.toFixed100 0 2 = "0.00" /\ Js.toFixed100 149 0 = "1".
Proof. repeat split; reflexivity. Qed.

Example group_ex :
  Js.group_thousands "," "-1234567" = "-1,234,567" /\
  Js.group_thousands "." "100" = "100" /\ Js.group_thousands "," "1000" = "1,000".
Proof. repeat split; reflexivity. Qed.

Example placeholder_ex :
  Js.placeholder_match "${{ amount }} USD" = Some ("$", "amount", " USD") /\
  Js.placeholder_match "{{{a}}" = Some ("{", "a", "") /\
  Js.placeholder_match "{{ }}" = None /\
  Js.split_dot "12.34" = ["12"; "34"] /\ Js.split_dot "12" = ["12"].
Proof. repeat split; reflexivity. Qed.

(** ** Variant resolution *)

Section Resolver.
Implicit Types (names : list string) (sel : gmap string string) (v : Variant).

Lemma elem_of_keys sel k : k ∈ keys sel ↔ is_Some (sel !! k).
Proof.
  unfold keys. rewrite list_elem_of_fmap. split.
  - intros [[k' x] [-> Hin]]. apply elem_of_map_to_list in Hin. by exists x.
  - intros [x Hx]. exists (k, x). split; [done|]. by apply elem_of_map_to_list.
Qed.

Lemma elem_of_values sel x : x ∈ values sel ↔ ∃ k, sel !! k = Some x.
Proof.
  unfold values. rewrite list_elem_of_fmap. split.
  - intros [[k x'] [-> Hin]]. apply elem_of_map_to_list in Hin. by exists k.
  - intros [k Hk]. exists (k, x). split; [done|]. by apply elem_of_map_to_list.
Qed.

Lemma indexOf_Some names k i :
  Closure.indexOf names k = Some i ↔
  names !! i = Some k ∧ ∀ j, (j < i)%nat → names !! j ≠ Some k.
Proof.
  unfold Closure.indexOf. split.
  - destruct (list_find _ names) as [[i' x]|] eqn:E; [|done].
    intros [= <-]. apply list_find_Some in E as (Hi & -> & Hbefore).
    split; [done|]. intros j Hj Hk. by eapply Hbefore.
  - intros [Hi Hbefore].
    assert (list_find (fun n => n = k) names = Some (i, k)) as ->; [|done].
    apply list_find_Some. split_and!; [done..|].
    intros j y Hy Hj ->. by eapply Hbefore.
Qed.

Lemma indexOf_None names k : Closure.indexOf names k = None ↔ k ∉ names.
Proof.
  unfold Closure.indexOf. rewrite fmap_None, list_find_None, Forall_forall.
  split.
  - intros H Hin. by eapply H.
  - intros H x Hin ->. done.
Qed.

Lemma findIndex_indexOf opts k :
  Class.findIndex opts k = Closure.indexOf (Class.name <$> opts) k.
Proof.
  unfold Class.findIndex, Closure.indexOf. rewrite list_find_fmap.
  rewrite <- option_fmap_compose. by destruct (list_find _ opts) as [[??]|].
Qed.

(** The callback of the closure file decides [meets]. *)
Lemma closure_satisfies_meets (p : Product string) sel v :
  Closure.satisfies p sel v = true ↔ meets (options p) sel v.
Proof.
  unfold Closure.satisfies, meets. rewrite forallb_forall. split.
  - intros H k x i Hk Hi Hfirst.
    specialize (H k). rewrite <- list_elem_of_In, elem_of_keys in H.
    specialize (H (ex_intro _ x Hk)).
    assert (Closure.indexOf (options p) k = Some i) as E by by apply indexOf_Some.
    rewrite E, Hk in H. by apply bool_decide_eq_true in H.
  - intros H k Hin. apply list_elem_of_In, elem_of_keys in Hin as [x Hx].
    destruct (Closure.indexOf (options p) k) as [i|] eqn:E; [|done].
    apply indexOf_Some in E as [Hi Hfirst].
    apply bool_decide_eq_true. rewrite Hx. by eapply H.
Qed.

Lemma class_satisfies_meets (q : Product Class.ProductOption) sel v :
  Class.satisfies q sel v = true ↔ meets (Class.name <$> options q) sel v.
Proof.
  unfold Class.satisfies, meets. rewrite forallb_forall. split.
  - intros H k x i Hk Hi Hfirst.
    specialize (H k). rewrite <- list_elem_of_In, elem_of_keys in H.
    specialize (H (ex_intro _ x Hk)).
    assert (Class.findIndex (options q) k = Some i) as E
      by (rewrite findIndex_indexOf; by apply indexOf_Some).
    rewrite E, Hk in H. by apply bool_decide_eq_true in H.
  - intros H k Hin. apply list_elem_of_In, elem_of_keys in Hin as [x Hx].
    destruct (Class.findIndex (options q) k) as [i|] eqn:E; [|done].
    rewrite findIndex_indexOf in E. apply indexOf_Some in E as [Hi Hfirst].
    apply bool_decide_eq_true. rewrite Hx. by eapply H.
Qed.

(** [Array.prototype.find] returns the first element the callback
    accepts. *)
Lemma find_first_such (f : Variant → bool) (P : Variant → Prop) vs :
  (∀ v, f v = true ↔ P v) → first_such P vs (List.find f vs).
Proof.
  intros HfP. induction vs as [|u vs IH]; simpl; [constructor|].
  destruct (f u) eqn:Hu.
  - exists [], vs. split_and!; [done| by apply HfP | constructor].
  - assert (¬ P u) as Hnu by (rewrite <- HfP; congruence).
    destruct (List.find f vs) as [v|]; simpl in *.
    + destruct IH as (pre & post & -> & Hv & Hpre).
      exists (u :: pre), post. split_and!; [done..|by constructor].
    + by constructor.
Qed.

Lemma first_such_None (P : Variant → Prop) vs r :
  first_such P vs r → Forall (fun u => ¬ P u) vs → r = None.
Proof.
  destruct r as [v|]; [|done]. intros (pre & post & -> & Hv & _) Hall.
  apply Forall_app in Hall as [_ Hall]. by apply Forall_cons in Hall as [? _].
Qed.

Lemma closure_find_match_first (p : Product string) sel :
  first_such (meets (options p) sel) (variants p) (Closure.find_match p sel).
Proof. apply find_first_such, closure_satisfies_meets. Qed.

Lemma class_find_match_first (q : Product Class.ProductOption) sel :
  first_such (meets (Class.name <$> options q) sel) (variants q) (Class.find_match q sel).
Proof. apply find_first_such, class_satisfies_meets. Qed.

(** An entry under a name the product does not declare constrains
    nothing. *)
Lemma meets_insert_foreign names sel k x v :
  k ∉ names → meets names (<[k:=x]> sel) v ↔ meets names sel v.
Proof.
  intros Hk. unfold meets. split; intros H n y i Hn Hi Hfirst.
  - assert (n ≠ k) as Hne
      by (intros ->; apply Hk; by eapply list_elem_of_lookup_2).
    eapply H; [|done..]. by rewrite lookup_insert_ne.
  - assert (n ≠ k) as Hne
      by (intros ->; apply Hk; by eapply list_elem_of_lookup_2).
    rewrite lookup_insert_ne in Hn by done. by eapply H.
Qed.

Lemma meets_delete_foreign names sel k v :
  k ∉ names → meets names (delete k sel) v ↔ meets names sel v.
Proof.
  intros Hk. unfold meets. split; intros H n y i Hn Hi Hfirst.
  - assert (n ≠ k) as Hne
      by (intros ->; apply Hk; by eapply list_elem_of_lookup_2).
    eapply H; [|done..]. by rewrite lookup_delete_ne.
  - assert (n ≠ k) as Hne
      by (intros ->; apply Hk; by eapply list_elem_of_lookup_2).
    rewrite lookup_delete_ne in Hn by done. by eapply H.
Qed.

Lemma find_ext_iff (f g : Variant → bool) vs :
  (∀ v, f v = true ↔ g v = true) → List.find f vs = List.find g vs.
Proof.
  intros H. induction vs as [|u vs IH]; simpl; [done|].
  destruct (f u) eqn:Hf, (g u) eqn:Hg; try done.
  - apply H in Hf. congruence.
  - apply H in Hg. congruence.
Qed.
End Resolver.

(** ** Add to cart *)

Section AddToCart.
Implicit Types (sel : gmap string string) (net : Network).

Lemma closure_some_value_is target sel :
  Closure.some_value_is target sel = true ↔ selected_value target sel.
Proof.
  unfold Closure.some_value_is, selected_value. rewrite existsb_exists. split.
  - intros (x & Hin & Hx). apply list_elem_of_In, elem_of_values in Hin as [k Hk].
    exists k, x. split; [done|]. by apply String.eqb_eq.
  - intros (k & x & Hk & Hx). exists x. split; [|by apply String.eqb_eq].
    apply list_elem_of_In, elem_of_values. by exists k.
Qed.

Lemma class_some_entry_is target sel :
  Class.some_entry_is target sel = true ↔ selected_value target sel.
Proof.
  unfold Class.some_entry_is, selected_value. rewrite existsb_exists. split.
  - intros ([k x] & Hin & Hx). apply list_elem_of_In, elem_of_map_to_list in Hin.
    exists k, x. split; [done|]. by apply String.eqb_eq.
  - intros (k & x & Hk & Hx). exists (k, x). split; [|by apply String.eqb_eq].
    by apply list_elem_of_In, elem_of_map_to_list.
Qed.

Lemma closure_bundle_test sel :
  Closure.some_value_is "black" sel && Closure.some_value_is "medium" sel = true
  ↔ bundle_selected sel.
Proof.
  unfold bundle_selected. rewrite andb_true_iff.
  by rewrite !closure_some_value_is.
Qed.

Lemma class_bundle_test sel :
  Class.some_entry_is "black" sel && Class.some_entry_is "medium" sel = true
  ↔ bundle_selected sel.
Proof.
  unfold bundle_selected. rewrite andb_true_iff.
  by rewrite !class_some_entry_is.
Qed.

(** The bundle rule's block never throws, leaves the state alone and
    only talks to the product endpoint. *)
Lemma closure_addJacket net items (st : Closure.State) :
  ∃ t, Closure.addJacket net items st
       = (st, t, inr (items ++ from_option (fun v => [line v]) [] (jacket_first (jacket_reply net)))%list)
     ∧ posted t = [] ∧ scheduled t = [] ∧ dispatched t = []
     ∧ fetched t = ["/products/soft-winter-jacket.js"].
Proof.
  unfold Closure.addJacket, try_catch, bind, await_fetch, await_json, emit, ret, throw.
  destruct (jacket_reply net) as [|[] [[|[[|first rest]|]]|]]; simpl;
    rewrite ?app_nil_r; eexists; split_and!; reflexivity.
Qed.

Lemma class_addJacket net items (st : Class.State) :
  ∃ t, Class.addJacket net items st
       = (st, t, inr (items ++ from_option (fun v => [line v]) [] (jacket_first (jacket_reply net)))%list)
     ∧ posted t = [] ∧ scheduled t = [] ∧ dispatched t = []
     ∧ fetched t = ["/products/soft-winter-jacket.js"].
Proof.
  unfold Class.addJacket, try_catch, bind, await_fetch, await_json, emit, ret, throw.
  destruct (jacket_reply net) as [|[] [[|[[|first rest]|]]|]]; simpl;
    rewrite ?app_nil_r; eexists; split_and!; reflexivity.
Qed.
End AddToCart.

Section Handlers.
Implicit Types (sel : gmap string string) (net : Network).

Lemma closure_handleAddToCart_run net (st : Closure.State) selected btn :
  Closure.selectedVariant st = Some selected →
  Closure.elAtcBtn st = Some btn →
  ∃ t tail st',
    Closure.handleAddToCart net st
    = (st',
       (t ++ Post "/cart/add.js"
               (expected_items
                  (Closure.some_value_is "black" (Closure.selections st)
                   && Closure.some_value_is "medium" (Closure.selections st))
                  (jacket_reply net) selected) :: tail)%list,
       inr tt)
    ∧ posted t = [] ∧ scheduled t = [] ∧ dispatched t = []
    ∧ ("/cart.js" ∉ fetched t)
    ∧ posted tail = []
    ∧ (post_failed (cart_add_reply net) →
         tail = [Console "[STL] Add-to-cart error:";
                 SetTimeout (Restore (innerHTML btn)) 2000]
         ∧ st' = Closure.set_elAtcBtn
                   (Some (set_textContent "Error – try again" (set_disabled true btn)))
                   st).
Proof.
  intros Hsel Hbtn.
  set (bundle := Closure.some_value_is "black" (Closure.selections st)
                 && Closure.some_value_is "medium" (Closure.selections st)).
  assert (∃ t, (if bundle
                then Closure.addJacket net [line selected]
                else ret [line selected]) st
               = (st, t, inr (expected_items bundle (jacket_reply net) selected))
               ∧ posted t = [] ∧ scheduled t = [] ∧ dispatched t = []
               ∧ ("/cart.js" ∉ fetched t)) as (t & Ht & Hp & Hs & Hd & Hf).
  { unfold expected_items. destruct bundle.
    - destruct (closure_addJacket net [line selected] st) as (t & -> & ? & ? & ? & Hf).
      exists t. split_and!; try done. rewrite Hf, not_elem_of_cons.
      split; [done|apply not_elem_of_nil].
    - exists []. split_and!; try done. apply not_elem_of_nil. }
  exists t.
  unfold Closure.handleAddToCart, bind at 1, get. simpl. rewrite Hsel.
  unfold bind at 1. fold bundle. unfold line in Ht at 1 2. rewrite Ht, Hbtn.
  unfold Closure.update_button, Closure.refreshCart, try_catch, bind, modify,
    await_fetch, await_json, emit, ret, throw.
  destruct st as [hid ovf img pr vars vid b cp sv sl]. simpl in Hbtn. subst b.
  destruct btn as [html dis bg].
  destruct (cart_add_reply net) as [|[] ?]; simpl;
    destruct (cart_reply net) as [|? [c|]]; simpl;
    eexists _, _; (split; [reflexivity|]); split_and!; try done;
    intros Hfail; try done.
Qed.

Lemma class_handleAddToCart_run w net (st : Class.State) selected btn :
  Class.selectedVariant st = Some selected →
  Class.addToCartBtn st = Some btn →
  ∃ t tail st' res,
    Class.handleAddToCart w net st
    = (st',
       (t ++ Post "/cart/add.js"
               (expected_items
                  (Class.some_entry_is "black" (Class.variantSelections st)
                   && Class.some_entry_is "medium" (Class.variantSelections st))
                  (jacket_reply net) selected) :: tail)%list,
       inr res)
    ∧ posted t = [] ∧ scheduled t = [] ∧ dispatched t = []
    ∧ ("/cart.js" ∉ fetched t)
    ∧ posted tail = []
    ∧ (post_failed (cart_add_reply net) →
         tail = [Console "Error adding to cart:";
                 Alert "Failed to add product to cart. Please try again."]
         ∧ st' = Class.set_addToCartBtn (Some (restored btn)) st).
Proof.
  intros Hsel Hbtn.
  set (bundle := Class.some_entry_is "black" (Class.variantSelections st)
                 && Class.some_entry_is "medium" (Class.variantSelections st)).
  assert (∀ s, ∃ t, (if bundle
                then Class.addJacket net [line selected]
                else ret [line selected]) s
               = (s, t, inr (expected_items bundle (jacket_reply net) selected))
               ∧ posted t = [] ∧ scheduled t = [] ∧ dispatched t = []
               ∧ ("/cart.js" ∉ fetched t)) as Hjacket.
  { intros s. unfold expected_items. destruct bundle.
    - destruct (class_addJacket net [line selected] s) as (t & -> & ? & ? & ? & Hf).
      exists t. split_and!; try done. rewrite Hf, not_elem_of_cons.
      split; [done|apply not_elem_of_nil].
    - exists []. split_and!; try done. apply not_elem_of_nil. }
  unfold Class.handleAddToCart, bind at 1, get. simpl. rewrite Hsel, Hbtn.
  unfold try_catch, bind at 1. unfold Class.update_button, modify at 1.
  unfold bind at 1. unfold modify at 1. unfold bind at 1. unfold emit at 1.
  unfold bind at 1. unfold emit at 1. unfold bind at 1. fold bundle.
  unfold line in Hjacket.
  match goal with
  | |- context [ (if bundle then _ else _) ?s ] =>
      destruct (Hjacket s) as (t & Ht & Hp & Hs & Hd & Hf)
  end.
  rewrite Ht.
  exists ([Console "Variant selections:"; Console "Has Black:"] ++ t)%list.
  unfold Class.updateCartCount, try_catch, bind, modify,
    await_fetch, await_json, emit, ret, throw.
  destruct st as [act hid ovf img pr vars vid b cp sv sl]. simpl in Hbtn. subst b.
  destruct btn as [html dis bg].
  destruct (cart_add_reply net) as [|[] [[]|]]; simpl;
    destruct (cart_reply net) as [|? [c|]]; simpl;
    try destruct (theme_CartDrawer w); simpl;
    rewrite <- ?app_assoc; simpl;
    eexists _, _, _; (split; [reflexivity|]);
    unfold posted, scheduled, dispatched, fetched in *;
    rewrite ?omap_app, ?Hp, ?Hs, ?Hd; simpl;
    split_and!; try done; try (intros Hfail; done).
Qed.
End Handlers.

Section CartClaims.
Implicit Types (net : Network) (w : Window).

Lemma posted_around t items tail :
  posted t = [] → posted tail = [] →
  posted (t ++ Post "/cart/add.js" items :: tail) = [("/cart/add.js", items)].
Proof.
  intros Ht Htail.
  assert (posted (Post "/cart/add.js" items :: tail)
          = ("/cart/add.js", items) :: posted tail) as Hcons by reflexivity.
  unfold posted at 1. rewrite omap_app. fold (posted t).
  fold (posted (Post "/cart/add.js" items :: tail)).
  by rewrite Ht, Hcons, Htail.
Qed.

Lemma closure_submitted net (st : Closure.State) selected btn :
  Closure.selectedVariant st = Some selected →
  Closure.elAtcBtn st = Some btn →
  posted (effects (Closure.handleAddToCart net st))
  = [("/cart/add.js",
      expected_items
        (Closure.some_value_is "black" (Closure.selections st)
         && Closure.some_value_is "medium" (Closure.selections st))
        (jacket_reply net) selected)]
  ∧ outcome (Closure.handleAddToCart net st) = inr tt.
Proof.
  intros Hsel Hbtn.
  destruct (closure_handleAddToCart_run net st selected btn Hsel Hbtn)
    as (t & tail & st' & -> & Hp & _ & _ & _ & Htail & _).
  split; [|done]. by apply posted_around.
Qed.

Lemma class_submitted w net (st : Class.State) selected btn :
  Class.selectedVariant st = Some selected →
  Class.addToCartBtn st = Some btn →
  posted (effects (Class.handleAddToCart w net st))
  = [("/cart/add.js",
      expected_items
        (Class.some_entry_is "black" (Class.variantSelections st)
         && Class.some_entry_is "medium" (Class.variantSelections st))
        (jacket_reply net) selected)]
  ∧ outcome (Class.handleAddToCart w net st) = inr tt.
Proof.
  intros Hsel Hbtn.
  destruct (class_handleAddToCart_run w net st selected btn Hsel Hbtn)
    as (t & tail & st' & [] & -> & Hp & _ & _ & _ & Htail & _).
  split; [|done]. by apply posted_around.
Qed.

Lemma jacket_failure_first r : jacket_failure r → jacket_first r = None.
Proof. by destruct 1. Qed.

Lemma test_false_not_selected (b : bool) (P : Prop) : (b = true ↔ P) → ¬ P → b = false.
Proof. destruct b; intuition. Qed.
End CartClaims.

(** C2.  With "black" and "medium" both among the selected values (any
    case, any surrounding blanks, any option names) and the bundled product
    fetched with at least one variant, [handleAddToCart] posts exactly the
    two items [{id: selectedVariant.id, quantity: 1}] and
    [{id: jacket.variants[0].id, quantity: 1}], in that order; when the
    pair is not jointly selected it posts the first item alone.  Both
    files, for selected values that are ASCII text (case and blanks are
    then the ASCII letters and the six ASCII blanks). *)
Theorem bundle_rule_items w net (st1 : Closure.State) (st2 : Class.State)
    selected1 selected2 btn1 btn2 :
  Closure.selectedVariant st1 = Some selected1 →
  Closure.elAtcBtn st1 = Some btn1 →
  Class.selectedVariant st2 = Some selected2 →
  Class.addToCartBtn st2 = Some btn2 →
  ascii_values (Closure.selections st1) = true →
  ascii_values (Class.variantSelections st2) = true →
  (∀ first rest,
     jacket_reply net = Replied true (Some (JsonProduct (Some (first :: rest)))) →
     (bundle_selected (Closure.selections st1) →
      posted (effects (Closure.handleAddToCart net st1))
      = [("/cart/add.js", [{| id := variant_id selected1; quantity := 1 |};
                           {| id := variant_id first; quantity := 1 |}])])
     ∧ (bundle_selected (Class.variantSelections st2) →
        posted (effects (Class.handleAddToCart w net st2))
        = [("/cart/add.js", [{| id := variant_id selected2; quantity := 1 |};
                             {| id := variant_id first; quantity := 1 |}])]))
  ∧ (¬ bundle_selected (Closure.selections st1) →
     posted (effects (Closure.handleAddToCart net st1))
     = [("/cart/add.js", [{| id := variant_id selected1; quantity := 1 |}])])
  ∧ (¬ bundle_selected (Class.variantSelections st2) →
     posted (effects (Class.handleAddToCart w net st2))
     = [("/cart/add.js", [{| id := variant_id selected2; quantity := 1 |}])]).
Proof.
  intros Hs1 Hb1 Hs2 Hb2 _ _.
  destruct (closure_submitted net st1 selected1 btn1 Hs1 Hb1) as [E1 _].
  destruct (class_submitted w net st2 selected2 btn2 Hs2 Hb2) as [E2 _].
  rewrite E1, E2. split_and!.
  - intros first rest Hreply. rewrite Hreply. split; intros Hsel.
    + apply closure_bundle_test in Hsel. by rewrite Hsel.
    + apply class_bundle_test in Hsel. by rewrite Hsel.
  - intros Hno.
    by rewrite (test_false_not_selected _ _ (closure_bundle_test _) Hno).
  - intros Hno.
    by rewrite (test_false_not_selected _ _ (class_bundle_test _) Hno).
Qed.

(** C6.  When the bundle rule fires but the bundled product cannot be had
    (network error, non-2xx status, unreadable body, no variants), the
    handler completes without throwing and the cart request carries the
    one primary item [{id: selectedVariant.id, quantity: 1}].  Both
    files. *)
Theorem bundle_failure_is_swallowed w net (st1 : Closure.State) (st2 : Class.State)
    selected1 selected2 btn1 btn2 :
  Closure.selectedVariant st1 = Some selected1 →
  Closure.elAtcBtn st1 = Some btn1 →
  Class.selectedVariant st2 = Some selected2 →
  Class.addToCartBtn st2 = Some btn2 →
  bundle_selected (Closure.selections st1) →
  bundle_selected (Class.variantSelections st2) →
  jacket_failure (jacket_reply net) →
  (posted (effects (Closure.handleAddToCart net st1))
   = [("/cart/add.js", [{| id := variant_id selected1; quantity := 1 |}])]
   ∧ outcome (Closure.handleAddToCart net st1) = inr tt)
  ∧ (posted (effects (Class.handleAddToCart w net st2))
     = [("/cart/add.js", [{| id := variant_id selected2; quantity := 1 |}])]
     ∧ outcome (Class.handleAddToCart w net st2) = inr tt).
Proof.
  intros Hs1 Hb1 Hs2 Hb2 Hsel1 Hsel2 Hfail.
  destruct (closure_submitted net st1 selected1 btn1 Hs1 Hb1) as [E1 O1].
  destruct (class_submitted w net st2 selected2 btn2 Hs2 Hb2) as [E2 O2].
  apply closure_bundle_test in Hsel1. apply class_bundle_test in Hsel2.
  rewrite E1, E2, O1, O2, Hsel1, Hsel2. unfold expected_items.
  rewrite (jacket_failure_first _ Hfail).
  split; (split; reflexivity).
Qed.


(** ** Variant resolution in the handlers *)

Section Resolution.
Implicit Types (w : Window) (sel : gmap string string).

Lemma closure_resolveVariant_selected w (st : Closure.State) :
  Closure.selectedVariant (Closure.resolveVariant w st)
  = match Closure.currentProduct st with
    | Some p =>
        match Closure.find_match p (Closure.selections st) with
        | Some v => Some v
        | None => Closure.selectedVariant st
        end
    | None => Closure.selectedVariant st
    end.
Proof.
  unfold Closure.resolveVariant.
  destruct (Closure.currentProduct st) as [p|]; [|done].
  destruct (Closure.find_match p _) as [v|]; [|done].
  by destruct (variant_featured_image v).
Qed.

Lemma class_updateSelectedVariant_selected w (st : Class.State) :
  Class.selectedVariant (final_state (Class.updateSelectedVariant w st))
  = match Class.currentProduct st with
    | Some q =>
        match Class.find_match q (Class.variantSelections st) with
        | Some v => Some v
        | None => Class.selectedVariant st
        end
    | None => Class.selectedVariant st
    end.
Proof.
  unfold Class.updateSelectedVariant, bind, get, modify, ret, throw, final_state.
  simpl.
  destruct (Class.currentProduct st) as [q|]; [|done].
  destruct (Class.find_match q _) as [v|]; [|done]. simpl.
  destruct (Class.popupPrice st); simpl;
    [destruct (Class.formatMoney w (variant_price v)); simpl|];
    by destruct (variant_featured_image v).
Qed.

Lemma closure_resolveVariant_unmatched w (st : Closure.State) :
  (∀ p, Closure.currentProduct st = Some p →
        Forall (fun v => ¬ meets (options p) (Closure.selections st) v) (variants p)) →
  Closure.resolveVariant w st = st.
Proof.
  intros H. unfold Closure.resolveVariant.
  destruct (Closure.currentProduct st) as [p|]; [|done].
  by rewrite (first_such_None _ _ _ (closure_find_match_first p _) (H p eq_refl)).
Qed.

Lemma class_updateSelectedVariant_unmatched w (st : Class.State) :
  (∀ q, Class.currentProduct st = Some q →
        Forall (fun v => ¬ meets (Class.name <$> options q) (Class.variantSelections st) v)
          (variants q)) →
  Class.updateSelectedVariant w st = (st, [], inr tt).
Proof.
  intros H. unfold Class.updateSelectedVariant, bind, get, ret. simpl.
  destruct (Class.currentProduct st) as [q|]; [|done].
  by rewrite (first_such_None _ _ _ (class_find_match_first q _) (H q eq_refl)).
Qed.

Lemma find_some_elem (f : Variant → bool) vs v : List.find f vs = Some v → v ∈ vs.
Proof. intros H. apply find_some in H as [H _]. by apply list_elem_of_In. Qed.
End Resolution.

(** C3.  The resolver returns the first variant, in the order of
    [product.variants], that carries the selected value at the 1-based
    position of every selected option name the product declares; names the
    selection does not mention constrain nothing, and no variant is
    returned exactly when none qualifies.  The handler installs that
    variant as the selected one.  Both files. *)
Theorem resolver_returns_first_match w (p : Product string)
    (q : Product Class.ProductOption) (sel : gmap string string)
    (st1 : Closure.State) (st2 : Class.State) :
  first_such (meets (options p) sel) (variants p) (Closure.find_match p sel)
  ∧ first_such (meets (Class.name <$> options q) sel) (variants q) (Class.find_match q sel)
  ∧ Closure.selectedVariant (Closure.resolveVariant w st1)
    = match Closure.currentProduct st1 with
      | Some p1 =>
          match Closure.find_match p1 (Closure.selections st1) with
          | Some v => Some v
          | None => Closure.selectedVariant st1
          end
      | None => Closure.selectedVariant st1
      end
  ∧ Class.selectedVariant (final_state (Class.updateSelectedVariant w st2))
    = match Class.currentProduct st2 with
      | Some q2 =>
          match Class.find_match q2 (Class.variantSelections st2) with
          | Some v => Some v
          | None => Class.selectedVariant st2
          end
      | None => Class.selectedVariant st2
      end.
Proof.
  split_and!.
  - apply closure_find_match_first.
  - apply class_find_match_first.
  - apply closure_resolveVariant_selected.
  - apply class_updateSelectedVariant_selected.
Qed.

(** C10.  A selection entry whose option name the product does not declare
    is as good as absent: inserting it or deleting it leaves the resolved
    variant the same.  Both files. *)
Theorem foreign_selection_is_ignored (p : Product string)
    (q : Product Class.ProductOption) (sel : gmap string string) (k x : string) :
  k ∉ options p →
  k ∉ Class.name <$> options q →
  Closure.find_match p (<[k:=x]> sel) = Closure.find_match p sel
  ∧ Closure.find_match p (delete k sel) = Closure.find_match p sel
  ∧ Class.find_match q (<[k:=x]> sel) = Class.find_match q sel
  ∧ Class.find_match q (delete k sel) = Class.find_match q sel.
Proof.
  intros Hp Hq. unfold Closure.find_match, Class.find_match.
  split_and!; apply find_ext_iff; intros v.
  - rewrite !closure_satisfies_meets. by apply meets_insert_foreign.
  - rewrite !closure_satisfies_meets. by apply meets_delete_foreign.
  - rewrite !class_satisfies_meets. by apply meets_insert_foreign.
  - rewrite !class_satisfies_meets. by apply meets_delete_foreign.
Qed.

(** C9.  When no variant of the current product meets the selections,
    resolution changes nothing: selected variant, hidden variant id,
    shown price and every other field stay as they were.  And whatever the
    selections, a selected variant is never replaced by an unset one: the
    new one is the old one or a whole variant of the product.  Both
    files. *)
Theorem unmatched_selection_keeps_variant w (st1 : Closure.State) (st2 : Class.State) :
  ((∀ p, Closure.currentProduct st1 = Some p →
         Forall (fun v => ¬ meets (options p) (Closure.selections st1) v) (variants p)) →
   Closure.resolveVariant w st1 = st1)
  ∧ ((∀ q, Class.currentProduct st2 = Some q →
           Forall (fun v => ¬ meets (Class.name <$> options q)
                                (Class.variantSelections st2) v) (variants q)) →
     Class.updateSelectedVariant w st2 = (st2, [], inr tt))
  ∧ (∀ old, Closure.selectedVariant st1 = Some old →
       ∃ v, Closure.selectedVariant (Closure.resolveVariant w st1) = Some v
            ∧ (v = old ∨ ∃ p, Closure.currentProduct st1 = Some p ∧ v ∈ variants p))
  ∧ (∀ old, Class.selectedVariant st2 = Some old →
       ∃ v, Class.selectedVariant (final_state (Class.updateSelectedVariant w st2)) = Some v
            ∧ (v = old ∨ ∃ q, Class.currentProduct st2 = Some q ∧ v ∈ variants q)).
Proof.
  split_and!.
  - apply closure_resolveVariant_unmatched.
  - apply class_updateSelectedVariant_unmatched.
  - intros old Hold. rewrite closure_resolveVariant_selected.
    destruct (Closure.currentProduct st1) as [p|]; [|by eauto].
    destruct (Closure.find_match p _) as [v|] eqn:E; [|by eauto].
    exists v. split; [done|]. right. exists p. split; [done|].
    by eapply find_some_elem.
  - intros old Hold. rewrite class_updateSelectedVariant_selected.
    destruct (Class.currentProduct st2) as [q|]; [|by eauto].
    destruct (Class.find_match q _) as [v|] eqn:E; [|by eauto].
    exists v. split; [done|]. right. exists q. split; [done|].
    by eapply find_some_elem.
Qed.

(** ** Variant rendering *)

Section Rendering.
Implicit Types (p : Product string) (q : Product Class.ProductOption).

Lemma closure_values_step_nil (vs : list Variant) (position : nat) (seen : list string) :
  fold_left
    (fun seen v =>
       let val := variant_option v position in
       if Js.truthy val && bool_decide (list_find (fun x => Some x = val) seen = None)
       then (seen ++ [default "" val])%list else seen) vs seen = []
  ↔ seen = [] ∧ no_value_at vs position.
Proof.
  unfold no_value_at. revert seen. induction vs as [|u vs IH]; intros seen; simpl.
  - split; [intros ->; split; [done|]; by intros v ?%elem_of_nil | by intros [-> _]].
  - rewrite IH. clear IH. split.
    + intros [Hseen Hvs]. destruct (Js.truthy (variant_option u position)) eqn:Hu; simpl in Hseen.
      * destruct (bool_decide _) eqn:Hd in Hseen.
        -- by destruct seen.
        -- subst seen. by rewrite bool_decide_eq_false in Hd.
      * split; [done|]. intros v [->|Hv]%elem_of_cons; [done|by apply Hvs].
    + intros [-> H]. rewrite (H u) by (apply elem_of_cons; by left). simpl.
      split; [done|]. intros v Hv. apply H. apply elem_of_cons. by right.
Qed.

Lemma closure_values_nil p position :
  Closure.getUniqueOptionValues p position = [] ↔ no_value_at (variants p) position.
Proof.
  pose proof (closure_values_step_nil (variants p) position []) as H.
  unfold Closure.getUniqueOptionValues. intuition.
Qed.

Lemma seen_tests_agree (val : option string) (seen : list string) :
  bool_decide (list_find (fun x => Some x = val) seen = None)
  = negb (existsb (fun x => bool_decide (Some x = val)) seen).
Proof.
  induction seen as [|y seen IH]; simpl; [done|].
  destruct (decide (Some y = val)) as [Hy|Hy].
  - rewrite (bool_decide_eq_true_2 _ Hy). simpl. done.
  - rewrite (bool_decide_eq_false_2 _ Hy). simpl. rewrite <- IH.
    apply bool_decide_ext. destruct (list_find _ seen); simpl; naive_solver.
Qed.

(** The two value collectors compute the same list. *)
Lemma values_agree p q position :
  variants p = variants q →
  Closure.getUniqueOptionValues p position = Class.getOptionValues q position.
Proof.
  intros Hv. unfold Closure.getUniqueOptionValues, Class.getOptionValues. rewrite Hv.
  clear Hv.
  cut (∀ seen0,
         fold_left
           (fun seen v =>
              let val := variant_option v position in
              if Js.truthy val && bool_decide (list_find (fun x => Some x = val) seen = None)
              then (seen ++ [default "" val])%list else seen) (variants q) seen0
         = fold_left
             (fun values variant =>
                let value := variant_option variant position in
                if Js.truthy value
                   && negb (existsb (fun x => bool_decide (Some x = value)) values)
                then (values ++ [default "" value])%list else values) (variants q) seen0).
  { intros H. apply H. }
  induction (variants q) as [|u vs IH]; intros seen0; simpl; [done|].
  rewrite seen_tests_agree, IH. reflexivity.
Qed.
End Rendering.

Section RenderingPass.
Implicit Types (p : Product string) (q : Product Class.ProductOption).

Lemma class_values_nil q position :
  Class.getOptionValues q position = [] ↔ no_value_at (variants q) position.
Proof.
  rewrite <- (values_agree
                {| title := title q; price := price q; featured_image := featured_image q;
                   options := []; variants := variants q |} q position eq_refl).
  apply closure_values_nil.
Qed.

(** What the [forEach] over the options leaves behind, closure file. *)
Lemma closure_fold_render p entries (st : Closure.State) :
  fold_left (Closure.renderOption p) entries st
  = Closure.set_selections
      (rendered_selections (Closure.getUniqueOptionValues p) entries (Closure.selections st))
      (Closure.set_elVariants
         ((fun gs => (gs ++ rendered_groups closure_dropdown
                              (Closure.getUniqueOptionValues p) entries)%list)
            <$> Closure.elVariants st) st).
Proof.
  revert st. induction entries as [|[idx n] entries IH]; intros st.
  - destruct st as [? ? ? ? [gs|] ? ? ? ? ?]; simpl; unfold Closure.set_selections,
      Closure.set_elVariants; simpl; by rewrite ?app_nil_r.
  - simpl. rewrite IH. clear IH.
    unfold Closure.renderOption, rendered_groups, rendered_selections. simpl.
    destruct (Closure.getUniqueOptionValues p (S idx)) as [|v0 vals] eqn:E; simpl; [done|].
    unfold picker, closure_dropdown.
    destruct (String.eqb (Js.toLowerCase n) "size"); simpl;
      destruct st as [? ? ? ? [gs|] ? ? ? ? ?]; simpl;
      unfold Closure.set_selections, Closure.set_elVariants, Closure.appendGroup; simpl;
      by rewrite <- ?app_assoc.
Qed.

(** The same for the class. *)
Lemma class_fold_render q entries (st : Class.State) :
  fold_left (Class.renderOption q) entries st
  = Class.set_variantSelections
      (rendered_selections (Class.getOptionValues q) entries (Class.variantSelections st))
      (Class.set_popupVariants
         ((fun gs => (gs ++ rendered_groups class_dropdown
                              (Class.getOptionValues q) entries)%list)
            <$> Class.popupVariants st) st).
Proof.
  revert st. induction entries as [|[idx n] entries IH]; intros st.
  - destruct st as [? ? ? ? ? [gs|] ? ? ? ? ?]; simpl; unfold Class.set_variantSelections,
      Class.set_popupVariants; simpl; by rewrite ?app_nil_r.
  - simpl. rewrite IH. clear IH.
    unfold Class.renderOption, rendered_groups, rendered_selections. simpl.
    destruct (Class.getOptionValues q (S idx)) as [|v0 vals] eqn:E; simpl; [done|].
    unfold picker, class_dropdown.
    destruct (Js.includes (Js.toLowerCase n) "size"); simpl;
      destruct st as [? ? ? ? ? [gs|] ? ? ? ? ?]; simpl;
      unfold Class.set_variantSelections, Class.set_popupVariants, Class.appendGroup; simpl;
      by rewrite <- ?app_assoc.
Qed.

Lemma rendered_groups_nonempty dropdown values_at entries g :
  g ∈ rendered_groups dropdown values_at entries →
  Closure.entries_of (group_control g) ≠ [].
Proof.
  unfold rendered_groups. rewrite list_elem_of_omap. intros ([idx n] & _ & Hg).
  simpl in Hg. destruct (values_at (S idx)) as [|v0 vals]; [done|].
  injection Hg as <-. unfold picker. simpl. by destruct (dropdown n).
Qed.

Lemma closure_render_cleared p (st : Closure.State) :
  options p = [] ∨ options p = ["Title"] →
  Closure.renderVariantSelectors p st
  = Closure.set_elVariants ((fun _ => []) <$> Closure.elVariants st) st.
Proof.
  intros H. unfold Closure.renderVariantSelectors.
  destruct st as [? ? ? ? [gs|] ? ? ? ? ?]; simpl; [|done].
  by destruct H as [-> | ->].
Qed.

Lemma class_render_cleared q (st : Class.State) :
  options q = [] ∨ Class.name <$> options q = ["Title"] →
  Class.renderVariants q st
  = Class.set_popupVariants ((fun _ => []) <$> Class.popupVariants st) st.
Proof.
  intros H. unfold Class.renderVariants.
  destruct st as [? ? ? ? ? [gs|] ? ? ? ? ?]; simpl; [|done].
  destruct H as [-> | H]; [done|].
  destruct (options q) as [|[n] [|??]]; simpl in *; try done.
  by injection H as ->.
Qed.

Lemma closure_render_groups p (st : Closure.State) gs :
  Closure.elVariants (Closure.renderVariantSelectors p st) = Some gs →
  ∀ g, g ∈ gs → Closure.entries_of (group_control g) ≠ [].
Proof.
  unfold Closure.renderVariantSelectors.
  destruct (Closure.elVariants st) as [old|] eqn:Hold; [|by rewrite Hold].
  destruct (_ || _).
  - simpl. intros [= <-] g Hg. by apply elem_of_nil in Hg.
  - rewrite closure_fold_render. simpl. intros [= <-] g Hg.
    by eapply rendered_groups_nonempty.
Qed.

Lemma class_render_groups q (st : Class.State) gs :
  Class.popupVariants (Class.renderVariants q st) = Some gs →
  ∀ g, g ∈ gs → Class.entries_of (group_control g) ≠ [].
Proof.
  unfold Class.renderVariants.
  destruct (Class.popupVariants st) as [old|] eqn:Hold; [|by rewrite Hold].
  destruct (_ || _).
  - simpl. intros [= <-] g Hg. by apply elem_of_nil in Hg.
  - rewrite class_fold_render. simpl. intros [= <-] g Hg.
    by eapply rendered_groups_nonempty.
Qed.
End RenderingPass.

(** C8.  A product whose option list is empty, or is the lone placeholder
    option "Title", gets no picker: rendering only empties the variant
    container.  In any rendering, the turn for an option that no variant
    gives a value does nothing, and no group without entries is shown.
    Both files. *)
Theorem placeholder_options_render_nothing (p : Product string)
    (q : Product Class.ProductOption) (st1 : Closure.State) (st2 : Class.State) :
  (options p = [] ∨ options p = ["Title"] →
   Closure.renderVariantSelectors p st1
   = Closure.set_elVariants ((fun _ => []) <$> Closure.elVariants st1) st1)
  ∧ (options q = [] ∨ Class.name <$> options q = ["Title"] →
     Class.renderVariants q st2
     = Class.set_popupVariants ((fun _ => []) <$> Class.popupVariants st2) st2)
  ∧ (∀ idx optionName,
       no_value_at (variants p) (S idx) →
       Closure.renderOption p st1 (idx, optionName) = st1)
  ∧ (∀ idx optionName,
       no_value_at (variants q) (S idx) →
       Class.renderOption q st2 (idx, optionName) = st2)
  ∧ (∀ gs g,
       Closure.elVariants (Closure.renderVariantSelectors p st1) = Some gs →
       g ∈ gs → Closure.entries_of (group_control g) ≠ [])
  ∧ (∀ gs g,
       Class.popupVariants (Class.renderVariants q st2) = Some gs →
       g ∈ gs → Class.entries_of (group_control g) ≠ []).
Proof.
  split_and!.
  - apply closure_render_cleared.
  - apply class_render_cleared.
  - intros idx n H. unfold Closure.renderOption.
    apply closure_values_nil in H. by rewrite H.
  - intros idx n H. unfold Class.renderOption.
    apply class_values_nil in H. by rewrite H.
  - intros gs g H. by apply (closure_render_groups p st1 gs).
  - intros gs g H. by apply (class_render_groups q st2 gs).
Qed.

(** ** Money formatting *)

Section Money.
Implicit Types (w : Window) (cents : Z).

Lemma append_empty_r (s : string) : s ++ "" = s.
Proof. induction s as [|c s IH]; [done|]. change (String c (s ++ "") = String c s). by f_equal. Qed.

(** With a precision other than 0 the two helpers are the same
    function. *)
Lemma two_decimals_agree cents thousands decimal :
  Class.formatWithDelimiters cents (Some 2%nat) thousands decimal
  = Closure.delimit cents (Some 2%nat) thousands decimal.
Proof.
  unfold Class.formatWithDelimiters, Closure.delimit.
  destruct (Js.truthy _); [done|]. apply append_empty_r.
Qed.

(** In the class a requested precision of 0 is served as 2. *)
Lemma class_precision_zero_is_two cents thousands decimal :
  Class.formatWithDelimiters cents (Some 0%nat) thousands decimal
  = Class.formatWithDelimiters cents (Some 2%nat) thousands decimal.
Proof. reflexivity. Qed.

(** The closure file never fails, and a template without a placeholder
    comes back as it is. *)
Lemma closure_formatMoney_no_placeholder w cents :
  Js.placeholder_match (Closure.moneyFormat w) = None →
  Closure.formatMoney w cents = Closure.moneyFormat w.
Proof.
  intros H. unfold Closure.formatMoney, Js.placeholder_replace. by rewrite H.
Qed.

Lemma class_formatMoney_no_placeholder w cents :
  Js.placeholder_match (Class.formatString w) = None →
  Class.formatMoney w cents = inl TypeError.
Proof. intros H. unfold Class.formatMoney. by rewrite H. Qed.

Lemma eqb_not_in (key m : string) (l : list string) :
  key ∉ l → m ∈ l → String.eqb key m = false.
Proof. intros Hk Hm. apply String.eqb_neq. by intros ->. Qed.

(** A placeholder naming no known mode is printed like [amount]. *)
Lemma closure_formatMoney_unrecognised w cents pre key post :
  Js.placeholder_match (Closure.moneyFormat w) = Some (pre, key, post) →
  key ∉ recognised_modes →
  Closure.formatMoney w cents
  = pre ++ Closure.delimit cents (Some 2%nat) None None ++ post.
Proof.
  intros H Hkey. unfold Closure.formatMoney, Js.placeholder_replace. rewrite H.
  rewrite !(eqb_not_in key _ recognised_modes Hkey); [done|..];
    unfold recognised_modes, no_decimals_modes; set_solver.
Qed.

Lemma class_formatMoney_unrecognised w cents pre key post :
  Js.placeholder_match (Class.formatString w) = Some (pre, key, post) →
  key ∉ recognised_modes →
  Class.formatMoney w cents
  = inr (pre ++ Closure.delimit cents (Some 2%nat) None None ++ post).
Proof.
  intros H Hkey. unfold Class.formatMoney, Js.placeholder_replace. rewrite H.
  rewrite !(eqb_not_in key _ recognised_modes Hkey);
    [by rewrite two_decimals_agree|..];
    unfold recognised_modes, no_decimals_modes; set_solver.
Qed.

(** Outside the no-decimals modes the two formatters print the same. *)
Lemma formatMoney_agree w cents pre key post :
  Closure.moneyFormat w = Class.formatString w →
  Js.placeholder_match (Class.formatString w) = Some (pre, key, post) →
  key ∉ no_decimals_modes →
  Class.formatMoney w cents = inr (Closure.formatMoney w cents).
Proof.
  intros Hfmt H Hkey. unfold Class.formatMoney, Closure.formatMoney. rewrite Hfmt, H.
  rewrite (eqb_not_in key "amount_no_decimals" _ Hkey),
    (eqb_not_in key "amount_no_decimals_with_comma_separator" _ Hkey),
    (eqb_not_in key "amount_no_decimals_with_space_separator" _ Hkey)
    by (unfold no_decimals_modes; set_solver).
  by rewrite !two_decimals_agree.
Qed.
End Money.

(** ** The closure file's formatter against the mode table *)

Section ModeTable.
Implicit Types (s t sep : string) (c : ascii).

Lemma app_String c s t : String c s ++ t = String c (s ++ t).
Proof. reflexivity. Qed.

Lemma string_app_assoc s t u : (s ++ t) ++ u = s ++ t ++ u.
Proof. induction s as [|c s IH]; [done|]. rewrite !app_String. by f_equal. Qed.

Lemma all_digits_app s t :
  all_digits (s ++ t) = all_digits s && all_digits t.
Proof.
  induction s as [|c s IH]; [done|]. rewrite app_String. simpl.
  by rewrite IH, andb_assoc.
Qed.

Lemma digit_run_all_digits s : all_digits s = true → Js.digit_run s = String.length s.
Proof.
  induction s as [|c s IH]; [done|]. simpl.
  intros [-> Hs]%andb_true_iff. by rewrite IH.
Qed.

Lemma digit_run_app s t :
  all_digits s = true → Js.digit_run (s ++ t) = (String.length s + Js.digit_run t)%nat.
Proof.
  induction s as [|c s IH]; [done|]. rewrite app_String. simpl.
  intros [-> Hs]%andb_true_iff. by rewrite IH.
Qed.

Lemma group_thousands_cons sep c s :
  Js.group_thousands sep (String c s)
  = if Js.is_digit c && negb (Nat.eqb (Js.digit_run s) 0)
       && Nat.eqb (Js.digit_run s mod 3) 0
    then String c (sep ++ Js.group_thousands sep s)
    else String c (Js.group_thousands sep s).
Proof. reflexivity. Qed.

(** Up to three digits are left alone. *)
Lemma group_thousands_short sep s :
  all_digits s = true → (String.length s <= 3)%nat → Js.group_thousands sep s = s.
Proof.
  revert sep. induction s as [|c s IH]; intros sep Hd Hlen; [done|].
  simpl in Hd. apply andb_true_iff in Hd as [Hc Hs]. simpl in Hlen.
  rewrite group_thousands_cons, (digit_run_all_digits s Hs).
  assert (negb (Nat.eqb (String.length s) 0) && Nat.eqb (String.length s mod 3) 0 = false) as E.
  { destruct (String.length s) as [|[|[|n]]]; try reflexivity. lia. }
  rewrite <- andb_assoc, E, andb_false_r. rewrite IH; [done|done|lia].
Qed.

(** A further group of three to the right gets the separator before
    it. *)
Lemma group_thousands_more sep s a b c :
  all_digits s = true → s ≠ "" →
  Js.is_digit a = true → Js.is_digit b = true → Js.is_digit c = true →
  Js.group_thousands sep (s ++ String a (String b (String c "")))
  = Js.group_thousands sep s ++ sep ++ String a (String b (String c "")).
Proof.
  intros Hs Hne Ha Hb Hc.
  set (abc := String a (String b (String c ""))).
  assert (all_digits abc = true) as Habc by (simpl; by rewrite Ha, Hb, Hc).
  assert (Js.group_thousands sep abc = abc) as Hshort
    by (apply group_thousands_short; [done|simpl; lia]).
  induction s as [|d s IH]; [done|].
  simpl in Hs. apply andb_true_iff in Hs as [Hd Hs].
  rewrite app_String, !group_thousands_cons.
  rewrite (digit_run_app s abc Hs), (digit_run_all_digits s Hs), Hd.
  assert (Js.digit_run abc = 3%nat) as -> by (simpl; by rewrite Ha, Hb, Hc).
  destruct s as [|e s].
  - change ("" ++ abc) with abc. rewrite Hshort. reflexivity.
  - rewrite IH by done.
    assert (((String.length (String e s) + 3) mod 3 = String.length (String e s) mod 3)%nat)
      as -> by (rewrite <- (Nat.Div0.add_mod_idemp_r _ 3 3); simpl (3 mod 3)%nat;
                by rewrite Nat.add_0_r).
    assert (Nat.eqb (String.length (String e s) + 3) 0 = false) as ->
      by (apply Nat.eqb_neq; simpl; lia).
    assert (Nat.eqb (String.length (String e s)) 0 = false) as -> by done.
    simpl negb. rewrite !andb_true_l.
    destruct (Nat.eqb _ 0); rewrite ?app_String; [|done].
    by rewrite string_app_assoc.
Qed.

(** The look-ahead pattern groups a numeral in threes from the right. *)
Lemma group_thousands_grouped sep s g :
  grouped sep s g → all_digits s = true ∧ Js.group_thousands sep s = g.
Proof.
  induction 1 as [s Hd Hlen | s g a b c Hg [IHd IHg] Hne Ha Hb Hc].
  - split; [done|]. by apply group_thousands_short.
  - split.
    + rewrite all_digits_app, IHd. simpl. by rewrite Ha, Hb, Hc.
    + rewrite group_thousands_more by done. by rewrite IHg.
Qed.
End ModeTable.

Section ClosureModeTable.
Implicit Types (s t sep : string) (c : ascii) (cents : Z).

Lemma uint_all_digits (d : Decimal.uint) : all_digits (NilEmpty.string_of_uint d) = true.
Proof. induction d; simpl; auto. Qed.

Lemma decimal_all_digits (n : N) : all_digits (Js.decimal n) = true.
Proof.
  unfold Js.decimal, NilZero.string_of_uint.
  destruct (N.to_uint n) eqn:E; [done|..]; rewrite <- E; apply uint_all_digits.
Qed.

Lemma decimal_nonempty (n : N) : Js.decimal n ≠ "".
Proof.
  unfold Js.decimal, NilZero.string_of_uint. by destruct (N.to_uint n).
Qed.

Lemma zeros_all_digits (k : nat) : all_digits (String.concat "" (repeat "0" k)) = true.
Proof.
  induction k as [|k IH]; [done|]. simpl. destruct (repeat "0" k) eqn:E; [done|].
  exact IH.
Qed.

Lemma pad_left_all_digits (width : nat) (n : N) :
  all_digits (Js.pad_left width (Js.decimal n)) = true.
Proof.
  unfold Js.pad_left. by rewrite all_digits_app, zeros_all_digits, decimal_all_digits.
Qed.

Lemma pad_left_nonempty (width : nat) (n : N) : Js.pad_left width (Js.decimal n) ≠ "".
Proof.
  unfold Js.pad_left. pose proof (decimal_nonempty n) as H.
  destruct (String.concat _ _); [done|]. by rewrite app_String.
Qed.

(** [split('.')] on a numeral: a part before the point, digits after. *)
Lemma split_dot_digits s : all_digits s = true → Js.split_dot s = [s].
Proof.
  induction s as [|c s IH]; [done|]. simpl. intros [Hc Hs]%andb_true_iff.
  destruct (Ascii.eqb c ".") eqn:E.
  - apply Ascii.eqb_eq in E. by subst c.
  - by rewrite IH.
Qed.

Lemma split_dot_point s t :
  all_digits s = true → all_digits t = true →
  Js.split_dot (s ++ "." ++ t) = [s; t].
Proof.
  intros Hs Ht. induction s as [|c s IH].
  - change ("" ++ "." ++ t) with (String "." t). simpl. by rewrite split_dot_digits.
  - simpl in Hs. apply andb_true_iff in Hs as [Hc Hs]. rewrite app_String. simpl.
    destruct (Ascii.eqb c ".") eqn:E.
    + apply Ascii.eqb_eq in E. by subst c.
    + by rewrite IH.
Qed.

Lemma split_dot_minus (parts : list string) s :
  Js.split_dot s = parts → parts ≠ [] →
  Js.split_dot (String "-" s) = String "-" (default "" (head parts)) :: tail parts.
Proof. intros <- Hne. simpl. by destruct (Js.split_dot s). Qed.

Lemma half_up_cents (a : Z) : 0 ≤ a → (a * 100 + 50) / 100 = a.
Proof. intros Ha. rewrite Z.div_add_l by lia. change (50 / 100) with 0. lia. Qed.

(** The helper of the closure file prints what the table prescribes, at
    the two precisions the formatter asks for. *)
Lemma closure_delimit_rendered cents (decimals : nat) thousands mark :
  decimals = 0%nat ∨ decimals = 2%nat →
  Closure.delimit cents (Some decimals) thousands mark
  = (if cents <? 0 then "-" else "")
    ++ Js.group_thousands (Js.or_default thousands ",")
         (Js.decimal (whole_units decimals cents))
    ++ match decimals with
       | O => ""
       | _ => Js.or_default mark "." ++ cents_digits cents
       end.
Proof.
  intros [-> | ->]; unfold Closure.delimit, Js.toFixed100, whole_units, cents_digits.
  - change (10 ^ Z.of_nat 0) with 1. rewrite Z.mul_1_r, Z.div_1_r.
    set (whole := Js.decimal _). set (sep := Js.or_default thousands ",").
    assert (all_digits whole = true) as Hw by apply decimal_all_digits.
    destruct (cents <? 0).
    + change ("-" ++ whole) with (String "-" whole).
      rewrite (split_dot_minus [whole]); [|by apply split_dot_digits|done].
      simpl. by rewrite append_empty_r.
    + change ("" ++ whole) with whole. rewrite split_dot_digits by done.
      simpl. by rewrite append_empty_r.
  - change (10 ^ Z.of_nat 2) with 100. rewrite half_up_cents by lia.
    set (whole := Js.decimal _). set (frac := Js.pad_left 2 _).
    set (sep := Js.or_default thousands ","). set (dm := Js.or_default mark ".").
    assert (all_digits whole = true) as Hw by apply decimal_all_digits.
    assert (all_digits frac = true) as Hf by apply pad_left_all_digits.
    assert (Js.truthy (Some frac) = true) as Ht.
    { pose proof (pad_left_nonempty 2 (Z.to_N (Z.abs cents mod 100))) as H.
      fold frac in H. by destruct frac. }
    destruct (cents <? 0).
    + change ("-" ++ whole ++ "." ++ frac) with (String "-" (whole ++ "." ++ frac)).
      rewrite (split_dot_minus [whole; frac]); [|by apply split_dot_point|done].
      simpl head. simpl tail. simpl lookup. simpl default. rewrite Ht.
      rewrite group_thousands_cons. simpl (Js.is_digit "-"). simpl andb.
      by rewrite app_String.
    + change ("" ++ whole ++ "." ++ frac) with (whole ++ "." ++ frac).
      rewrite split_dot_point by done.
      simpl lookup. simpl default. by rewrite Ht.
Qed.

(** The closure file's formatter follows the mode table: the placeholder
    is replaced by the amount as the named mode renders it. *)
Lemma closure_formatMoney_mode_table w cents pre key post :
  Js.placeholder_match (Closure.moneyFormat w) = Some (pre, key, post) →
  Closure.formatMoney w cents = pre ++ rendered_amount key cents ++ post.
Proof.
  intros H. unfold Closure.formatMoney, Js.placeholder_replace, rendered_amount, mode_table.
  rewrite H.
  destruct (String.eqb key "amount") eqn:E0.
  - apply String.eqb_eq in E0. subst key. simpl.
    by rewrite closure_delimit_rendered by (by right).
  - destruct (String.eqb key "amount_no_decimals");
      [by rewrite closure_delimit_rendered by (by left)|].
    destruct (String.eqb key "amount_with_comma_separator");
      [by rewrite closure_delimit_rendered by (by right)|].
    destruct (String.eqb key "amount_no_decimals_with_comma_separator");
      [by rewrite closure_delimit_rendered by (by left)|].
    destruct (String.eqb key "amount_no_decimals_with_space_separator");
      [by rewrite closure_delimit_rendered by (by left)|].
    by rewrite closure_delimit_rendered by (by right).
Qed.
End ClosureModeTable.

(** For the modes with decimals the class prints what the table
    prescribes as well. *)
Lemma class_formatMoney_mode_table (w : Window) (cents : Z) (pre key post : string) :
  Js.placeholder_match (Class.formatString w) = Some (pre, key, post) →
  key ∉ no_decimals_modes →
  Class.formatMoney w cents = inr (pre ++ rendered_amount key cents ++ post).
Proof.
  intros H Hkey.
  set (w' := {| theme_moneyFormat := theme_moneyFormat w; Theme_moneyFormat := None;
                theme_CartDrawer := theme_CartDrawer w |}).
  change (Class.formatMoney w cents) with (Class.formatMoney w' cents).
  rewrite (formatMoney_agree w' cents pre key post eq_refl H Hkey).
  by rewrite (closure_formatMoney_mode_table w' cents pre key post H).
Qed.

(** The samples of the specification, in the closure file. *)
Example closure_formatMoney_samples :
  Closure.formatMoney (template "${{amount}}") 123456 = "$1,234.56"
  ∧ Closure.formatMoney (template "{{amount_no_decimals}}") 100 = "1"
  ∧ Closure.formatMoney (template "{{amount_with_comma_separator}}") 100050 = "1.000,50"
  ∧ Closure.formatMoney (template "{{amount_no_decimals_with_comma_separator}}") 123456789
    = "1.234.568"
  ∧ Closure.formatMoney (template "{{amount_no_decimals_with_space_separator}}") 123456789
    = "1 234 568".
Proof. repeat split; reflexivity. Qed.

(** Two of the three samples hold in the class too. *)
Example class_formatMoney_samples :
  Class.formatMoney (template "${{amount}}") 123456 = inr "$1,234.56"
  ∧ Class.formatMoney (template "{{amount_with_comma_separator}}") 100050 = inr "1.000,50"
  ∧ Class.formatMoney (template "{{ nonsense }}") 123456 = inr "1,234.56"
  ∧ Closure.formatMoney (template "{{ nonsense }}") 123456 = "1,234.56"
  ∧ Closure.formatMoney no_window 123456 = "$1,234.56".
Proof. repeat split; reflexivity. Qed.

(** C4.  The mode table fails in the class at the modes without decimals:
    for the amount 100 and the template [{{amount_no_decimals}}] the class
    prints "1.00" where the closure file (and the table) give "1". *)
Theorem class_no_decimals_prints_decimals :
  Class.formatMoney (template "{{amount_no_decimals}}") 100 = inr "1.00"
  ∧ Closure.formatMoney (template "{{amount_no_decimals}}") 100 = "1".
Proof. split; reflexivity. Qed.

(** C5.  The class fails on a template without a placeholder: for the
    template [USD] it throws a [TypeError], where the closure file returns
    a string (the template itself). *)
Theorem class_formatMoney_throws_without_placeholder :
  Class.formatMoney (template "USD") 1234 = inl TypeError
  ∧ Closure.formatMoney (template "USD") 1234 = "USD".
Proof. split; reflexivity. Qed.

(** ** The two files side by side *)

Section SideBySide.
Implicit Types (p : Product string) (q : Product Class.ProductOption).

Lemma bool_same (b1 b2 : bool) (P : Prop) :
  (b1 = true ↔ P) → (b2 = true ↔ P) → b1 = b2.
Proof. destruct b1, b2; intuition. Qed.

Lemma find_match_agree p q sel :
  options p = Class.name <$> options q →
  variants p = variants q →
  Closure.find_match p sel = Class.find_match q sel.
Proof.
  intros Ho Hv. unfold Closure.find_match, Class.find_match. rewrite Hv.
  apply find_ext_iff. intros v.
  by rewrite closure_satisfies_meets, class_satisfies_meets, Ho.
Qed.

Lemma submitted_agree w net (st1 : Closure.State) (st2 : Class.State) selected btn1 btn2 :
  Closure.selectedVariant st1 = Some selected →
  Class.selectedVariant st2 = Some selected →
  Closure.elAtcBtn st1 = Some btn1 →
  Class.addToCartBtn st2 = Some btn2 →
  Closure.selections st1 = Class.variantSelections st2 →
  posted (effects (Closure.handleAddToCart net st1))
  = posted (effects (Class.handleAddToCart w net st2)).
Proof.
  intros Hs1 Hs2 Hb1 Hb2 Hsel.
  destruct (closure_submitted net st1 selected btn1 Hs1 Hb1) as [-> _].
  destruct (class_submitted w net st2 selected btn2 Hs2 Hb2) as [-> _].
  rewrite Hsel.
  by rewrite (bool_same _ _ _ (closure_bundle_test _) (class_bundle_test _)).
Qed.

Lemma rendered_groups_ext dd1 dd2 vals1 vals2 entries :
  (∀ e, e ∈ entries → dd1 e.2 = dd2 e.2) →
  (∀ position, vals1 position = vals2 position) →
  rendered_groups dd1 vals1 entries = rendered_groups dd2 vals2 entries.
Proof.
  intros Hdd Hvals. unfold rendered_groups.
  induction entries as [|e entries IH]; [done|]. csimpl.
  rewrite <- Hvals, (Hdd e) by (apply elem_of_cons; by left).
  rewrite IH; [done|]. intros e' He'. apply Hdd. apply elem_of_cons. by right.
Qed.

Lemma rendered_selections_ext vals1 vals2 entries sel :
  (∀ position, vals1 position = vals2 position) →
  rendered_selections vals1 entries sel = rendered_selections vals2 entries sel.
Proof.
  intros Hvals. unfold rendered_selections. revert sel.
  induction entries as [|e entries IH]; intros sel; [done|]. simpl.
  by rewrite <- Hvals, IH.
Qed.

Lemma elem_of_imap_pair (names : list string) (e : nat * string) :
  e ∈ imap pair names → e.2 ∈ names.
Proof.
  intros He. apply list_elem_of_lookup in He as [i Hi].
  rewrite list_lookup_imap in Hi.
  destruct (names !! i) as [n|] eqn:Hn; simpl in Hi; [|done].
  injection Hi as <-. simpl. by eapply list_elem_of_lookup_2.
Qed.

(** Rendering shows the same groups and stores the same selections
    when the two dropdown tests agree on the product's option names. *)
Lemma render_agree p q (st1 : Closure.State) (st2 : Class.State) :
  options p = Class.name <$> options q →
  variants p = variants q →
  (∀ n, n ∈ options p → closure_dropdown n = class_dropdown n) →
  Closure.elVariants st1 = Class.popupVariants st2 →
  Closure.selections st1 = Class.variantSelections st2 →
  Closure.elVariants (Closure.renderVariantSelectors p st1)
  = Class.popupVariants (Class.renderVariants q st2)
  ∧ Closure.selections (Closure.renderVariantSelectors p st1)
    = Class.variantSelections (Class.renderVariants q st2).
Proof.
  intros Ho Hv Hdd Hgs Hsel.
  unfold Closure.renderVariantSelectors, Class.renderVariants.
  rewrite <- Hgs. destruct (Closure.elVariants st1) as [old|] eqn:Hold; [|by rewrite Hold].
  rewrite Ho, length_fmap, list_lookup_fmap.
  destruct (_ || _); [done|].
  rewrite closure_fold_render, class_fold_render. simpl. rewrite <- Hsel, <- Ho.
  split.
  - f_equal. apply rendered_groups_ext.
    + intros e He. apply Hdd. by apply elem_of_imap_pair.
    + intros position. by apply values_agree.
  - apply rendered_selections_ext. intros position. by apply values_agree.
Qed.
End SideBySide.

(** C1, as the two files have it.  The files read [product.options] in
    different shapes (names against objects with a [name]); for products
    that correspond through that, with the same variants, they resolve the
    same variant and post the same items; they render the same pickers and
    selections when no option name merely contains "size" without being
    "size"; and they print the same price for an amount of magnitude below
    10^15 when they read the same template, it is ASCII text, it holds a
    placeholder, and the placeholder is not one of the no-decimals
    modes. *)
Theorem implementations_agree w net (p : Product string)
    (q : Product Class.ProductOption) (sel : gmap string string)
    (st1 : Closure.State) (st2 : Class.State) :
  options p = Class.name <$> options q →
  variants p = variants q →
  Closure.elVariants st1 = Class.popupVariants st2 →
  Closure.selections st1 = Class.variantSelections st2 →
  Closure.find_match p sel = Class.find_match q sel
  ∧ (∀ selected btn1 btn2,
       Closure.selectedVariant st1 = Some selected →
       Class.selectedVariant st2 = Some selected →
       Closure.elAtcBtn st1 = Some btn1 →
       Class.addToCartBtn st2 = Some btn2 →
       posted (effects (Closure.handleAddToCart net st1))
       = posted (effects (Class.handleAddToCart w net st2)))
  ∧ ((∀ n, n ∈ options p → closure_dropdown n = class_dropdown n) →
     Closure.elVariants (Closure.renderVariantSelectors p st1)
     = Class.popupVariants (Class.renderVariants q st2)
     ∧ Closure.selections (Closure.renderVariantSelectors p st1)
       = Class.variantSelections (Class.renderVariants q st2))
  ∧ (∀ cents pre key post,
       Z.abs cents < 10 ^ 15 →
       Closure.moneyFormat w = Class.formatString w →
       ascii_text (Class.formatString w) = true →
       Js.placeholder_match (Class.formatString w) = Some (pre, key, post) →
       key ∉ no_decimals_modes →
       Class.formatMoney w cents = inr (Closure.formatMoney w cents)).
Proof.
  intros Ho Hv Hgs Hsel. split_and!.
  - by apply find_match_agree.
  - intros selected btn1 btn2 Hs1 Hs2 Hb1 Hb2. by eapply submitted_agree.
  - intros Hdd. by apply render_agree.
  - intros cents pre key post _ Hfmt _. by apply formatMoney_agree.
Qed.

(** C1 as stated fails: for the single option "Shoe Size" the closure file
    shows a row of buttons and the class a dropdown. *)
Lemma pickers_differ_on_shoe_size :
  Closure.elVariants (Closure.renderVariantSelectors shoe_closure (closure_loaded shoe_closure))
  = Some [{| group_label := "Shoe Size"; group_control := Buttons ["42"] 0 |}]
  ∧ Class.popupVariants (Class.renderVariants shoe_class (class_loaded shoe_class))
    = Some [{| group_label := "Shoe Size";
               group_control := Select "Choose your shoe size" ["42"] "42" |}]
  ∧ Closure.elVariants
      (Closure.renderVariantSelectors shoe_closure (closure_loaded shoe_closure))
    ≠ Class.popupVariants (Class.renderVariants shoe_class (class_loaded shoe_class)).
Proof. split_and!; [reflexivity|reflexivity|discriminate]. Qed.

(** ** The theorems at work on the sample data *)

Lemma implementations_agree_witness :
  Closure.find_match tee_closure {["Color" := "Red"]}
  = Class.find_match tee_class {["Color" := "Red"]}
  ∧ posted (effects (Closure.handleAddToCart network_up (closure_loaded tee_closure)))
    = posted (effects (Class.handleAddToCart (template "${{amount}} USD") network_up
                         (class_loaded tee_class)))
  ∧ Closure.elVariants (Closure.renderVariantSelectors tee_closure (closure_loaded tee_closure))
    = Class.popupVariants (Class.renderVariants tee_class (class_loaded tee_class))
  ∧ Class.formatMoney (template "${{amount}} USD") 123456
    = inr (Closure.formatMoney (template "${{amount}} USD") 123456).
Proof.
  destruct (implementations_agree (template "${{amount}} USD") network_up
              tee_closure tee_class {["Color" := "Red"]}
              (closure_loaded tee_closure) (class_loaded tee_class)
              eq_refl eq_refl eq_refl eq_refl) as (Hfind & Hcart & Hrender & Hmoney).
  split_and!.
  - exact Hfind.
  - exact (Hcart tee_red_small submit_button submit_button eq_refl eq_refl eq_refl eq_refl).
  - apply Hrender. intros n Hn. in_list_cases Hn; reflexivity.
  - apply (Hmoney 123456 "$" "amount" " USD");
      [reflexivity|reflexivity|reflexivity|reflexivity|not_in_list].
Defined.

Lemma bundle_rule_items_witness :
  posted (effects (Closure.handleAddToCart network_up closure_black_medium))
  = [("/cart/add.js", [{| id := 102; quantity := 1 |}; {| id := 900; quantity := 1 |}])]
  ∧ posted (effects (Class.handleAddToCart no_window network_up class_black_medium))
    = [("/cart/add.js", [{| id := 102; quantity := 1 |}; {| id := 900; quantity := 1 |}])]
  ∧ posted (effects (Closure.handleAddToCart network_up closure_rendered))
    = [("/cart/add.js", [{| id := 101; quantity := 1 |}])]
  ∧ posted (effects (Class.handleAddToCart no_window network_up class_rendered))
    = [("/cart/add.js", [{| id := 101; quantity := 1 |}])].
Proof.
  assert (ascii_values (Closure.selections closure_black_medium) = true) as Ha1
    by (vm_compute; reflexivity).
  assert (ascii_values (Class.variantSelections class_black_medium) = true) as Ha2
    by (vm_compute; reflexivity).
  assert (ascii_values (Closure.selections closure_rendered) = true) as Ha3
    by (vm_compute; reflexivity).
  assert (ascii_values (Class.variantSelections class_rendered) = true) as Ha4
    by (vm_compute; reflexivity).
  destruct (bundle_rule_items no_window network_up closure_black_medium class_black_medium
              tee_black_medium tee_black_medium submit_button submit_button
              eq_refl eq_refl eq_refl eq_refl Ha1 Ha2) as (Hboth & _ & _).
  destruct (Hboth jacket_variant [] eq_refl) as [H1 H2].
  destruct (bundle_rule_items no_window network_up closure_rendered class_rendered
              tee_red_small tee_red_small submit_button submit_button
              eq_refl eq_refl eq_refl eq_refl Ha3 Ha4) as (_ & H3 & H4).
  split_and!.
  - apply H1. apply closure_bundle_test. vm_compute. reflexivity.
  - apply H2. apply class_bundle_test. vm_compute. reflexivity.
  - apply H3. intros H%closure_bundle_test. vm_compute in H. discriminate H.
  - apply H4. intros H%class_bundle_test. vm_compute in H. discriminate H.
Defined.

Lemma bundle_failure_is_swallowed_witness :
  jacket_failure (jacket_reply network_without_jacket)
  ∧ posted (effects (Closure.handleAddToCart network_without_jacket closure_black_medium))
    = [("/cart/add.js", [{| id := 102; quantity := 1 |}])]
  ∧ posted (effects (Class.handleAddToCart no_window network_without_jacket
                       class_black_medium))
    = [("/cart/add.js", [{| id := 102; quantity := 1 |}])].
Proof.
  assert (jacket_failure (jacket_reply network_without_jacket)) as Hfail
    by apply jacket_bad_status.
  split; [exact Hfail|].
  destruct (bundle_failure_is_swallowed no_window network_without_jacket
              closure_black_medium class_black_medium
              tee_black_medium tee_black_medium submit_button submit_button
              eq_refl eq_refl eq_refl eq_refl) as [[H1 _] [H2 _]].
  - apply closure_bundle_test. vm_compute. reflexivity.
  - apply class_bundle_test. vm_compute. reflexivity.
  - exact Hfail.
  - split; [exact H1|exact H2].
Defined.


Lemma placeholder_options_render_nothing_witness :
  Closure.renderVariantSelectors mug_closure (closure_loaded mug_closure)
  = closure_loaded mug_closure
  ∧ Class.renderVariants mug_class (class_loaded mug_class) = class_loaded mug_class
  ∧ Closure.renderOption tee_closure (closure_loaded tee_closure) (2%nat, "Material")
    = closure_loaded tee_closure
  ∧ Class.renderOption tee_class (class_loaded tee_class) (2%nat, "Material")
    = class_loaded tee_class
  ∧ Closure.entries_of (Buttons ["Red"; "BLACK "] 0) ≠ []
  ∧ Class.entries_of (Select "Choose your size" ["Small"; " Medium"] "Small") ≠ [].
Proof.
  destruct (placeholder_options_render_nothing mug_closure mug_class
              (closure_loaded mug_closure) (class_loaded mug_class))
    as (H1 & H2 & _).
  destruct (placeholder_options_render_nothing tee_closure tee_class
              (closure_loaded tee_closure) (class_loaded tee_class))
    as (_ & _ & H3 & H4 & H5 & H6).
  split_and!.
  - apply H1. right. reflexivity.
  - apply H2. right. reflexivity.
  - apply H3. intros v Hv. in_list_cases Hv; reflexivity.
  - apply H4. intros v Hv. in_list_cases Hv; reflexivity.
  - apply (H5 _ {| group_label := "Color"; group_control := Buttons ["Red"; "BLACK "] 0 |}
             eq_refl).
    apply elem_of_cons. by left.
  - apply (H6 _ {| group_label := "Size";
                   group_control := Select "Choose your size" ["Small"; " Medium"] "Small" |}
             eq_refl).
    apply elem_of_cons. right. apply elem_of_cons. by left.
Defined.

Lemma unmatched_selection_keeps_variant_witness :
  Closure.resolveVariant no_window closure_black_small = closure_black_small
  ∧ Class.updateSelectedVariant no_window class_black_small = (class_black_small, [], inr tt)
  ∧ (∃ v, Closure.selectedVariant (Closure.resolveVariant no_window closure_black_small)
          = Some v)
  ∧ (∃ v, Class.selectedVariant
            (final_state (Class.updateSelectedVariant no_window class_black_small))
          = Some v).
Proof.
  destruct (unmatched_selection_keeps_variant no_window closure_black_small class_black_small)
    as (H1 & H2 & H3 & H4).
  split_and!.
  - apply H1. intros p Hp.
    assert (Closure.currentProduct closure_black_small = Some tee_closure) as E
      by (vm_compute; reflexivity).
    rewrite E in Hp. injection Hp as <-.
    apply Forall_cons. split; [|apply Forall_cons; split; [|by apply Forall_nil]];
      intros Hm; apply closure_satisfies_meets in Hm; vm_compute in Hm; discriminate Hm.
  - apply H2. intros q Hq.
    assert (Class.currentProduct class_black_small = Some tee_class) as E
      by (vm_compute; reflexivity).
    rewrite E in Hq. injection Hq as <-.
    apply Forall_cons. split; [|apply Forall_cons; split; [|by apply Forall_nil]];
      intros Hm; apply class_satisfies_meets in Hm; vm_compute in Hm; discriminate Hm.
  - destruct (H3 tee_red_small eq_refl) as (v & Hv & _). exists v. exact Hv.
  - destruct (H4 tee_red_small eq_refl) as (v & Hv & _). exists v. exact Hv.
Defined.

Lemma foreign_selection_is_ignored_witness :
("Material" ∉ options tee_closure)
  ∧ Closure.find_match tee_closure (<["Material" := "Wool"]> {["Color" := "BLACK "]})
    = Closure.find_match tee_closure {["Color" := "BLACK "]}
  ∧ Class.find_match tee_class (delete "Material" {["Color" := "BLACK "]})
    = Class.find_match tee_class {["Color" := "BLACK "]}.
Proof.
  assert ("Material" ∉ options tee_closure) as Hp by not_in_list.
  assert ("Material" ∉ Class.name <$> options tee_class) as Hq by not_in_list.
  destruct (foreign_selection_is_ignored tee_closure tee_class {["Color" := "BLACK "]}
              "Material" "Wool" Hp Hq) as (H1 & _ & _ & H4).
  split_and!; [exact Hp|exact H1|exact H4].
Defined.

(** The samples of the specification for the resolver: a pick for one of
    two options leaves the other free and gives the first variant that
    has it; full picks give the variant that has both. *)
Example resolver_samples :
  Closure.find_match tee_closure {["Size" := " Medium"]} = Some tee_black_medium
  ∧ Closure.find_match tee_closure ∅ = Some tee_red_small
  ∧ Closure.find_match tee_closure {["Color" := "BLACK "; "Size" := "Small"]} = None
  ∧ Class.find_match tee_class {["Size" := " Medium"]} = Some tee_black_medium
  ∧ Class.find_match tee_class {["Color" := "Red"; "Size" := "Small"]} = Some tee_red_small.
Proof. repeat split; vm_compute; reflexivity. Qed.

(** * Further properties *)

(** ** The values of an option *)

Section OptionValues.
Implicit Types (vs : list Variant) (seen : list string) (x : string).

Lemma truthy_Some x : Js.truthy (Some x) = true ↔ x ≠ "".
Proof. destruct x; simpl; split; congruence. Qed.

Lemma not_seen_iff (val : option string) seen x :
  val = Some x →
  bool_decide (list_find (fun y => Some y = val) seen = None) = true ↔ x ∉ seen.
Proof.
  intros ->. rewrite bool_decide_eq_true, list_find_None, Forall_forall. split.
  - intros H Hin. by apply (H x).
  - intros H y Hy [= ->]. done.
Qed.

Lemma collect_spec position seen v :
  NoDup seen →
  NoDup (collect position seen v)
  ∧ (∀ x, x ∈ collect position seen v
          ↔ x ∈ seen ∨ (x ≠ "" ∧ variant_option v position = Some x))
  ∧ (seen ≠ [] → head (collect position seen v) = head seen).
Proof.
  intros Hnd. unfold collect.
  destruct (variant_option v position) as [y|] eqn:Hy.
  - destruct (decide (y = "")) as [->|Hne].
    + simpl. split_and!; [done| |done]. intros x. split; [by left|].
      intros [?|[Hx [= <-]]]; [done|done].
    + rewrite (proj2 (truthy_Some y) Hne), andb_true_l.
      destruct (decide (y ∈ seen)) as [Hin|Hnin].
      * assert (bool_decide (list_find (fun x => Some x = Some y) seen = None) = false) as ->.
        { apply not_true_is_false. intros Hd.
          by apply (not_seen_iff (Some y) seen y eq_refl) in Hd. }
        split_and!; [done| |done]. intros x. split; [by left|].
        intros [?|[_ [= ->]]]; done.
      * rewrite (proj2 (not_seen_iff (Some y) seen y eq_refl) Hnin). simpl default.
        split_and!.
        -- apply NoDup_app. split_and!; [done| |apply NoDup_singleton].
           intros z Hz ->%list_elem_of_singleton. done.
        -- intros x. rewrite elem_of_app, list_elem_of_singleton. split.
           ++ intros [? | ->]; [by left|by right].
           ++ intros [?|[_ [= ->]]]; [by left|by right].
        -- intros Hs. by destruct seen.
  - simpl. split_and!; [done| |done]. intros x. split; [by left|].
    intros [?|[_ ?]]; done.
Qed.

Lemma collect_fold_spec position vs seen :
  NoDup seen →
  NoDup (fold_left (collect position) vs seen)
  ∧ (∀ x, x ∈ fold_left (collect position) vs seen
          ↔ x ∈ seen ∨ value_at vs position x)
  ∧ (seen ≠ [] → head (fold_left (collect position) vs seen) = head seen).
Proof.
  revert seen. induction vs as [|v vs IH]; intros seen Hnd; simpl.
  - split_and!; [done| |done]. intros x. unfold value_at. split; [by left|].
    intros [?|(_ & u & Hu & _)]; [done|]. by apply elem_of_nil in Hu.
  - destruct (collect_spec position seen v Hnd) as (Hnd1 & Hin1 & Hhd1).
    destruct (IH _ Hnd1) as (Hnd2 & Hin2 & Hhd2).
    split_and!; [done| |].
    + intros x. rewrite Hin2, Hin1. unfold value_at. split.
      * intros [[?|[Hx Hv]]|(Hx & u & Hu & Hv)]; [by left|right..].
        -- split; [done|]. exists v. split; [apply elem_of_cons; by left|done].
        -- split; [done|]. exists u. split; [apply elem_of_cons; by right|done].
      * intros [?|(Hx & u & [->|Hu]%elem_of_cons & Hv)]; [by left; left| |].
        -- left. right. done.
        -- right. split; [done|]. by exists u.
    + intros Hne. rewrite Hhd2, Hhd1; [done|done|].
      intros E. specialize (Hhd1 Hne). rewrite E in Hhd1. by destruct seen.
Qed.

Lemma closure_values_fold (p : Product string) position :
  Closure.getUniqueOptionValues p position = fold_left (collect position) (variants p) [].
Proof. reflexivity. Qed.

(** When the first variant has a usable value, that value comes first. *)
Lemma closure_values_head (p : Product string) position v0 rest x :
  variants p = v0 :: rest →
  variant_option v0 position = Some x → x ≠ "" →
  head (Closure.getUniqueOptionValues p position) = Some x.
Proof.
  intros Hv Hx Hne. rewrite closure_values_fold, Hv. simpl.
  assert (collect position [] v0 = [x]) as E.
  { unfold collect. rewrite Hx.
    by rewrite (proj2 (truthy_Some x) Hne). }
  rewrite E.
  destruct (collect_fold_spec position rest [x]) as (_ & _ & ->); [|done..].
  apply NoDup_singleton.
Qed.
End OptionValues.

(** X1.  The values collected for an option position are pairwise
    distinct, and they are exactly the non-empty strings that some variant
    carries at that position.  Both files. *)
Theorem option_values_distinct_and_exact (p : Product string)
    (q : Product Class.ProductOption) (position : nat) :
  (NoDup (Closure.getUniqueOptionValues p position)
   ∧ ∀ x, x ∈ Closure.getUniqueOptionValues p position ↔ value_at (variants p) position x)
  ∧ (NoDup (Class.getOptionValues q position)
     ∧ ∀ x, x ∈ Class.getOptionValues q position ↔ value_at (variants q) position x).
Proof.
  assert (∀ p' : Product string,
            NoDup (Closure.getUniqueOptionValues p' position)
            ∧ ∀ x, x ∈ Closure.getUniqueOptionValues p' position
                   ↔ value_at (variants p') position x) as H.
  { intros p'. rewrite closure_values_fold.
    destruct (collect_fold_spec position (variants p') [] (NoDup_nil_2)) as (Hnd & Hin & _).
    split; [done|]. intros x. rewrite Hin. split; [|by right].
    intros [Hx|?]; [|done]. by apply elem_of_nil in Hx. }
  split; [apply H|].
  rewrite <- (values_agree
                {| title := title q; price := price q; featured_image := featured_image q;
                   options := []; variants := variants q |} q position eq_refl).
  apply H.
Qed.

(** ** Add to cart: the other paths *)

Section AddToCartPaths.
Implicit Types (net : Network) (w : Window).

Lemma closure_jacket_step net (st : Closure.State) (bundle : bool) items :
  ∃ t items',
    (if bundle then Closure.addJacket net items else ret items) st = (st, t, inr items')
    ∧ posted t = [] ∧ scheduled t = [] ∧ dispatched t = []
    ∧ fetched t = (if bundle then ["/products/soft-winter-jacket.js"] else []).
Proof.
  destruct bundle.
  - destruct (closure_addJacket net items st) as (t & -> & ? & ? & ? & ?).
    eexists t, _. by split_and!.
  - exists [], items. by split_and!.
Qed.

Lemma class_jacket_step net (st : Class.State) (bundle : bool) items :
  ∃ t items',
    (if bundle then Class.addJacket net items else ret items) st = (st, t, inr items')
    ∧ posted t = [] ∧ scheduled t = [] ∧ dispatched t = []
    ∧ fetched t = (if bundle then ["/products/soft-winter-jacket.js"] else []).
Proof.
  destruct bundle.
  - destruct (class_addJacket net items st) as (t & -> & ? & ? & ? & ?).
    eexists t, _. by split_and!.
  - exists [], items. by split_and!.
Qed.

(** The whole run of the closure file's handler on a 2xx answer. *)
Lemma closure_handleAddToCart_success net (st : Closure.State) selected btn body :
  Closure.selectedVariant st = Some selected →
  Closure.elAtcBtn st = Some btn →
  cart_add_reply net = Replied true body →
  ∃ t items,
    Closure.handleAddToCart net st
    = (Closure.set_elAtcBtn (Some (set_textContent "Added ✓" (set_disabled true btn))) st,
       (t ++ Post "/cart/add.js" items
          :: refresh_log "cart:update" false "[STL] Could not refresh cart state:"
               (cart_reply net)
          ++ [SetTimeout (CloseAndRestore (innerHTML btn)) 900])%list,
       inr tt)
    ∧ posted t = [] ∧ scheduled t = [] ∧ dispatched t = []
    ∧ fetched t
      = (if Closure.some_value_is "black" (Closure.selections st)
            && Closure.some_value_is "medium" (Closure.selections st)
         then ["/products/soft-winter-jacket.js"] else []).
Proof.
  intros Hsel Hbtn Hok.
  unfold Closure.handleAddToCart, bind at 1, get. simpl. rewrite Hsel.
  unfold bind at 1.
  match goal with
  | |- context [ (if ?b then Closure.addJacket net ?i else ret ?i) st ] =>
      destruct (closure_jacket_step net st b i) as (t & items & Ht & Hp & Hs & Hd & Hf)
  end.
  rewrite Ht, Hbtn. exists t, items.
  unfold Closure.update_button, Closure.refreshCart, try_catch, bind, modify,
    await_fetch, await_json, emit, ret, throw, refresh_log.
  rewrite Hok.
  destruct st as [hid ovf img pr vars vid b cp sv sl]. simpl in Hbtn. subst b.
  destruct btn as [html dis bg].
  destruct (cart_reply net) as [|? [c|]]; simpl; rewrite <- ?app_assoc; simpl;
    by split_and!.
Qed.

End AddToCartPaths.

(** ** Add to cart: unreadable answers, and what the handler leaves alone *)

Section AddToCartMore.
Implicit Types (net : Network) (w : Window).

(** A 2xx answer whose body cannot be read sends the class down its
    failure path. *)
Lemma class_handleAddToCart_unreadable w net (st : Class.State) selected btn :
  Class.selectedVariant st = Some selected →
  Class.addToCartBtn st = Some btn →
  cart_add_reply net = Replied true None →
  ∃ t items,
    Class.handleAddToCart w net st
    = (Class.set_addToCartBtn (Some (restored btn)) st,
       (t ++ [Post "/cart/add.js" items; Console "Error adding to cart:";
              Alert "Failed to add product to cart. Please try again."])%list,
       inr tt)
    ∧ posted t = [] ∧ scheduled t = [] ∧ dispatched t = []
    ∧ ("/cart.js" ∉ fetched t).
Proof.
  intros Hsel Hbtn Hok.
  unfold Class.handleAddToCart, bind at 1, get. simpl. rewrite Hsel, Hbtn.
  unfold try_catch, bind at 1. unfold Class.update_button, modify at 1.
  unfold bind at 1. unfold modify at 1. unfold bind at 1. unfold emit at 1.
  unfold bind at 1. unfold emit at 1. unfold bind at 1.
  match goal with
  | |- context [ (if ?b then Class.addJacket net ?i else ret ?i) ?s ] =>
      destruct (class_jacket_step net s b i) as (t & items & Ht & Hp & Hs & Hd & Hf)
  end.
  rewrite Ht.
  exists ([Console "Variant selections:"; Console "Has Black:"] ++ t)%list, items.
  unfold Class.updateCartCount, try_catch, bind, modify,
    await_fetch, await_json, emit, ret, throw.
  rewrite Hok.
  destruct st as [act hid ovf img pr vars vid b cp sv sl]. simpl in Hbtn. subst b.
  destruct btn as [html dis bg]. simpl. rewrite <- ?app_assoc. simpl.
  unfold posted, scheduled, dispatched, fetched in *.
  rewrite Hp, Hs, Hd, Hf. split_and!; try done.
  destruct (_ && _); [|apply not_elem_of_nil].
  rewrite not_elem_of_cons. split; [done|apply not_elem_of_nil].
Qed.

(** Whatever the network answers, the closure file's handler writes to the
    submit control and to nothing else. *)
Lemma closure_handleAddToCart_frame net (st : Closure.State) :
  ∃ b, final_state (Closure.handleAddToCart net st) = Closure.set_elAtcBtn b st.
Proof.
  unfold Closure.handleAddToCart, bind at 1, get. simpl.
  destruct (Closure.selectedVariant st) as [selected|] eqn:Hsel.
  2:{ exists (Closure.elAtcBtn st). unfold ret, final_state. simpl. by destruct st. }
  unfold bind at 1.
  match goal with
  | |- context [ (if ?b then Closure.addJacket net ?i else ret ?i) st ] =>
      destruct (closure_jacket_step net st b i) as (t & items & Ht & _)
  end.
  rewrite Ht.
  unfold Closure.update_button, Closure.refreshCart, try_catch, bind, modify,
    await_fetch, await_json, emit, ret, throw, final_state.
  destruct st as [hid ovf img pr vars vid b cp sv sl]. simpl.
  destruct b as [btn|]; [|by eexists].
  destruct (cart_add_reply net) as [|[] ?]; simpl;
    destruct (cart_reply net) as [|? [c|]]; by eexists.
Qed.

Lemma class_handleAddToCart_frame w net (st : Class.State) :
  ∃ b, final_state (Class.handleAddToCart w net st) = Class.set_addToCartBtn b st.
Proof.
  unfold Class.handleAddToCart, bind at 1, get. simpl.
  destruct (Class.selectedVariant st) as [selected|] eqn:Hsel.
  2:{ exists (Class.addToCartBtn st). unfold emit, final_state. simpl. by destruct st. }
  destruct (Class.addToCartBtn st) as [btn|] eqn:Hbtn.
  2:{ exists None. unfold throw, final_state. simpl. destruct st. simpl in *. by subst. }
  unfold try_catch, bind at 1. unfold Class.update_button, modify at 1.
  unfold bind at 1. unfold modify at 1. unfold bind at 1. unfold emit at 1.
  unfold bind at 1. unfold emit at 1. unfold bind at 1.
  match goal with
  | |- context [ (if ?b then Class.addJacket net ?i else ret ?i) ?s ] =>
      destruct (class_jacket_step net s b i) as (t & items & Ht & _)
  end.
  rewrite Ht.
  unfold Class.updateCartCount, try_catch, bind, modify,
    await_fetch, await_json, emit, ret, throw, final_state.
  destruct st as [act hid ovf img pr vars vid b cp sv sl]. simpl in Hbtn. subst b.
  destruct (cart_add_reply net) as [|[] [[]|]]; simpl;
    destruct (cart_reply net) as [|? [c|]]; simpl;
    try destruct (theme_CartDrawer w); by eexists.
Qed.
End AddToCartMore.


(** X3.  A 2xx answer to the POST whose body cannot be read splits the
    files: the closure file goes on as after any success; the class, having
    sent the request, raises its failure alert, restores the control at
    once, schedules no closing, fetches no [/cart.js] and dispatches
    nothing. *)
Theorem unreadable_answer_fails_in_class_only w net (st1 : Closure.State)
    (st2 : Class.State) selected1 selected2 btn1 btn2 :
  Closure.selectedVariant st1 = Some selected1 →
  Closure.elAtcBtn st1 = Some btn1 →
  Class.selectedVariant st2 = Some selected2 →
  Class.addToCartBtn st2 = Some btn2 →
  cart_add_reply net = Replied true None →
  let r1 := Closure.handleAddToCart net st1 in
  let r2 := Class.handleAddToCart w net st2 in
  (scheduled (effects r1) = [(CloseAndRestore (innerHTML btn1), 900)]
   ∧ "/cart.js" ∈ fetched (effects r1))
  ∧ (List.length (posted (effects r2)) = 1%nat
     ∧ Alert "Failed to add product to cart. Please try again." ∈ effects r2
     ∧ scheduled (effects r2) = []
     ∧ ("/cart.js" ∉ fetched (effects r2))
     ∧ dispatched (effects r2) = []
     ∧ final_state r2 = Class.set_addToCartBtn (Some (restored btn2)) st2).
Proof.
  intros Hs1 Hb1 Hs2 Hb2 Hok r1 r2. subst r1 r2.
  destruct (closure_handleAddToCart_success net st1 selected1 btn1 _ Hs1 Hb1 Hok)
    as (t1 & items1 & -> & _ & Hsch1 & Hd1 & Hf1).
  destruct (class_handleAddToCart_unreadable w net st2 selected2 btn2 Hs2 Hb2 Hok)
    as (t2 & items2 & -> & Hp2 & Hsch2 & Hd2 & Hf2).
  unfold effects, final_state, scheduled, dispatched, fetched, posted in *. simpl.
  rewrite !omap_app, Hsch1, Hsch2, Hd2, Hp2. simpl. rewrite !omap_app.
  split; split_and!; try done.
  - by destruct (cart_reply net) as [|? [c|]].
  - apply elem_of_app. right. simpl. apply elem_of_cons. by left.
  - apply elem_of_app. right. do 2 (apply elem_of_cons; right).
    apply elem_of_cons. by left.
  - by rewrite app_nil_r.
Qed.

(** X4.  Whatever is selected and whatever the network answers,
    [handleAddToCart] leaves every part of the state as it found it except
    the submit control: product, selected variant, selections, price,
    hidden id, pickers and visibility are untouched (closing is left to the
    timer).  Both files. *)
Theorem add_to_cart_changes_only_the_button w net (st1 : Closure.State)
    (st2 : Class.State) :
  final_state (Closure.handleAddToCart net st1)
  = Closure.set_elAtcBtn
      (Closure.elAtcBtn (final_state (Closure.handleAddToCart net st1))) st1
  ∧ final_state (Class.handleAddToCart w net st2)
    = Class.set_addToCartBtn
        (Class.addToCartBtn (final_state (Class.handleAddToCart w net st2))) st2.
Proof.
  destruct (closure_handleAddToCart_frame net st1) as [b1 ->].
  destruct (class_handleAddToCart_frame w net st2) as [b2 ->].
  by destruct st1, st2.
Qed.

(** X5.  Once the popup has been closed, by the user or by the closing
    timer, a submit sends nothing: the closure file's handler returns at
    once without any effect, the class only raises its "select a variant"
    alert.  Both files. *)
Theorem closed_popup_posts_nothing w net (st1 : Closure.State) (st2 : Class.State)
    (origHTML : string) :
  Closure.handleAddToCart net (Closure.closePopup st1) = (Closure.closePopup st1, [], inr tt)
  ∧ effects (Closure.handleAddToCart net (Closure.fire (CloseAndRestore origHTML) st1)) = []
  ∧ Class.handleAddToCart w net (Class.closePopup st2)
    = (Class.closePopup st2, [Alert "Please select a variant"], inr tt)
  ∧ effects (Class.handleAddToCart w net (Class.fire (CloseAndRestore origHTML) st2))
    = [Alert "Please select a variant"].
Proof. by destruct st1, st2. Qed.


Lemma unreadable_answer_fails_in_class_only_witness :
  scheduled (effects (Closure.handleAddToCart network_unreadable closure_black_medium))
  = [(CloseAndRestore "Add to cart", 900)]
  ∧ scheduled (effects (Class.handleAddToCart no_window network_unreadable
                          class_black_medium)) = []
  ∧ final_state (Class.handleAddToCart no_window network_unreadable class_black_medium)
    = Class.set_addToCartBtn (Some (restored submit_button)) class_black_medium.
Proof.
  destruct (unreadable_answer_fails_in_class_only no_window network_unreadable
              closure_black_medium class_black_medium
              tee_black_medium tee_black_medium submit_button submit_button
              eq_refl eq_refl eq_refl eq_refl eq_refl)
    as [(H1 & _) (_ & _ & H2 & _ & _ & H3)].
  split_and!; [exact H1|exact H2|exact H3].
Defined.

(** ** The placeholder of a money template *)

Section Placeholder.
Implicit Types (s t w : string) (c : ascii).

Lemma word_not_space c : Js.is_word c = true → Js.is_space c = false.
Proof. destruct c as [[] [] [] [] [] [] [] []]; vm_compute; congruence. Qed.

Lemma trimStart_spec s :
  ∃ ws, s = ws ++ Js.trimStart s ∧ Js.all_space ws = true
        ∧ match Js.trimStart s with
          | String c _ => Js.is_space c = false
          | EmptyString => True
          end.
Proof.
  induction s as [|c s IH]; [by exists ""|]. simpl.
  destruct (Js.is_space c) eqn:Hc.
  - destruct IH as (ws & Hs & Hws & Hhd). exists (String c ws). split_and!.
    + rewrite app_String. by f_equal.
    + simpl. by rewrite Hc.
    + done.
  - by exists "".
Qed.

Lemma trimStart_blank_prefix ws s :
  Js.all_space ws = true →
  match s with String c _ => Js.is_space c = false | EmptyString => True end →
  Js.trimStart (ws ++ s) = s.
Proof.
  intros Hws Hs. induction ws as [|c ws IH].
  - change ("" ++ s) with s. destruct s as [|c r]; [done|]. simpl. by rewrite Hs.
  - simpl in Hws. apply andb_true_iff in Hws as [Hc Hws].
    rewrite app_String. simpl. rewrite Hc. by apply IH.
Qed.

Lemma span_word_spec s :
  s = (Js.span_word s).1 ++ (Js.span_word s).2
  ∧ all_word (Js.span_word s).1 = true
  ∧ match (Js.span_word s).2 with
    | String c _ => Js.is_word c = false
    | EmptyString => True
    end.
Proof.
  induction s as [|c s IH]; [done|]. simpl.
  destruct (Js.is_word c) eqn:Hc; [|done].
  destruct (Js.span_word s) as [w t]. simpl in *. destruct IH as (Hs & Hw & Ht).
  split_and!; [rewrite app_String; by f_equal| by rewrite Hc, Hw | done].
Qed.

Lemma span_word_exact w t :
  all_word w = true →
  match t with String c _ => Js.is_word c = false | EmptyString => True end →
  Js.span_word (w ++ t) = (w, t).
Proof.
  intros Hw Ht. induction w as [|c w IH].
  - change ("" ++ t) with t. destruct t as [|c r]; [done|]. simpl. by rewrite Ht.
  - simpl in Hw. apply andb_true_iff in Hw as [Hc Hw].
    rewrite app_String. simpl. by rewrite Hc, IH.
Qed.

Lemma placeholder_here_spec s key post :
  Js.placeholder_here s = Some (key, post) →
  ∃ ws1 ws2, well_formed_token ws1 key ws2 ∧ s = token ws1 key ws2 ++ post.
Proof.
  unfold Js.placeholder_here.
  destruct s as [|a s']; [done|].
  destruct (Ascii.eqb a "{") eqn:Ha; [apply Ascii.eqb_eq in Ha; subst a|].
  2:{ destruct a as [[] [] [] [] [] [] [] []]; try done. }
  destruct s' as [|b r]; [done|].
  destruct (Ascii.eqb b "{") eqn:Hb; [apply Ascii.eqb_eq in Hb; subst b|].
  2:{ destruct b as [[] [] [] [] [] [] [] []]; try done. }
  destruct (trimStart_spec r) as (ws1 & Hr & Hws1 & _).
  pose proof (span_word_spec (Js.trimStart r)) as (Hsp & Hw & _).
  destruct (Js.span_word (Js.trimStart r)) as [w t]. simpl in *.
  destruct w as [|c w]; [done|].
  destruct (trimStart_spec t) as (ws2 & Ht & Hws2 & _).
  destruct (Js.trimStart t) as [|x t'] eqn:Htrim; [done|].
  destruct (Ascii.eqb x "}") eqn:Hx; [apply Ascii.eqb_eq in Hx; subst x|].
  2:{ destruct x as [[] [] [] [] [] [] [] []]; try done. }
  destruct t' as [|y rest]; [done|].
  destruct (Ascii.eqb y "}") eqn:Hy; [apply Ascii.eqb_eq in Hy; subst y|].
  2:{ destruct y as [[] [] [] [] [] [] [] []]; try done. }
  intros [= <- <-]. exists ws1, ws2. split; [by split_and!|].
  unfold token. rewrite Hr at 1. rewrite Hsp, Ht.
  change ("{{" ++ ?x) with (String "{" (String "{" x)).
  rewrite !app_String. do 2 f_equal.
  repeat (rewrite string_app_assoc || rewrite app_String). reflexivity.
Qed.

Lemma placeholder_match_eq s :
  Js.placeholder_match s
  = match Js.placeholder_here s with
    | Some (w, rest) => Some ("", w, rest)
    | None =>
        match s with
        | EmptyString => None
        | String c r =>
            match Js.placeholder_match r with
            | Some (pre, w, rest) => Some (String c pre, w, rest)
            | None => None
            end
        end
    end.
Proof. by destruct s. Qed.

Lemma placeholder_match_spec s pre key post :
  Js.placeholder_match s = Some (pre, key, post) →
  ∃ ws1 ws2, well_formed_token ws1 key ws2 ∧ s = pre ++ token ws1 key ws2 ++ post.
Proof.
  revert pre. induction s as [|c s IH]; intros pre; rewrite placeholder_match_eq.
  - by intros ?.
  - destruct (Js.placeholder_here (String c s)) as [[w rest]|] eqn:E.
    + intros H. inversion H; subst. by apply placeholder_here_spec.
    + destruct (Js.placeholder_match s) as [[[pre' w] rest]|]; [|done].
      intros H. inversion H; subst.
      destruct (IH pre' eq_refl) as (ws1 & ws2 & Hwf & ->).
      by exists ws1, ws2.
Qed.

Lemma placeholder_here_token ws1 key ws2 post :
  well_formed_token ws1 key ws2 →
  Js.placeholder_here (token ws1 key ws2 ++ post) = Some (key, post).
Proof.
  intros (Hws1 & Hws2 & Hw & Hne). unfold token.
  rewrite !string_app_assoc.
  change ("{{" ++ ?x) with (String "{" (String "{" x)).
  unfold Js.placeholder_here.
  destruct key as [|k key]; [done|]. simpl in Hw. apply andb_true_iff in Hw as [Hk Hw].
  rewrite trimStart_blank_prefix; [|done|by apply word_not_space].
  set (tail := ws2 ++ "}}" ++ post).
  assert (match tail with String c _ => Js.is_word c = false | EmptyString => True end)
    as Htail.
  { unfold tail. destruct ws2 as [|x ws2]; [done|]. simpl in Hws2.
    apply andb_true_iff in Hws2 as [Hx _]. rewrite app_String.
    destruct (Js.is_word x) eqn:E; [|done]. apply word_not_space in E. congruence. }
  rewrite (span_word_exact (String k key) tail); [|by simpl; rewrite Hk|done].
  unfold tail. by rewrite trimStart_blank_prefix.
Qed.

Lemma placeholder_match_token pre ws1 key ws2 post :
  well_formed_token ws1 key ws2 →
  Js.placeholder_match (pre ++ token ws1 key ws2 ++ post) ≠ None.
Proof.
  intros Hwf. induction pre as [|c pre IH].
  - change ("" ++ ?x) with x.
    rewrite placeholder_match_eq. by rewrite (placeholder_here_token _ _ _ _ Hwf).
  - rewrite app_String, placeholder_match_eq.
    destruct (Js.placeholder_here _) as [[w rest]|]; [done|].
    by destruct (Js.placeholder_match _) as [[[? ?] ?]|].
Qed.

Lemma placeholder_match_None s : Js.placeholder_match s = None ↔ ¬ has_token s.
Proof.
  split.
  - intros H (pre & ws1 & key & ws2 & post & Hwf & ->).
    by apply (placeholder_match_token pre ws1 key ws2 post Hwf).
  - intros H. destruct (Js.placeholder_match s) as [[[pre key] post]|] eqn:E; [|done].
    destruct H. apply placeholder_match_spec in E as (ws1 & ws2 & Hwf & ->).
    by exists pre, ws1, key, ws2, post.
Qed.
End Placeholder.

(** ** Grouping of thousands and the mode table *)

Section Numerals.
Implicit Types (s t sep : string).

Lemma string_length_app s t : String.length (s ++ t) = (String.length s + String.length t)%nat.
Proof. induction s as [|c s IH]; [done|]. rewrite app_String. simpl. by rewrite IH. Qed.

Lemma split_last_three s :
  (3 <= String.length s)%nat →
  ∃ s' a b c, s = s' ++ String a (String b (String c "")).
Proof.
  induction s as [|x s IH]; simpl; [lia|]. intros Hlen.
  destruct (decide (3 <= String.length s)%nat) as [Hs|Hs].
  - destruct (IH Hs) as (s' & a & b & c & ->). by exists (String x s'), a, b, c.
  - destruct s as [|b [|c [|d s]]]; simpl in *; try lia. by exists "", x, b, c.
Qed.

(** Every numeral has its grouping in threes. *)
Lemma grouped_exists sep (n : nat) s :
  (String.length s <= n)%nat → all_digits s = true → ∃ g, grouped sep s g.
Proof.
  revert s. induction n as [|n IH]; intros s Hlen Hd.
  - exists s. apply grouped_head; [done|lia].
  - destruct (decide (String.length s <= 3)%nat) as [Hs|Hs].
    + exists s. by apply grouped_head.
    + destruct (split_last_three s) as (s' & a & b & c & ->); [lia|].
      rewrite string_length_app in Hlen, Hs. simpl in Hlen, Hs.
      rewrite all_digits_app in Hd. apply andb_true_iff in Hd as [Hd' Habc].
      simpl in Habc. apply andb_true_iff in Habc as [Ha Habc].
      apply andb_true_iff in Habc as [Hb Habc]. apply andb_true_iff in Habc as [Hc _].
      destruct (IH s') as [g Hg]; [lia|done|].
      exists (g ++ sep ++ String a (String b (String c ""))).
      apply grouped_more; try done. intros ->. simpl in Hs. lia.
Qed.
End Numerals.

(** X6.  The look-ahead pattern that [delimit] runs over the whole part
    cuts a numeral in groups of three digits counted from the right: up to
    three digits are left alone, and every further group of three to the
    right is preceded by the separator. *)
Theorem thousands_are_grouped_from_the_right (sep s : string) :
  all_digits s = true → grouped sep s (Js.group_thousands sep s).
Proof.
  intros Hd. destruct (grouped_exists sep (String.length s) s) as [g Hg]; [done..|].
  by destruct (group_thousands_grouped sep s g Hg) as [_ ->].
Qed.

Lemma thousands_are_grouped_from_the_right_witness :
  grouped "," "1234567" (Js.group_thousands "," "1234567")
  ∧ Js.group_thousands "," "1234567" = "1,234,567".
Proof.
  split; [|reflexivity].
  apply (thousands_are_grouped_from_the_right "," "1234567"). reflexivity.
Defined.

(** X7.  For every integer amount of magnitude below 10^15 and every
    template that is ASCII text and holds a placeholder, the closure file's
    formatter returns the template with its first placeholder replaced by
    the amount as the named mode renders it (sign, whole part grouped with
    the mode's separator, and for the modes with decimals the mode's mark
    and two digits; an unknown mode renders as [amount]); text before and
    after the placeholder is kept.  The class does the same for every mode
    other than the three without decimals. *)
Theorem formatter_follows_mode_table (w : Window) (cents : Z) (pre key post : string) :
  Z.abs cents < 10 ^ 15 →
  (ascii_text (Closure.moneyFormat w) = true →
   Js.placeholder_match (Closure.moneyFormat w) = Some (pre, key, post) →
   Closure.formatMoney w cents = pre ++ rendered_amount key cents ++ post)
  ∧ (ascii_text (Class.formatString w) = true →
     Js.placeholder_match (Class.formatString w) = Some (pre, key, post) →
     key ∉ no_decimals_modes →
     Class.formatMoney w cents = inr (pre ++ rendered_amount key cents ++ post)).
Proof.
  intros _. split; intros _.
  - apply closure_formatMoney_mode_table.
  - apply class_formatMoney_mode_table.
Qed.

Lemma formatter_follows_mode_table_witness :
  Closure.formatMoney (template "from {{ amount_no_decimals_with_space_separator }} kr")
    (-123456789)
  = "from -1 234 568 kr"
  ∧ Class.formatMoney (template "{{amount_with_comma_separator}} EUR") 100050
    = inr "1.000,50 EUR".
Proof.
  split.
  - destruct (formatter_follows_mode_table
                (template "from {{ amount_no_decimals_with_space_separator }} kr")
                (-123456789) "from " "amount_no_decimals_with_space_separator" " kr")
      as [H _]; [reflexivity|].
    rewrite (H eq_refl eq_refl). reflexivity.
  - destruct (formatter_follows_mode_table
                (template "{{amount_with_comma_separator}} EUR")
                100050 "" "amount_with_comma_separator" " EUR")
      as [_ H]; [reflexivity|].
    rewrite (H eq_refl eq_refl); [reflexivity|not_in_list].
Defined.

(** X8.  The formatter looks for a token of the form
    [{{ word }}] (blanks optional around the word).  For templates that
    are ASCII text (the blanks are then the six ASCII ones), the class
    throws its [TypeError] exactly when the template it reads holds no such
    token anywhere; the closure file then returns the template as it is,
    without the amount. *)
Theorem missing_token_behaviour (w : Window) (cents : Z) :
  ascii_text (Class.formatString w) = true →
  ascii_text (Closure.moneyFormat w) = true →
  (Class.formatMoney w cents = inl TypeError ↔ ¬ has_token (Class.formatString w))
  ∧ (¬ has_token (Closure.moneyFormat w) →
     Closure.formatMoney w cents = Closure.moneyFormat w).
Proof.
  intros _ _. split.
  - rewrite <- placeholder_match_None. unfold Class.formatMoney.
    by destruct (Js.placeholder_match _) as [[[??]?]|].
  - intros H. apply placeholder_match_None in H.
    by apply closure_formatMoney_no_placeholder.
Qed.

Lemma missing_token_behaviour_witness :
  Closure.formatMoney (template "{ {amount} } only") 1234 = "{ {amount} } only"
  ∧ Class.formatMoney (template "{ {amount} } only") 1234 = inl TypeError.
Proof.
  destruct (missing_token_behaviour (template "{ {amount} } only") 1234 eq_refl eq_refl)
    as [H1 H2].
  assert (¬ has_token "{ {amount} } only") as Hno
    by (apply placeholder_match_None; reflexivity).
  split; [exact (H2 Hno)|exact (proj2 H1 Hno)].
Defined.

(** ** The selections a rendering pass stores *)

Section DefaultSelections.
Implicit Types (sel : gmap string string) (names : list string) (vals : nat → list string).

Lemma rendered_selections_cons vals (e : nat * string) entries sel :
  rendered_selections vals (e :: entries) sel
  = rendered_selections vals entries
      (match vals (S e.1) with v0 :: _ => <[e.2 := v0]> sel | [] => sel end).
Proof. reflexivity. Qed.

(** Names that get no turn keep their entry. *)
Lemma rendered_selections_other vals entries sel k :
  k ∉ entries.*2 → rendered_selections vals entries sel !! k = sel !! k.
Proof.
  revert sel. induction entries as [|e entries IH]; intros sel Hk; [done|].
  rewrite rendered_selections_cons. rewrite fmap_cons, not_elem_of_cons in Hk.
  destruct Hk as [Hne Hk]. rewrite IH by done.
  destruct (vals (S e.1)); [done|]. by rewrite lookup_insert_ne.
Qed.

(** A name with one turn gets the first value of its position, if there
    is one. *)
Lemma rendered_selections_turn vals entries sel i k :
  NoDup entries.*2 → (i, k) ∈ entries →
  rendered_selections vals entries sel !! k
  = match vals (S i) with v0 :: _ => Some v0 | [] => sel !! k end.
Proof.
  revert sel. induction entries as [|e entries IH]; intros sel Hnd Hin.
  - by apply elem_of_nil in Hin.
  - rewrite rendered_selections_cons. rewrite fmap_cons in Hnd.
    apply NoDup_cons in Hnd as [Hfresh Hnd].
    apply elem_of_cons in Hin as [<-|Hin].
    + simpl in *. rewrite rendered_selections_other by done.
      destruct (vals (S i)); [done|]. by rewrite lookup_insert_eq.
    + rewrite IH by done.
      assert (e.2 ≠ k) as Hne.
      { intros <-. apply Hfresh. apply list_elem_of_fmap. by exists (i, e.2). }
      destruct (vals (S i)); [|done].
      destruct (vals (S e.1)); [done|]. by rewrite lookup_insert_ne.
Qed.

Lemma imap_pair_snd names : (imap pair names).*2 = names.
Proof.
  apply list_eq. intros i. rewrite list_lookup_fmap, list_lookup_imap.
  by destruct (names !! i).
Qed.

Lemma elem_of_imap_pair_iff names i k : (i, k) ∈ imap pair names ↔ names !! i = Some k.
Proof.
  rewrite list_elem_of_lookup. split.
  - intros [j Hj]. rewrite list_lookup_imap in Hj.
    destruct (names !! j) as [n|] eqn:Hn; simpl in Hj; [|done]. by injection Hj as <- <-.
  - intros Hi. exists i. by rewrite list_lookup_imap, Hi.
Qed.

(** With distinct option names and a first variant that has a value for
    every option, the selections stored over an empty selection state are
    met by the first variant. *)
Lemma first_variant_meets_defaults vals names v0 :
  NoDup names →
  (∀ i k, names !! i = Some k →
          ∃ x, variant_option v0 (S i) = Some x ∧ head (vals (S i)) = Some x) →
  meets names (rendered_selections vals (imap pair names) ∅) v0.
Proof.
  intros Hnd Hfirst n value i Hsel Hi _.
  rewrite (rendered_selections_turn vals _ ∅ i n) in Hsel.
  - destruct (Hfirst i n Hi) as (x & Hx & Hhd).
    destruct (vals (S i)) as [|v1 ?]; [done|]. simpl in Hhd. congruence.
  - by rewrite imap_pair_snd.
  - by apply elem_of_imap_pair_iff.
Qed.

Lemma find_head (f : Variant → bool) v0 rest : f v0 = true → List.find f (v0 :: rest) = Some v0.
Proof. intros H. simpl. by rewrite H. Qed.

Lemma closure_defaults_first (p : Product string) (st : Closure.State) v0 rest :
  NoDup (options p) →
  variants p = v0 :: rest →
  (∀ i k, options p !! i = Some k → Js.truthy (variant_option v0 (S i)) = true) →
  Closure.selections st = ∅ →
  Closure.find_match p (Closure.selections (Closure.renderVariantSelectors p st)) = Some v0.
Proof.
  intros Hnd Hv Hfull Hsel. unfold Closure.find_match. rewrite Hv.
  apply find_head. apply closure_satisfies_meets.
  unfold Closure.renderVariantSelectors.
  destruct (Closure.elVariants st) as [old|].
  2:{ rewrite Hsel. by intros n value i ?. }
  destruct (_ || _).
  - simpl. rewrite Hsel. by intros n value i ?.
  - rewrite closure_fold_render. simpl. rewrite Hsel.
    apply first_variant_meets_defaults; [done|].
    intros i k Hi. specialize (Hfull i k Hi).
    destruct (variant_option v0 (S i)) as [x|] eqn:Hx; [|done].
    exists x. split; [done|].
    apply (closure_values_head p (S i) v0 rest x Hv Hx). by apply truthy_Some.
Qed.

Lemma class_defaults_first (q : Product Class.ProductOption) (st : Class.State) v0 rest :
  NoDup (Class.name <$> options q) →
  variants q = v0 :: rest →
  (∀ i o, options q !! i = Some o → Js.truthy (variant_option v0 (S i)) = true) →
  Class.variantSelections st = ∅ →
  Class.find_match q (Class.variantSelections (Class.renderVariants q st)) = Some v0.
Proof.
  intros Hnd Hv Hfull Hsel. unfold Class.find_match. rewrite Hv.
  apply find_head. apply class_satisfies_meets.
  unfold Class.renderVariants.
  destruct (Class.popupVariants st) as [old|].
  2:{ rewrite Hsel. by intros n value i ?. }
  destruct (_ || _).
  - simpl. rewrite Hsel. by intros n value i ?.
  - rewrite class_fold_render. simpl. rewrite Hsel.
    apply first_variant_meets_defaults; [done|].
    intros i k Hi. rewrite list_lookup_fmap in Hi.
    destruct (options q !! i) as [o|] eqn:Ho; [|done].
    specialize (Hfull i o Ho).
    destruct (variant_option v0 (S i)) as [x|] eqn:Hx; [|done].
    exists x. split; [done|].
    set (p := {| title := title q; price := price q; featured_image := featured_image q;
                 options := @nil string; variants := variants q |}).
    rewrite <- (values_agree p q (S i) eq_refl).
    apply (closure_values_head p (S i) v0 rest x Hv Hx). by apply truthy_Some.
Qed.
End DefaultSelections.

(** X9.  Rendering over an empty selection state preselects the first
    variant: when the option names are distinct and the first variant has
    a non-empty value for every option, the first variant is the one the
    resolver returns for the selections that rendering stored.  Both
    files, on the same product. *)
Theorem default_selections_resolve_to_first_variant (p : Product string)
    (q : Product Class.ProductOption) (st1 : Closure.State) (st2 : Class.State)
    (v0 : Variant) (rest : list Variant) :
  NoDup (options p) →
  Class.name <$> options q = options p →
  variants p = v0 :: rest →
  variants q = v0 :: rest →
  (∀ i k, options p !! i = Some k → Js.truthy (variant_option v0 (S i)) = true) →
  Closure.selections st1 = ∅ →
  Class.variantSelections st2 = ∅ →
  Closure.find_match p (Closure.selections (Closure.renderVariantSelectors p st1)) = Some v0
  ∧ Class.find_match q (Class.variantSelections (Class.renderVariants q st2)) = Some v0.
Proof.
  intros Hnd Hnames Hv1 Hv2 Hfull He1 He2. split.
  - by apply (closure_defaults_first p st1 v0 rest).
  - apply (class_defaults_first q st2 v0 rest); try done.
    + by rewrite Hnames.
    + intros i o Hi. apply (Hfull i (Class.name o)).
      by rewrite <- Hnames, list_lookup_fmap, Hi.
Qed.

(** ** Opening the popup, closure file *)

Section ClosureOpen.
Variable strip_html : string → string.
Implicit Types (w : Window) (st : Closure.State) (pg : ClosurePage.Page).

(** Rendering writes the variant container and the selections only. *)
Lemma closure_render_frame (p : Product string) st :
  ∃ gs sel,
    Closure.renderVariantSelectors p st
    = Closure.set_selections sel (Closure.set_elVariants gs st)
    ∧ sel = Closure.selections (Closure.renderVariantSelectors p st).
Proof.
  unfold Closure.renderVariantSelectors.
  destruct (Closure.elVariants st) as [old|] eqn:Hold.
  - destruct (_ || _).
    + exists (Some []), (Closure.selections st). by destruct st.
    + rewrite closure_fold_render. eexists _, _. split; [|reflexivity].
      destruct st; reflexivity.
  - exists None, (Closure.selections st). destruct st; simpl in *. by subst.
Qed.

(** The widget state that [openPopup] leaves on a readable 2xx answer. *)
Lemma closure_open_loaded w handle json pg :
  ClosurePage.openPopup strip_html w handle (Replied true (Some json)) pg
  = (ClosurePage.on_widget (ClosurePage.setLoading false)
       (ClosurePage.populatePopup strip_html w json
          (ClosurePage.on_widget
             (fun st =>
                Closure.set_currentProduct (Some (product json))
                  (ClosurePage.setLoading true
                     (ClosurePage.showPopup
                        (Closure.set_selections ∅
                           (Closure.set_selectedVariant None
                              (Closure.set_currentProduct None st)))))) pg)),
     [Fetch ("/products/" ++ handle ++ ".js")], inr tt).
Proof. by destruct pg. Qed.


(** The fields of the widget state after [populatePopup]. *)
Lemma closure_populate_fields w json pg :
  let p := product json in
  let st := ClosurePage.widget pg in
  let st' := ClosurePage.widget (ClosurePage.populatePopup strip_html w json pg) in
  Closure.currentProduct st' = Closure.currentProduct st
  ∧ Closure.selectedVariant st' = head (variants p)
  ∧ Closure.aria_hidden st' = Closure.aria_hidden st
  ∧ Closure.elAtcBtn st' = Closure.elAtcBtn st
  ∧ Closure.elPrice st' = (fun _ => Closure.formatMoney w (price p)) <$> Closure.elPrice st
  ∧ Closure.elVarId st'
    = match Closure.elVarId st, head (variants p) with
      | Some _, Some v => Some (Some (variant_id v))
      | x, _ => x
      end
  ∧ Closure.selections st'
    = Closure.selections (Closure.renderVariantSelectors p st).
Proof.
  intros p st st'. subst st st'. unfold ClosurePage.populatePopup. fold p.
  destruct pg as [st ttl dsc]. simpl.
  set (st1 := match Closure.elImg st with
              | Some _ => if Js.truthy (featured_image p) then _ else st
              | None => st
              end).
  assert (∃ img, st1 = Closure.set_elImg img st) as [img ->].
  { subst st1. destruct (Closure.elImg st) eqn:E; [destruct (Js.truthy _)|];
      eexists; [reflexivity| |]; destruct st; simpl in *; subst; reflexivity. }
  match goal with
  | |- context [ Closure.renderVariantSelectors p ?s ] =>
      destruct (closure_render_frame p s) as (gs & sel & Hr & Hsel);
      destruct (closure_render_frame p st) as (gs0 & sel0 & Hr0 & Hsel0)
  end.
  rewrite Hr. rewrite <- Hsel0.
  assert (sel = sel0) as ->.
  { rewrite Hsel, Hsel0. unfold Closure.renderVariantSelectors.
    destruct st as [? ? ? ? [old|] ? ? ? ? ?]; simpl; [|done].
    destruct (_ || _); [done|]. by rewrite !closure_fold_render. }
  destruct st as [hid ovf im pr vars vid b cp sv sl]. simpl.
  destruct vid as [x|], (head (variants p)) as [v|]; simpl; by split_and!.
Qed.
End ClosureOpen.

(** ** The page after a load, closure file *)

Section ClosureOpenFields.
Variable strip_html : string → string.
Implicit Types (w : Window) (st : Closure.State) (pg : ClosurePage.Page).

(** The selections that [renderVariantSelectors] leaves depend on the
    presence of the container and on the selections before only. *)
Lemma closure_render_selections (p : Product string) st :
  Closure.selections (Closure.renderVariantSelectors p st)
  = match Closure.elVariants st with
    | None => Closure.selections st
    | Some _ =>
        if Nat.eqb (List.length (options p)) 0
           || (Nat.eqb (List.length (options p)) 1
               && bool_decide (options p !! 0%nat = Some "Title"))
        then Closure.selections st
        else rendered_selections (Closure.getUniqueOptionValues p)
               (imap pair (options p)) (Closure.selections st)
    end.
Proof.
  unfold Closure.renderVariantSelectors. destruct (Closure.elVariants st); [|done].
  destruct (_ || _); [done|]. by rewrite closure_fold_render.
Qed.


(** The page that [openPopup] leaves on a readable 2xx answer. *)
Lemma closure_open_fields w handle (json : ProductJson string) pg :
  let p := product json in
  let r := ClosurePage.openPopup strip_html w handle (Replied true (Some json)) pg in
  let st := ClosurePage.widget pg in
  let st' := ClosurePage.widget (final_state r) in
  effects r = [Fetch ("/products/" ++ handle ++ ".js")]
  ∧ outcome r = inr tt
  ∧ Closure.aria_hidden st' = false
  ∧ Closure.elAtcBtn st' = set_disabled false <$> Closure.elAtcBtn st
  ∧ Closure.currentProduct st' = Some p
  ∧ Closure.selectedVariant st' = head (variants p)
  ∧ Closure.elVarId st'
    = match Closure.elVarId st, head (variants p) with
      | Some _, Some v => Some (Some (variant_id v))
      | x, _ => x
      end
  ∧ ClosurePage.elTitle (final_state r) = (fun _ => title p) <$> ClosurePage.elTitle pg
  ∧ Closure.elPrice st' = (fun _ => Closure.formatMoney w (price p)) <$> Closure.elPrice st
  ∧ Closure.selections st'
    = Closure.selections (Closure.renderVariantSelectors p (Closure.set_selections ∅ st)).
Proof.
  intros p r st st'. subst r st st'. rewrite closure_open_loaded.
  unfold effects, outcome, final_state. cbn [fst snd].
  match goal with
  | |- context [ ClosurePage.populatePopup strip_html w json ?x ] =>
      destruct (closure_populate_fields strip_html w json x)
        as (Ecp & Esv & Ehid & Ebtn & Epr & Evid & Esel); set (pg0 := x) in *
  end.
  fold p in Esv, Epr, Evid, Esel.
  assert (∀ pg1 : ClosurePage.Page,
            ClosurePage.widget (ClosurePage.on_widget (ClosurePage.setLoading false) pg1)
            = Closure.set_elAtcBtn
                (set_disabled false <$> Closure.elAtcBtn (ClosurePage.widget pg1))
                (ClosurePage.widget pg1)) as Hfin by done.
  rewrite Hfin.
  set (st2 := ClosurePage.widget (ClosurePage.populatePopup strip_html w json pg0)) in *.
  assert (∀ b, Closure.aria_hidden (Closure.set_elAtcBtn b st2) = Closure.aria_hidden st2
               ∧ Closure.elAtcBtn (Closure.set_elAtcBtn b st2) = b
               ∧ Closure.currentProduct (Closure.set_elAtcBtn b st2)
                 = Closure.currentProduct st2
               ∧ Closure.selectedVariant (Closure.set_elAtcBtn b st2)
                 = Closure.selectedVariant st2
               ∧ Closure.elVarId (Closure.set_elAtcBtn b st2) = Closure.elVarId st2
               ∧ Closure.elPrice (Closure.set_elAtcBtn b st2) = Closure.elPrice st2
               ∧ Closure.selections (Closure.set_elAtcBtn b st2) = Closure.selections st2)
    as Hset by done.
  destruct (Hset (set_disabled false <$> Closure.elAtcBtn st2))
    as (-> & -> & -> & -> & -> & -> & ->).
  rewrite Ehid, Ebtn, Ecp, Esv, Evid, Epr, Esel. clear Hset Hfin.
  subst pg0 st2. destruct pg as [st ttl dsc].
  cbn [ClosurePage.widget ClosurePage.on_widget].
  split_and!; try reflexivity.
  - by destruct st as [? ? ? ? ? ? [[]|] ? ? ?].
  - rewrite !closure_render_selections. by destruct st.
Qed.
End ClosureOpenFields.

(** ** Coherence of the closure file's state *)

Section ClosureCoherence.
Variable strip_html : string → string.
Implicit Types (w : Window) (st : Closure.State) (pg : ClosurePage.Page)
  (s : ClosurePage.Session).

Lemma coherent_same st st' :
  Closure.currentProduct st' = Closure.currentProduct st →
  Closure.selectedVariant st' = Closure.selectedVariant st →
  Closure.elVarId st' = Closure.elVarId st →
  coherent st → coherent st'.
Proof. unfold coherent. by intros -> -> ->. Qed.

Lemma coherent_cleared st : Closure.selectedVariant st = None → coherent st.
Proof. intros Hv. unfold coherent. rewrite Hv. by split. Qed.

Lemma coherent_closePopup st : coherent (Closure.closePopup st).
Proof. by apply coherent_cleared. Qed.

Lemma coherent_resolveVariant w st : coherent st → coherent (Closure.resolveVariant w st).
Proof.
  intros H. unfold Closure.resolveVariant.
  destruct (Closure.currentProduct st) as [p|] eqn:Hp; [|exact H].
  destruct (Closure.find_match p (Closure.selections st)) as [m|] eqn:Hm; [|exact H].
  clear H. apply find_some_elem in Hm.
  destruct st as [hid ovf im pr vars vid b cp sv sl]. simpl in *. subst.
  destruct (variant_featured_image m); unfold coherent; simpl;
    (split; [intros v [= <-]; by exists p
            | intros v x [= <-]; destruct vid; simpl; congruence]).
Qed.

Lemma coherent_pick w g i st : coherent st → coherent (Closure.pick w g i st).
Proof.
  intros H. unfold Closure.pick.
  destruct (Closure.elVariants st) as [groups|]; [|done].
  destruct (groups !! g) as [group|]; [|done].
  destruct (_ !! i) as [val|]; [|done].
  apply coherent_resolveVariant. revert H. by apply coherent_same.
Qed.

Lemma coherent_handleAddToCart net st :
  coherent st → coherent (final_state (Closure.handleAddToCart net st)).
Proof.
  destruct (closure_handleAddToCart_frame net st) as [b ->]. by apply coherent_same.
Qed.

Lemma coherent_fire cb st : coherent st → coherent (Closure.fire cb st).
Proof.
  intros H. destruct cb as [origHTML|origHTML]; simpl.
  - by apply coherent_cleared.
  - revert H. by apply coherent_same.
Qed.

Lemma coherent_populate w json pg :
  Closure.currentProduct (ClosurePage.widget pg) = Some (product json) →
  coherent (ClosurePage.widget (ClosurePage.populatePopup strip_html w json pg)).
Proof.
  intros Hp.
  destruct (closure_populate_fields strip_html w json pg)
    as (Ecp & Esv & _ & _ & _ & Evid & _).
  unfold coherent. rewrite Ecp, Esv, Evid, Hp. split.
  - intros v Hv. exists (product json). split; [done|].
    destruct (variants (product json)) as [|v0 rest]; [done|].
    injection Hv as <-. apply elem_of_cons. by left.
  - intros v x Hv. rewrite Hv.
    destruct (Closure.elVarId (ClosurePage.widget pg)); [|done]. by intros [= <-].
Qed.

Lemma coherent_setLoading loading st : coherent st → coherent (ClosurePage.setLoading loading st).
Proof. apply coherent_same; by destruct st. Qed.

(** The two pieces of the load, run one after the other, are the load. *)
Lemma openPopup_split w handle reply pg :
  ClosurePage.openPopup strip_html w handle reply pg
  = (ClosurePage.openPopup_start handle ;;; ClosurePage.openPopup_settle strip_html w reply) pg.
Proof. destruct reply as [|[] [json|]]; by destruct pg. Qed.

Lemma closure_start_page handle pg :
  ClosurePage.openPopup_start handle pg
  = (ClosurePage.on_widget
       (fun st =>
          ClosurePage.setLoading true
            (ClosurePage.showPopup
               (Closure.set_selections ∅
                  (Closure.set_selectedVariant None (Closure.set_currentProduct None st))))) pg,
     [Fetch ("/products/" ++ handle ++ ".js")], inr tt).
Proof. by destruct pg. Qed.

Lemma closure_settle_loaded w json pg :
  ClosurePage.openPopup_settle strip_html w (Replied true (Some json)) pg
  = (ClosurePage.on_widget (ClosurePage.setLoading false)
       (ClosurePage.populatePopup strip_html w json
          (ClosurePage.on_widget (Closure.set_currentProduct (Some (product json))) pg)),
     [], inr tt).
Proof. by destruct pg. Qed.

Lemma closure_settle_failed w (reply : Reply (ProductJson string)) pg :
  load_failed reply →
  ClosurePage.openPopup_settle strip_html w reply pg
  = (ClosurePage.on_widget (ClosurePage.setLoading false)
       (ClosurePage.set_elTitle "Unable to load product" pg),
     [Console "[STL] Failed to load product:"], inr tt).
Proof. destruct reply as [|[] [json|]]; try done; intros _; by destruct pg. Qed.

Lemma coherent_start handle pg :
  coherent (ClosurePage.widget (final_state (ClosurePage.openPopup_start handle pg))).
Proof. rewrite closure_start_page. apply coherent_cleared. by destruct pg as [[] ? ?]. Qed.

Lemma coherent_settle w reply pg :
  coherent (ClosurePage.widget pg) →
  coherent (ClosurePage.widget
              (final_state (ClosurePage.openPopup_settle strip_html w reply pg))).
Proof.
  intros H. destruct reply as [|[] [json|]].
  2:{ rewrite closure_settle_loaded. unfold final_state. cbn [fst].
      unfold ClosurePage.on_widget at 1. cbn [ClosurePage.widget].
      apply coherent_setLoading, coherent_populate. by destruct pg as [[] ? ?]. }
  all: rewrite closure_settle_failed by done; unfold final_state; cbn [fst];
    revert H; apply coherent_same; by destruct pg as [[] ? ?].
Qed.

Lemma coherent_step w s e :
  coherent (ClosurePage.widget (ClosurePage.page s)) →
  coherent (ClosurePage.widget (ClosurePage.page (ClosurePage.step strip_html w s e))).
Proof.
  intros H. destruct e as [target|reply|key|g i|net|cb]; cbn [ClosurePage.step].
  - cbn [ClosurePage.page]. destruct target as [handle| | |]; cbn [ClosurePage.onClick_start].
    + destruct (Js.truthy handle); [apply coherent_start|done].
    + apply coherent_closePopup.
    + apply coherent_closePopup.
    + done.
  - destruct (ClosurePage.in_flight s); [done|]. cbn [ClosurePage.page].
    by apply coherent_settle.
  - cbn [ClosurePage.page]. unfold ClosurePage.onKeydown.
    destruct (_ && _); [apply coherent_closePopup|done].
  - by apply coherent_pick.
  - by apply coherent_handleAddToCart.
  - by apply coherent_fire.
Qed.

Lemma coherent_run w events s :
  coherent (ClosurePage.widget (ClosurePage.page s)) →
  coherent (ClosurePage.widget (ClosurePage.page (ClosurePage.run strip_html w s events))).
Proof.
  revert s. induction events as [|e events IH]; intros s H; [done|].
  simpl. apply IH. by apply coherent_step.
Qed.
End ClosureCoherence.

(** ** Opening the popup, class *)

Section ClassOpen.
Variable strip_html : string → string.
Implicit Types (w : Window) (st : Class.State) (pg : ClassPage.Page).

(** The selections that [renderVariants] leaves depend on the presence of
    the container and on the selections before only. *)
Lemma class_render_selections (q : Product Class.ProductOption) st :
  Class.variantSelections (Class.renderVariants q st)
  = match Class.popupVariants st with
    | None => Class.variantSelections st
    | Some _ =>
        if Nat.eqb (List.length (options q)) 0
           || (Nat.eqb (List.length (options q)) 1
               && bool_decide (Class.name <$> (options q !! 0%nat) = Some "Title"))
        then Class.variantSelections st
        else rendered_selections (Class.getOptionValues q)
               (imap pair (Class.name <$> options q)) (Class.variantSelections st)
    end.
Proof.
  unfold Class.renderVariants. destruct (Class.popupVariants st); [|done].
  destruct (_ || _); [done|]. by rewrite class_fold_render.
Qed.

(** Rendering writes the variant container and the selections only. *)
Lemma class_render_frame (q : Product Class.ProductOption) st :
  ∃ gs,
    Class.renderVariants q st
    = Class.set_variantSelections (Class.variantSelections (Class.renderVariants q st))
        (Class.set_popupVariants gs st).
Proof.
  unfold Class.renderVariants.
  destruct (Class.popupVariants st) as [old|] eqn:Hold.
  - destruct (_ || _).
    + exists (Some []). by destruct st.
    + rewrite class_fold_render. eexists. destruct st; reflexivity.
  - exists None. destruct st; simpl in *. by subst.
Qed.


Lemma class_open_failed w handle (reply : Reply (ProductJson Class.ProductOption)) pg :
  load_failed reply →
  ClassPage.openPopup strip_html w handle reply pg
  = (ClassPage.showErrorState (ClassPage.showLoadingState pg),
     [Fetch ("/products/" ++ default "null" handle ++ ".js");
      Console "Error loading product:"],
     inr tt).
Proof. destruct reply as [|[] [json|]]; try done; intros _; by destruct pg. Qed.

(** On a readable 2xx answer [openPopup] ends as [populatePopup] lets
    it. *)
Lemma class_open_loaded w handle json pg :
  ClassPage.openPopup strip_html w handle (Replied true (Some json)) pg
  = let r := ClassPage.populatePopup strip_html w json
               (ClassPage.on_widget (Class.set_currentProduct (Some (product json)))
                  (ClassPage.showLoadingState pg)) in
    match outcome r with
    | inr _ =>
        (ClassPage.on_widget (Class.set_popup true false "hidden") (final_state r),
         (Fetch ("/products/" ++ default "null" handle ++ ".js") :: effects r)%list,
         inr tt)
    | inl _ =>
        (ClassPage.showErrorState (final_state r),
         (Fetch ("/products/" ++ default "null" handle ++ ".js")
            :: effects r ++ [Console "Error loading product:"])%list,
         inr tt)
    end.
Proof.
  unfold ClassPage.openPopup, try_catch.
  unfold bind at 1. unfold modify at 1. unfold bind at 1.
  unfold await_fetch, bind at 1, emit at 1. unfold bind at 1, ret at 1.
  cbn [negb fst snd await_json]. unfold bind at 1, ret at 1.
  unfold bind at 1. unfold modify at 1. unfold bind at 1.
  cbv zeta.
  destruct (ClassPage.populatePopup strip_html w json _) as [[pg2 t] [e|[]]];
    unfold outcome, final_state, effects; cbn [fst snd]; unfold bind, modify, emit;
    cbn; by rewrite ?app_nil_r.
Qed.

(** What [populatePopup] does to the page. *)
Lemma class_populate_spec w json pg :
  let q := product json in
  let st := ClassPage.widget pg in
  let r := ClassPage.populatePopup strip_html w json pg in
  let st' := ClassPage.widget (final_state r) in
  effects r = []
  ∧ Class.active st' = Class.active st
  ∧ Class.aria_hidden st' = Class.aria_hidden st
  ∧ Class.body_overflow st' = Class.body_overflow st
  ∧ Class.currentProduct st' = Class.currentProduct st
  ∧ Class.addToCartBtn st' = Class.addToCartBtn st
  ∧ ClassPage.popupTitle (final_state r) = (fun _ => title q) <$> ClassPage.popupTitle pg
  ∧ match Class.popupPrice st, Class.formatMoney w (price q) with
    | Some _, inl e =>
        outcome r = inl e
        ∧ Class.selectedVariant st' = Class.selectedVariant st
        ∧ Class.variantSelections st' = Class.variantSelections st
        ∧ Class.popupVariants st' = Class.popupVariants st
        ∧ Class.popupVariantId st' = Class.popupVariantId st
        ∧ Class.popupPrice st' = Class.popupPrice st
    | price_node, text =>
        Class.selectedVariant st' = head (variants q)
        ∧ Class.variantSelections st' = Class.variantSelections (Class.renderVariants q st)
        ∧ Class.popupPrice st'
          = match price_node, text with Some _, inr s => Some s | x, _ => x end
        ∧ outcome r
          = match Class.popupVariantId st, head (variants q) with
            | Some _, None => inl TypeError
            | _, _ => inr tt
            end
        ∧ Class.popupVariantId st'
          = match Class.popupVariantId st, head (variants q) with
            | Some _, Some v => Some (Some (variant_id v))
            | x, _ => x
            end
    end.
Proof.
  intros q st r st'. subst st st' q.
  assert (r = ClassPage.populatePopup strip_html w json pg) as Hrun by reflexivity.
  clearbody r. unfold ClassPage.populatePopup in Hrun. cbv zeta in Hrun.
  pose proof (class_render_frame (product json)) as HR.
  pose proof (class_render_selections (product json)) as HS.
  set (R := Class.renderVariants (product json)) in *. clearbody R.
  destruct pg as [st ttl dsc]. destruct st as [act hid ovf im pr vars vid b cp sv sl].
  destruct (Class.formatMoney w (price (product json))) as [e|text];
    destruct pr as [old|]; destruct vid as [x|];
    destruct (head (variants (product json))) as [v|];
    destruct im as [i|]; try destruct (Js.truthy (featured_image (product json)));
    unfold bind, modify, get, throw, ret,
      ClassPage.on_widget, ClassPage.set_popupTitle, ClassPage.set_popupDescription,
      Class.set_popupImage, Class.set_popupPrice, Class.set_selectedVariant,
      Class.set_popupVariantId in Hrun;
    cbn in Hrun;
    repeat match type of Hrun with
           | context [ R ?s ] =>
               let gs := fresh "gs" in
               let Hgs := fresh "Hgs" in
               destruct (HR s) as [gs Hgs]; rewrite HS in Hgs; rewrite Hgs in Hrun;
               clear Hgs
           end;
    rewrite ?HS; subst r; cbn; by split_and!.
Qed.
End ClassOpen.

(** ** Loading a product: the theorems *)


(** X11.  After a successful load in the closure file, what the popup
    holds as selected variant is what the resolver returns for the stored
    selections, and a submit posts that variant: for a product with
    distinct option names whose first variant has a non-empty value for
    every option, on a page with a submit control. *)
Theorem closure_load_agrees_with_resolver (strip_html : string → string) (w : Window)
    (handle : string) (json : ProductJson string) (pg : ClosurePage.Page)
    (net : Network) (v0 : Variant) (rest : list Variant) (btn : Button) :
  NoDup (options (product json)) →
  variants (product json) = v0 :: rest →
  (∀ i k, options (product json) !! i = Some k →
          Js.truthy (variant_option v0 (S i)) = true) →
  Closure.elAtcBtn (ClosurePage.widget pg) = Some btn →
  let st' := ClosurePage.widget
               (final_state
                  (ClosurePage.openPopup strip_html w handle (Replied true (Some json)) pg)) in
  Closure.selectedVariant st' = Some v0
  ∧ Closure.find_match (product json) (Closure.selections st') = Some v0
  ∧ ∃ extra, posted (effects (Closure.handleAddToCart net st'))
             = [("/cart/add.js", line v0 :: extra)].
Proof.
  intros Hnd Hv Hfull Hbtn. cbv zeta.
  destruct (closure_open_fields strip_html w handle json pg)
    as (_ & _ & _ & Eb & _ & Esv & _ & _ & _ & Esel).
  set (st' := ClosurePage.widget (final_state _)) in *. clearbody st'.
  rewrite Hv in Esv. cbn [head] in Esv. rewrite Hbtn in Eb. cbn [fmap option_fmap option_map] in Eb.
  split_and!; [exact Esv| |].
  - rewrite Esel. apply (closure_defaults_first _ _ v0 rest Hnd Hv Hfull).
    by destruct (ClosurePage.widget pg).
  - destruct (closure_handleAddToCart_run net st' v0 (set_disabled false btn) Esv Eb)
      as (t & tail & st2 & -> & Hp & _ & _ & _ & Htail & _).
    unfold effects, posted in *. cbn [fst snd]. rewrite omap_app, Hp. csimpl.
    rewrite Htail. unfold expected_items.
    destruct (_ && _); eexists; reflexivity.
Qed.


(** X13.  Through any sequence of clicks, answers to the loads that are
    out, keys, picks, submits and timers, with any answers from the
    network and with the answers settling at any later time and in any
    order, the closure file's state stays coherent: a selected variant is
    one of the current product's variants, and the hidden field (where the
    page has one) carries its id. *)
Theorem closure_state_stays_coherent (strip_html : string → string) (w : Window)
    (s : ClosurePage.Session) (events : list ClosurePage.Event) :
  Closure.selectedVariant (ClosurePage.widget (ClosurePage.page s)) = None →
  coherent (ClosurePage.widget
              (ClosurePage.page (ClosurePage.run strip_html w s events))).
Proof.
  intros Hv. apply coherent_run. by apply coherent_cleared.
Qed.

(** X14.  A successful load in the class, given a template the formatter
    accepts and a product with a variant: one request, the popup shown
    ([active], [aria-hidden] false, page scroll locked), the product
    stored, its first variant selected and written to the hidden field,
    title and price showing the product's.  The selections are rendered
    over whatever was selected before. *)
Theorem class_load_selects_first_variant (strip_html : string → string) (w : Window)
    (productHandle : option string) (json : ProductJson Class.ProductOption)
    (pg : ClassPage.Page) (text : string) (v0 : Variant) (rest : list Variant) :
  Class.formatMoney w (price (product json)) = inr text →
  variants (product json) = v0 :: rest →
  let q := product json in
  let r := ClassPage.openPopup strip_html w productHandle (Replied true (Some json)) pg in
  let st := ClassPage.widget pg in
  let st' := ClassPage.widget (final_state r) in
  effects r = [Fetch ("/products/" ++ default "null" productHandle ++ ".js")]
  ∧ outcome r = inr tt
  ∧ Class.active st' = true
  ∧ Class.aria_hidden st' = false
  ∧ Class.body_overflow st' = "hidden"
  ∧ Class.currentProduct st' = Some q
  ∧ Class.selectedVariant st' = Some v0
  ∧ Class.popupVariantId st' = (fun _ => Some (variant_id v0)) <$> Class.popupVariantId st
  ∧ ClassPage.popupTitle (final_state r) = (fun _ => title q) <$> ClassPage.popupTitle pg
  ∧ Class.popupPrice st' = (fun _ => text) <$> Class.popupPrice st
  ∧ Class.addToCartBtn st' = Class.addToCartBtn st
  ∧ Class.variantSelections st' = Class.variantSelections (Class.renderVariants q st).
Proof.
  intros Hfmt Hv q r st st'. subst q r st st'. rewrite class_open_loaded. cbv zeta.
  match goal with
  | |- context [ ClassPage.populatePopup strip_html w json ?x ] =>
      pose proof (class_populate_spec strip_html w json x) as Hspec; set (pg1 := x) in *
  end.
  cbv zeta in Hspec. rewrite Hfmt, Hv in Hspec. cbn [head] in Hspec.
  destruct Hspec as (Et & Eact & Ehid & Eovf & Ecp & Eb & Ettl & Hrest).
  assert (Class.popupPrice (ClassPage.widget pg1) = Class.popupPrice (ClassPage.widget pg)
          ∧ Class.popupVariantId (ClassPage.widget pg1)
            = Class.popupVariantId (ClassPage.widget pg)
          ∧ Class.currentProduct (ClassPage.widget pg1) = Some (product json)
          ∧ Class.addToCartBtn (ClassPage.widget pg1) = Class.addToCartBtn (ClassPage.widget pg)
          ∧ ClassPage.popupTitle pg1 = (fun _ => "Loading...") <$> ClassPage.popupTitle pg
          ∧ Class.variantSelections (Class.renderVariants (product json) (ClassPage.widget pg1))
            = Class.variantSelections (Class.renderVariants (product json) (ClassPage.widget pg)))
    as (Hpr & Hvid & Hcp & Hb & Httl & Hsel).
  { subst pg1. rewrite !class_render_selections. by destruct pg as [[] ? ?]. }
  rewrite Hcp in Ecp. rewrite Hb in Eb. rewrite Httl in Ettl. rewrite Hpr, Hvid, Hsel in Hrest.
  clearbody pg1.
  destruct (ClassPage.populatePopup strip_html w json pg1) as [[pg2 t] o].
  unfold effects, outcome, final_state in *. cbn [fst snd] in *.
  assert (o = inr tt) as ->.
  { destruct (Class.popupPrice (ClassPage.widget pg)), (Class.popupVariantId (ClassPage.widget pg));
      by destruct Hrest as (_ & _ & _ & -> & _). }
  subst t. cbn [ClassPage.on_widget ClassPage.widget ClassPage.popupTitle].
  destruct pg2 as [st2 ttl2 dsc2]. cbn [ClassPage.widget ClassPage.popupTitle] in *.
  destruct pg as [st ttl dsc]. cbn [ClassPage.widget ClassPage.popupTitle] in *.
  assert (Class.selectedVariant st2 = Some v0
          ∧ Class.variantSelections st2
            = Class.variantSelections (Class.renderVariants (product json) st)
          ∧ Class.popupPrice st2 = (fun _ => text) <$> Class.popupPrice st
          ∧ Class.popupVariantId st2
            = (fun _ => Some (variant_id v0)) <$> Class.popupVariantId st)
    as (Esv & Esel & Epr & Evid).
  { destruct (Class.popupPrice st), (Class.popupVariantId st);
      destruct Hrest as (-> & -> & -> & _ & ->); by split_and!. }
  rewrite <- Esel, <- Epr, <- Evid, <- Eb.
  split_and!; try done; try (by destruct st2); by destruct ttl.
Qed.

(** X15.  A failed load in the class (rejection, non-2xx status,
    unreadable body) changes nothing but the title and the [active] mark:
    the popup keeps the product, the selected variant and the selections
    it held, so a submit still posts the variant that was selected before
    the load. *)
Theorem class_failed_load_keeps_previous_variant (strip_html : string → string)
    (w : Window) (productHandle : option string)
    (reply : Reply (ProductJson Class.ProductOption)) (pg : ClassPage.Page)
    (net : Network) (selected : Variant) (btn : Button) :
  load_failed reply →
  Class.selectedVariant (ClassPage.widget pg) = Some selected →
  Class.addToCartBtn (ClassPage.widget pg) = Some btn →
  let r := ClassPage.openPopup strip_html w productHandle reply pg in
  let st := ClassPage.widget pg in
  let st' := ClassPage.widget (final_state r) in
  effects r = [Fetch ("/products/" ++ default "null" productHandle ++ ".js");
               Console "Error loading product:"]
  ∧ outcome r = inr tt
  ∧ ClassPage.popupTitle (final_state r)
    = (fun _ => "Error loading product") <$> ClassPage.popupTitle pg
  ∧ st' = ClassPage.set_active st
  ∧ ∃ extra, posted (effects (Class.handleAddToCart w net st'))
             = [("/cart/add.js", line selected :: extra)].
Proof.
  intros Hfail Hsel Hbtn r st st'. subst r st st'.
  rewrite class_open_failed by done.
  unfold effects, outcome, final_state. cbn [fst snd].
  split_and!; try done.
  - by destruct pg as [? [?|] ?].
  - set (st' := ClassPage.widget _).
    assert (Class.selectedVariant st' = Some selected) as Hsel'
      by (subst st'; by destruct pg as [[] ? ?]).
    assert (Class.addToCartBtn st' = Some btn) as Hbtn'
      by (subst st'; by destruct pg as [[] ? ?]).
    clearbody st'.
    destruct (class_handleAddToCart_run w net st' selected btn Hsel' Hbtn')
      as (t & tail & st2 & res & -> & Hp & _ & _ & _ & Htail & _).
    unfold posted in *. cbn [fst snd]. rewrite omap_app, Hp. csimpl.
    rewrite Htail. unfold expected_items.
    destruct (_ && _); eexists; reflexivity.
Qed.


(** X17.  A product whose JSON lists no variant: the closure file opens it
    with no variant selected, so a submit sends nothing; the class, on a
    page with the hidden id field, fails on the missing variant after the
    product was stored and ends in its error state, the popup marked
    [active] but never shown ([aria-hidden] and the page scroll as they
    were). *)
Theorem product_without_variants (strip_html : string → string) (w : Window)
    (handle : string) (productHandle : option string)
    (json1 : ProductJson string) (json2 : ProductJson Class.ProductOption)
    (pg1 : ClosurePage.Page) (pg2 : ClassPage.Page) (net : Network) (x : option Z) :
  variants (product json1) = [] →
  variants (product json2) = [] →
  Class.popupVariantId (ClassPage.widget pg2) = Some x →
  let r1 := ClosurePage.openPopup strip_html w handle (Replied true (Some json1)) pg1 in
  let r2 := ClassPage.openPopup strip_html w productHandle (Replied true (Some json2)) pg2 in
  (effects r1 = [Fetch ("/products/" ++ handle ++ ".js")]
   ∧ ClosurePage.elTitle (final_state r1)
     = (fun _ => title (product json1)) <$> ClosurePage.elTitle pg1
   ∧ Closure.selectedVariant (ClosurePage.widget (final_state r1)) = None
   ∧ effects (Closure.handleAddToCart net (ClosurePage.widget (final_state r1))) = [])
  ∧ (effects r2 = [Fetch ("/products/" ++ default "null" productHandle ++ ".js");
                   Console "Error loading product:"]
     ∧ ClassPage.popupTitle (final_state r2)
       = (fun _ => "Error loading product") <$> ClassPage.popupTitle pg2
     ∧ Class.currentProduct (ClassPage.widget (final_state r2)) = Some (product json2)
     ∧ Class.active (ClassPage.widget (final_state r2)) = true
     ∧ Class.aria_hidden (ClassPage.widget (final_state r2))
       = Class.aria_hidden (ClassPage.widget pg2)
     ∧ Class.body_overflow (ClassPage.widget (final_state r2))
       = Class.body_overflow (ClassPage.widget pg2)).
Proof.
  intros Hv1 Hv2 Hid. cbv zeta. split.
  - destruct (closure_open_fields strip_html w handle json1 pg1)
      as (Et & _ & _ & _ & _ & Esv & _ & Ettl & _).
    rewrite Hv1 in Esv. cbn [head] in Esv.
    set (st' := ClosurePage.widget (final_state _)) in *. clearbody st'.
    split_and!; try done.
    unfold Closure.handleAddToCart, bind, get, ret, effects. cbn. by rewrite Esv.
  - rewrite class_open_loaded. cbv zeta.
    match goal with
    | |- context [ ClassPage.populatePopup strip_html w json2 ?x ] =>
        pose proof (class_populate_spec strip_html w json2 x) as Hspec; set (pg0 := x) in *
    end.
    cbv zeta in Hspec. rewrite Hv2 in Hspec. cbn [head] in Hspec.
    destruct Hspec as (Et & Eact & Ehid & Eovf & Ecp & _ & Ettl & Hrest).
    assert (Class.popupVariantId (ClassPage.widget pg0) = Some x
            ∧ Class.currentProduct (ClassPage.widget pg0) = Some (product json2)
            ∧ Class.active (ClassPage.widget pg0) = true
            ∧ Class.aria_hidden (ClassPage.widget pg0)
              = Class.aria_hidden (ClassPage.widget pg2)
            ∧ Class.body_overflow (ClassPage.widget pg0)
              = Class.body_overflow (ClassPage.widget pg2)
            ∧ ClassPage.popupTitle pg0 = (fun _ => "Loading...") <$> ClassPage.popupTitle pg2)
      as (Hvid & Hcp & Hact & Hhid & Hovf & Httl).
    { subst pg0. destruct pg2 as [[] ? ?]. simpl in Hid. by subst. }
    rewrite Hvid in Hrest. rewrite Hcp in Ecp. rewrite Hact in Eact.
    rewrite Hhid in Ehid. rewrite Hovf in Eovf. rewrite Httl in Ettl.
    clearbody pg0.
    assert (∃ e, outcome (ClassPage.populatePopup strip_html w json2 pg0) = inl e) as [e He].
    { destruct (Class.popupPrice (ClassPage.widget pg0)),
        (Class.formatMoney w (price (product json2)));
        first [ destruct Hrest as (-> & _); by eexists
              | destruct Hrest as (_ & _ & _ & -> & _); by eexists ]. }
    destruct (ClassPage.populatePopup strip_html w json2 pg0) as [[pg3 t] o].
    unfold effects, outcome, final_state in *. cbn [fst snd] in *. subst o t.
    destruct pg3 as [st3 ttl3 dsc3]. cbn in *. subst ttl3.
    split_and!; try done. by destruct (ClassPage.popupTitle pg2).
Qed.

(** X18.  With a money template that holds no placeholder, the class
    cannot open any product on a page that has the price element: whatever
    the answer to the request, the load ends in the error state, with the
    popup never shown and the selected variant, the selections and the
    pickers left as they were; a readable answer still replaces the stored
    product. *)
Theorem class_template_without_placeholder_blocks_loading (strip_html : string → string)
    (w : Window) (productHandle : option string)
    (reply : Reply (ProductJson Class.ProductOption)) (pg : ClassPage.Page)
    (old : string) :
  Js.placeholder_match (Class.formatString w) = None →
  Class.popupPrice (ClassPage.widget pg) = Some old →
  let r := ClassPage.openPopup strip_html w productHandle reply pg in
  let st := ClassPage.widget pg in
  let st' := ClassPage.widget (final_state r) in
  effects r = [Fetch ("/products/" ++ default "null" productHandle ++ ".js");
               Console "Error loading product:"]
  ∧ ClassPage.popupTitle (final_state r)
    = (fun _ => "Error loading product") <$> ClassPage.popupTitle pg
  ∧ Class.aria_hidden st' = Class.aria_hidden st
  ∧ Class.body_overflow st' = Class.body_overflow st
  ∧ Class.selectedVariant st' = Class.selectedVariant st
  ∧ Class.variantSelections st' = Class.variantSelections st
  ∧ Class.popupVariants st' = Class.popupVariants st
  ∧ Class.popupPrice st' = Some old
  ∧ Class.currentProduct st'
    = match reply with
      | Replied true (Some json) => Some (product json)
      | _ => Class.currentProduct st
      end.
Proof.
  intros Hnone Hprice. cbv zeta.
  destruct reply as [|[] [json|]];
    try (rewrite class_open_failed by done;
         unfold effects, final_state; cbn [fst snd];
         destruct pg as [[] [?|] ?]; simpl in *; by split_and!).
  rewrite class_open_loaded. cbv zeta.
  match goal with
  | |- context [ ClassPage.populatePopup strip_html w json ?x ] =>
      pose proof (class_populate_spec strip_html w json x) as Hspec; set (pg0 := x) in *
  end.
  cbv zeta in Hspec.
  assert (Class.formatMoney w (price (product json)) = inl TypeError) as Hfmt
    by (unfold Class.formatMoney; by rewrite Hnone).
  assert (Class.popupPrice (ClassPage.widget pg0) = Some old
          ∧ Class.aria_hidden (ClassPage.widget pg0) = Class.aria_hidden (ClassPage.widget pg)
          ∧ Class.body_overflow (ClassPage.widget pg0)
            = Class.body_overflow (ClassPage.widget pg)
          ∧ Class.selectedVariant (ClassPage.widget pg0)
            = Class.selectedVariant (ClassPage.widget pg)
          ∧ Class.variantSelections (ClassPage.widget pg0)
            = Class.variantSelections (ClassPage.widget pg)
          ∧ Class.popupVariants (ClassPage.widget pg0)
            = Class.popupVariants (ClassPage.widget pg)
          ∧ ClassPage.popupTitle pg0 = (fun _ => "Loading...") <$> ClassPage.popupTitle pg
          ∧ Class.currentProduct (ClassPage.widget pg0) = Some (product json))
    as (Hpr & Hhid & Hovf & Hsv & Hsel & Hvars & Httl & Hcp).
  { subst pg0. destruct pg as [[] ? ?]. simpl in Hprice. by subst. }
  rewrite Hfmt, Hpr in Hspec.
  destruct Hspec as (Et & _ & Ehid & Eovf & Ecp & _ & Ettl & Eo & Esv & Esel & Evars & _ & Epr).
  rewrite Hcp in Ecp. rewrite Hhid in Ehid. rewrite Hovf in Eovf. rewrite Hsv in Esv. rewrite Hsel in Esel.
  rewrite Hvars in Evars. rewrite Httl in Ettl.
  clearbody pg0.
  destruct (ClassPage.populatePopup strip_html w json pg0) as [[pg3 t] o].
  unfold effects, outcome, final_state in *. cbn [fst snd] in *. subst o t.
  destruct pg3 as [st3 ttl3 dsc3]. cbn in *. subst ttl3.
  split_and!; try done. by destruct (ClassPage.popupTitle pg).
Qed.

(** X19.  A click on a hotspot that carries no product handle: the
    closure file does nothing at all, the class requests
    [/products/null.js]. *)
Theorem hotspot_without_handle (strip_html : string → string) (w : Window)
    (reply1 : Reply (ProductJson string)) (reply2 : Reply (ProductJson Class.ProductOption))
    (pg1 : ClosurePage.Page) (pg2 : ClassPage.Page) :
  ClosurePage.onClick strip_html w (Hotspot None) reply1 pg1 = (pg1, [], inr tt)
  ∧ ClosurePage.onClick strip_html w (Hotspot (Some "")) reply1 pg1 = (pg1, [], inr tt)
  ∧ fetched (effects (ClassPage.onClick strip_html w (Hotspot None) reply2 pg2))
    = ["/products/null.js"].
Proof.
  split_and!; try reflexivity.
  unfold ClassPage.onClick.
  destruct reply2 as [|[] [json|]];
    try (by rewrite class_open_failed).
  rewrite class_open_loaded. cbv zeta.
  match goal with
  | |- context [ ClassPage.populatePopup strip_html w json ?x ] =>
      pose proof (class_populate_spec strip_html w json x) as (Et & _); set (pg0 := x) in *
  end.
  clearbody pg0.
  destruct (ClassPage.populatePopup strip_html w json pg0) as [[pg3 t] [e|[]]];
    unfold effects in *; cbn [fst snd] in *; by subst t.
Qed.

(** ** The theorems above on the sample pages *)

Lemma default_selections_resolve_to_first_variant_witness :
  Closure.find_match tee_closure (Closure.selections closure_rendered) = Some tee_red_small
  ∧ Class.find_match tee_class (Class.variantSelections class_rendered) = Some tee_red_small.
Proof.
  apply (default_selections_resolve_to_first_variant tee_closure tee_class
           (closure_loaded tee_closure) (class_loaded tee_class)
           tee_red_small [tee_black_medium]); try reflexivity.
  - apply NoDup_cons. split; [not_in_list|]. apply NoDup_cons. split; [not_in_list|].
    apply NoDup_nil_2.
  - intros [|[|i]] k Hk; simpl in Hk; [reflexivity|reflexivity|discriminate Hk].
Defined.

Lemma closure_load_agrees_with_resolver_witness :
  let st' := ClosurePage.widget
               (final_state
                  (ClosurePage.openPopup (fun s => s) no_window "tee"
                     (Replied true (Some tee_json_closure)) closure_page)) in
  Closure.selectedVariant st' = Some tee_red_small
  ∧ Closure.find_match tee_closure (Closure.selections st') = Some tee_red_small
  ∧ ∃ extra, posted (effects (Closure.handleAddToCart network_up st'))
             = [("/cart/add.js", line tee_red_small :: extra)].
Proof.
  apply (closure_load_agrees_with_resolver (fun s => s) no_window "tee" tee_json_closure
           closure_page network_up tee_red_small [tee_black_medium] submit_button);
    try reflexivity.
  - apply NoDup_cons. split; [not_in_list|]. apply NoDup_cons. split; [not_in_list|].
    apply NoDup_nil_2.
  - intros [|[|i]] k Hk; simpl in Hk; [reflexivity|reflexivity|discriminate Hk].
Defined.


Lemma closure_state_stays_coherent_witness :
  coherent (ClosurePage.widget
              (ClosurePage.page
                 (ClosurePage.run (fun s => s) no_window closure_session tee_session))).
Proof.
  apply (closure_state_stays_coherent (fun s => s) no_window closure_session tee_session).
  reflexivity.
Defined.

Lemma class_load_selects_first_variant_witness :
  let r := ClassPage.openPopup (fun s => s) no_window (Some "tee")
             (Replied true (Some tee_json_class)) class_page in
  effects r = [Fetch "/products/tee.js"]
  ∧ Class.selectedVariant (ClassPage.widget (final_state r)) = Some tee_red_small
  ∧ Class.popupPrice (ClassPage.widget (final_state r)) = Some "$25.00"
  ∧ Class.popupVariantId (ClassPage.widget (final_state r)) = Some (Some 101).
Proof.
  destruct (class_load_selects_first_variant (fun s => s) no_window (Some "tee")
              tee_json_class class_page "$25.00" tee_red_small [tee_black_medium]
              eq_refl eq_refl) as (H1 & _ & _ & _ & _ & _ & H2 & H3 & _ & H4 & _).
  split_and!; [exact H1|exact H2|exact H4|exact H3].
Defined.

Lemma class_failed_load_keeps_previous_variant_witness :
  let r := ClassPage.openPopup (fun s => s) no_window (Some "mug") Rejected
             class_page_black_medium in
  ClassPage.popupTitle (final_state r) = Some "Error loading product"
  ∧ ∃ extra, posted (effects (Class.handleAddToCart no_window network_up
                                (ClassPage.widget (final_state r))))
             = [("/cart/add.js", line tee_black_medium :: extra)].
Proof.
  destruct (class_failed_load_keeps_previous_variant (fun s => s) no_window (Some "mug")
              Rejected class_page_black_medium network_up tee_black_medium submit_button
              I eq_refl eq_refl) as (_ & _ & H1 & _ & H2).
  split; [exact H1|exact H2].
Defined.


Lemma product_without_variants_witness :
  Closure.selectedVariant
    (ClosurePage.widget
       (final_state
          (ClosurePage.openPopup (fun s => s) no_window "bare"
             (Replied true (Some {| product := bare_closure; description := None |}))
             closure_page))) = None
  ∧ ClassPage.popupTitle
      (final_state
         (ClassPage.openPopup (fun s => s) no_window (Some "bare")
            (Replied true (Some {| product := bare_class; description := None |}))
            class_page)) = Some "Error loading product".
Proof.
  destruct (product_without_variants (fun s => s) no_window "bare" (Some "bare")
              {| product := bare_closure; description := None |}
              {| product := bare_class; description := None |}
              closure_page class_page network_up None eq_refl eq_refl eq_refl)
    as [(_ & _ & H1 & _) (_ & H2 & _)].
  split; [exact H1|exact H2].
Defined.

Lemma class_template_without_placeholder_blocks_loading_witness :
  let r := ClassPage.openPopup (fun s => s) (template "EUR") (Some "tee")
             (Replied true (Some tee_json_class)) class_page in
  effects r = [Fetch "/products/tee.js"; Console "Error loading product:"]
  ∧ Class.aria_hidden (ClassPage.widget (final_state r)) = true.
Proof.
  destruct (class_template_without_placeholder_blocks_loading (fun s => s) (template "EUR")
              (Some "tee") (Replied true (Some tee_json_class)) class_page ""
              eq_refl eq_refl) as (H1 & _ & H2 & _).
  split; [exact H1|exact H2].
Defined.

(** ** The pickers and the selections *)

Section Display.
Implicit Types (groups : list PickerGroup) (sel : gmap string string) (w : Window).










End Display.



(** ** Coherence of the class's state *)

Section ClassCoherence.
Variable strip_html : string → string.
Implicit Types (w : Window) (st : Class.State) (pg : ClassPage.Page).

Lemma class_coherent_same st st' :
  Class.currentProduct st' = Class.currentProduct st →
  Class.selectedVariant st' = Class.selectedVariant st →
  Class.popupVariantId st' = Class.popupVariantId st →
  class_coherent st → class_coherent st'.
Proof. unfold class_coherent. by intros -> -> ->. Qed.

Lemma class_coherent_cleared st : Class.selectedVariant st = None → class_coherent st.
Proof. intros Hv. unfold class_coherent. rewrite Hv. by split_and!. Qed.

Lemma class_coherent_updateSelectedVariant w st :
  class_coherent st → class_coherent (final_state (Class.updateSelectedVariant w st)).
Proof.
  intros H. unfold Class.updateSelectedVariant, bind at 1, get at 1.
  destruct (Class.currentProduct st) as [q|] eqn:Hq; [|exact H].
  destruct (Class.find_match q (Class.variantSelections st)) as [m|] eqn:Hm; [|exact H].
  clear H. apply find_some_elem in Hm.
  destruct st as [act hid ovf im pr vars vid b cp sv sl]. simpl in Hq. subst cp.
  unfold bind, modify, ret, throw, final_state. cbn.
  destruct pr, (Class.formatMoney w (variant_price m)), (variant_featured_image m);
    unfold class_coherent; cbn;
    (split; [intros v [= <-]; by exists q
            | intros v x [= <-]; destruct vid; simpl; congruence]).
Qed.

Lemma class_coherent_handleVariantSelection w g i st :
  class_coherent st → class_coherent (final_state (Class.handleVariantSelection w g i st)).
Proof.
  intros H. unfold Class.handleVariantSelection, bind at 1, get at 1.
  destruct (Class.popupVariants st) as [groups|]; [|exact H].
  destruct (groups !! g) as [group|]; [|exact H].
  destruct (_ !! i) as [val|]; [|exact H].
  unfold bind at 1, modify at 1. unfold bind at 1, modify at 1.
  match goal with
  | |- context [ Class.updateSelectedVariant w ?s ] =>
      assert (class_coherent s) as Hs by (revert H; by apply class_coherent_same);
      apply (class_coherent_updateSelectedVariant w) in Hs;
      destruct (Class.updateSelectedVariant w s) as [[s' t] o]
  end.
  exact Hs.
Qed.

Lemma class_coherent_handleAddToCart w net st :
  class_coherent st → class_coherent (final_state (Class.handleAddToCart w net st)).
Proof.
  destruct (class_handleAddToCart_frame w net st) as [b ->]. by apply class_coherent_same.
Qed.

Lemma class_coherent_fire cb st : class_coherent st → class_coherent (Class.fire cb st).
Proof.
  intros H. destruct cb as [originalText|originalText]; simpl.
  - by apply class_coherent_cleared.
  - revert H. by apply class_coherent_same.
Qed.

Lemma class_coherent_openPopup w productHandle reply pg :
  Js.placeholder_match (Class.formatString w) ≠ None →
  class_coherent (ClassPage.widget pg) →
  class_coherent
    (ClassPage.widget (final_state (ClassPage.openPopup strip_html w productHandle reply pg))).
Proof.
  intros Hph H.
  destruct reply as [|[] [json|]];
    try (rewrite class_open_failed by done;
         revert H; apply class_coherent_same; by destruct pg as [[] ? ?]).
  rewrite class_open_loaded. cbv zeta.
  match goal with
  | |- context [ ClassPage.populatePopup strip_html w json ?x ] =>
      pose proof (class_populate_spec strip_html w json x) as Hspec; set (pg0 := x) in *
  end.
  cbv zeta in Hspec.
  destruct Hspec as (_ & _ & _ & _ & Ecp & _ & _ & Hrest).
  assert (Class.currentProduct (ClassPage.widget pg0) = Some (product json)) as Hcp
    by (subst pg0; by destruct pg as [[] ? ?]).
  rewrite Hcp in Ecp.
  assert (∃ text, Class.formatMoney w (price (product json)) = inr text) as [text Hfmt].
  { unfold Class.formatMoney. destruct (Js.placeholder_match _) as [[[??]?]|]; [|done].
    by eexists. }
  rewrite Hfmt in Hrest.
  assert (class_coherent
            (ClassPage.widget
               (final_state (ClassPage.populatePopup strip_html w json pg0)))) as Hpop.
  { assert (Class.selectedVariant
              (ClassPage.widget
                 (final_state (ClassPage.populatePopup strip_html w json pg0)))
            = head (variants (product json))
            ∧ Class.popupVariantId
                (ClassPage.widget
                   (final_state (ClassPage.populatePopup strip_html w json pg0)))
              = match Class.popupVariantId (ClassPage.widget pg0),
                      head (variants (product json)) with
                | Some _, Some v => Some (Some (variant_id v))
                | x, _ => x
                end) as [Esv Evid].
    { by destruct (Class.popupPrice (ClassPage.widget pg0));
        destruct Hrest as (? & _ & _ & _ & ?). }
    unfold class_coherent. rewrite Ecp, Esv, Evid. split.
    - intros v Hv. exists (product json). split; [done|].
      destruct (variants (product json)) as [|v0 rest]; [done|].
      injection Hv as <-. apply elem_of_cons. by left.
    - intros v x Hv. rewrite Hv.
      destruct (Class.popupVariantId (ClassPage.widget pg0)); [|done]. by intros [= <-]. }
  clear Hrest Ecp. clearbody pg0.
  destruct (ClassPage.populatePopup strip_html w json pg0) as [[pg3 t] [e|[]]];
    unfold outcome, final_state in *; cbn [fst snd] in *;
    revert Hpop; apply class_coherent_same; by destruct pg3 as [[] ? ?].
Qed.

Lemma class_coherent_step w pg e :
  Js.placeholder_match (Class.formatString w) ≠ None →
  class_coherent (ClassPage.widget pg) →
  class_coherent (ClassPage.widget (ClassPage.step strip_html w pg e)).
Proof.
  intros Hph H. destruct e as [target reply|key|g i|net|cb]; simpl.
  - destruct target as [h| | |]; simpl.
    + by apply class_coherent_openPopup.
    + by apply class_coherent_cleared.
    + by apply class_coherent_cleared.
    + exact H.
  - unfold ClassPage.onKeydown. destruct (_ && _); [|exact H].
    by apply class_coherent_cleared.
  - by apply class_coherent_handleVariantSelection.
  - by apply class_coherent_handleAddToCart.
  - by apply class_coherent_fire.
Qed.

Lemma class_coherent_run w pg events :
  Js.placeholder_match (Class.formatString w) ≠ None →
  class_coherent (ClassPage.widget pg) →
  class_coherent (ClassPage.widget (ClassPage.run strip_html w pg events)).
Proof.
  intros Hph. revert pg. induction events as [|e events IH]; intros pg H; [exact H|].
  apply IH. by apply class_coherent_step.
Qed.
End ClassCoherence.

(** X21.  With a money template that holds a placeholder, the class's
    state stays coherent through any sequence of clicks, keys, picks,
    submits and timers, with any answers from the network: a selected
    variant is one of the current product's variants, and the hidden field
    (where the page has one) carries its id.  (Handlers are run one after
    the other.) *)
Theorem class_state_stays_coherent (strip_html : string → string) (w : Window)
    (pg : ClassPage.Page) (events : list ClassPage.Event) :
  Js.placeholder_match (Class.formatString w) ≠ None →
  Class.selectedVariant (ClassPage.widget pg) = None →
  class_coherent (ClassPage.widget (ClassPage.run strip_html w pg events)).
Proof.
  intros Hph Hv. apply class_coherent_run; [done|]. by apply class_coherent_cleared.
Qed.

Lemma class_state_stays_coherent_witness :
  class_coherent
    (ClassPage.widget (ClassPage.run (fun s => s) no_window class_page tee_session_class)).
Proof.
  apply (class_state_stays_coherent (fun s => s) no_window class_page tee_session_class).
  - discriminate.
  - reflexivity.
Defined.

(** ** An answer that settles late *)

(** X22.  The load has no cancellation.  An answer that settles before
    anything else happens leaves the page as the load run without
    interruption does; when the popup is closed with Escape while the
    answer is out, the answer still stores the product and its first
    variant and writes the title, in a popup that stays hidden. *)
Theorem late_answer_fills_closed_popup (strip_html : string → string) (w : Window)
    (handle : string) (json : ProductJson string) (reply : Reply (ProductJson string))
    (pg : ClosurePage.Page) (n : nat) (v0 : Variant) (rest : list Variant) :
  handle ≠ "" →
  variants (product json) = v0 :: rest →
  let s := {| ClosurePage.page := pg; ClosurePage.in_flight := n |} in
  let direct :=
    ClosurePage.run strip_html w s
      [ClosurePage.Click (Hotspot (Some handle)); ClosurePage.Answer reply] in
  let raced :=
    ClosurePage.run strip_html w s
      [ClosurePage.Click (Hotspot (Some handle)); ClosurePage.Keydown "Escape";
       ClosurePage.Answer (Replied true (Some json))] in
  ClosurePage.page direct
  = final_state (ClosurePage.openPopup strip_html w handle reply pg)
  ∧ ClosurePage.in_flight direct = n
  ∧ Closure.aria_hidden (ClosurePage.widget (ClosurePage.page raced)) = true
  ∧ Closure.currentProduct (ClosurePage.widget (ClosurePage.page raced))
    = Some (product json)
  ∧ Closure.selectedVariant (ClosurePage.widget (ClosurePage.page raced)) = Some v0
  ∧ ClosurePage.elTitle (ClosurePage.page raced)
    = (fun _ => title (product json)) <$> ClosurePage.elTitle pg.
Proof.
  intros Hhandle Hv. cbv zeta.
  assert (Js.truthy (Some handle) = true) as Htruthy by (by apply truthy_Some).
  set (pg1 := ClosurePage.on_widget
                (fun st =>
                   ClosurePage.setLoading true
                     (ClosurePage.showPopup
                        (Closure.set_selections ∅
                           (Closure.set_selectedVariant None
                              (Closure.set_currentProduct None st))))) pg).
  assert (ClosurePage.step strip_html w
            {| ClosurePage.page := pg; ClosurePage.in_flight := n |}
            (ClosurePage.Click (Hotspot (Some handle)))
          = {| ClosurePage.page := pg1; ClosurePage.in_flight := S n |}) as Hclick.
  { unfold ClosurePage.step, ClosurePage.onClick_start, ClosurePage.opens.
    rewrite Htruthy. cbn [ClosurePage.page ClosurePage.in_flight default from_option].
    by rewrite closure_start_page. }
  assert (ClosurePage.onKeydown "Escape" pg1 = ClosurePage.on_widget Closure.closePopup pg1)
    as Hescape by (subst pg1; by destruct pg as [[] ? ?]).
  unfold ClosurePage.run. cbn [fold_left]. rewrite !Hclick.
  cbn [ClosurePage.step ClosurePage.page ClosurePage.in_flight]. rewrite Hescape.
  split_and!.
  - rewrite (openPopup_split strip_html). unfold bind at 1. rewrite closure_start_page.
    fold pg1. by destruct (ClosurePage.openPopup_settle strip_html w reply pg1) as [[? ?] ?].
  - reflexivity.
  - rewrite closure_settle_loaded. unfold final_state. cbn [fst].
    match goal with
    | |- context [ ClosurePage.populatePopup strip_html w json ?x ] =>
        destruct (closure_populate_fields strip_html w json x) as (_ & _ & Ehid & _);
        destruct (ClosurePage.populatePopup strip_html w json x) as [st2 ? ?]
    end.
    cbn [ClosurePage.widget ClosurePage.on_widget] in *.
    transitivity (Closure.aria_hidden st2); [destruct st2; reflexivity|]. rewrite Ehid.
    subst pg1. by destruct pg as [[] ? ?].
  - rewrite closure_settle_loaded. unfold final_state. cbn [fst].
    match goal with
    | |- context [ ClosurePage.populatePopup strip_html w json ?x ] =>
        destruct (closure_populate_fields strip_html w json x) as (Ecp & _);
        destruct (ClosurePage.populatePopup strip_html w json x) as [st2 ? ?]
    end.
    cbn [ClosurePage.widget ClosurePage.on_widget] in *.
    transitivity (Closure.currentProduct st2); [destruct st2; reflexivity|]. rewrite Ecp.
    subst pg1. by destruct pg as [[] ? ?].
  - rewrite closure_settle_loaded. unfold final_state. cbn [fst].
    match goal with
    | |- context [ ClosurePage.populatePopup strip_html w json ?x ] =>
        destruct (closure_populate_fields strip_html w json x) as (_ & Esv & _);
        destruct (ClosurePage.populatePopup strip_html w json x) as [st2 ? ?]
    end.
    cbn [ClosurePage.widget ClosurePage.on_widget] in *.
    transitivity (Closure.selectedVariant st2); [destruct st2; reflexivity|].
    rewrite Esv, Hv. reflexivity.
  - rewrite closure_settle_loaded. unfold final_state. cbn [fst].
    subst pg1. by destruct pg as [[] [?|] ?].
Qed.

Lemma late_answer_fills_closed_popup_witness :
  let raced :=
    ClosurePage.run (fun s => s) no_window
      {| ClosurePage.page := closure_page; ClosurePage.in_flight := 0 |}
      [ClosurePage.Click (Hotspot (Some "tee")); ClosurePage.Keydown "Escape";
       ClosurePage.Answer (Replied true (Some tee_json_closure))] in
  Closure.aria_hidden (ClosurePage.widget (ClosurePage.page raced)) = true
  ∧ Closure.selectedVariant (ClosurePage.widget (ClosurePage.page raced))
    = Some tee_red_small.
Proof.
  assert ("tee" ≠ "") as Hne by discriminate.
  destruct (late_answer_fills_closed_popup (fun s => s) no_window "tee" tee_json_closure
              Rejected closure_page 0 tee_red_small [tee_black_medium] Hne eq_refl)
    as (_ & _ & H1 & _ & H2 & _).
  split; [exact H1|exact H2].
Defined.
